(** * Referral webhook (api/telegram.js): model and verification

    The source file holds three revisions of the same webhook handler.
    They are embedded here as the modules [V1], [V2] and [V3], in the
    order in which they appear in the file:

    - [V1]: lines 1-178, transaction with a re-read after its first writes;
    - [V2]: lines 179-377, transaction with all reads before all writes;
    - [V3]: lines 378-644, [processReferralReward] with field increments.

    The record store (Firestore) and the bot client are external.  Their
    behaviour is modelled in the modules [JS] and [Firestore]; a
    transaction is an atomic step on the store, which is the guarantee
    the store gives to concurrent callers. *)

From stdpp Require Import base strings gmap list pretty.
From Stdlib Require Import ZArith Lia Ascii.

Open Scope Z_scope.

(** ** JavaScript values and string primitives *)

Module JS.

(** The scalar values a user document holds.  The numbers modelled are
    those with an integer value; the store keeps a number either as a
    64-bit integer ([JNum]) or as a double ([JDbl], here with the integer
    it stands for).  [undefined] is not a stored value: an expression
    that may be undefined has type [option jsval], with [None] for
    undefined. *)
Inductive jsval :=
| JNull
| JBool (b : bool)
| JNum (n : Z)
| JDbl (n : Z)
| JStr (s : string).

#[global] Instance jsval_eq_dec : EqDecision jsval.
Proof. solve_decision. Defined.

(** ToBoolean. *)
Definition truthy (v : option jsval) : bool :=
  match v with
  | None => false
  | Some JNull => false
  | Some (JBool b) => b
  | Some (JNum n) => negb (n =? 0)
  | Some (JDbl n) => negb (n =? 0)
  | Some (JStr s) => negb (String.eqb s "")
  end.

(** [a || b] where [b] is a defined value. *)
Definition or_else (a : option jsval) (b : jsval) : jsval :=
  match a with
  | Some v => if truthy a then v else b
  | None => b
  end.

(** A JavaScript number is a double.  [round53 x] is the double nearest
    to the integer [x]: [x] itself while it has at most 53 significant
    bits, else [x] rounded to 53 significant bits, ties to the even one.
    (Beyond the largest double the language has Infinity; no stored
    number, a 64-bit integer or a double, is that large, and adding a
    small literal to a double never gets there.) *)
Definition round53 (x : Z) : Z :=
  let a := Z.abs x in
  if a <? 2 ^ 53 then x
  else
    let e := Z.log2 a - 52 in
    let q := a / 2 ^ e in
    let r := a mod 2 ^ e in
    let half := 2 ^ (e - 1) in
    let q' := if (half <? r) || ((r =? half) && Z.odd q) then q + 1 else q in
    Z.sgn x * (q' * 2 ^ e).

(** [Number.isSafeInteger]. *)
Definition safe_integer (x : Z) : bool := Z.abs x <? 2 ^ 53.

(** A number as the store client encodes it when it is written: a safe
    integer as an integer, any other number as a double. *)
Definition number (x : Z) : jsval :=
  if safe_integer x then JNum x else JDbl x.

(** The number a stored value is read as. *)
Definition to_number (m : Z) : Z := round53 m.

(** [a + n] for a defined value [a] and a number literal [n], as the
    value that is written when the result is stored. *)
Definition plus (a : jsval) (n : Z) : jsval :=
  match a with
  | JNull => number n
  | JBool b => number (Z.b2z b + n)
  | JNum m => number (round53 (to_number m + n))
  | JDbl m => number (round53 (to_number m + n))
  | JStr s => JStr (s +:+ pretty n)
  end.

(** A string that may be null or undefined, seen as a value. *)
Definition of_string (o : option string) : option jsval := JStr <$> o.

(** [a || b] where [a] is a string or missing and [b] is a string. *)
Definition str_or_else (a : option string) (b : string) : string :=
  match a with
  | Some s => if truthy (Some (JStr s)) then s else b
  | None => b
  end.

(** [s.startsWith(p)]. *)
Definition startsWith (s p : string) : bool := String.prefix p s.

(** [s.split(c)] for a one-character separator. *)
Fixpoint split (c : Ascii.ascii) (s : string) : list string :=
  match s with
  | EmptyString => [EmptyString]
  | String a r =>
      if Ascii.eqb a c then EmptyString :: split c r
      else match split c r with
           | h :: t => String a h :: t
           | [] => [String a EmptyString]
           end
  end.

(** [s.replace(pat, rep)] with a string pattern: the first occurrence. *)
Definition replace (s pat rep : string) : string :=
  match String.index 0 pat s with
  | Some i =>
      String.substring 0 i s +:+ rep +:+
      String.substring (i + String.length pat)
                       (String.length s - (i + String.length pat)) s
  | None => s
  end.

(** [s.indexOf(pat) >= 0]. *)
Definition includes (s pat : string) : bool :=
  match String.index 0 pat s with Some _ => true | None => false end.

(** [n.toString()] for an integer. *)
Definition toString (n : Z) : string := pretty n.

(** Exceptions. *)
Inductive exn :=
| TypeError          (* property access on undefined, or a call on a non-function *)
| InvalidArgument    (* rejected by the store client before any request *)
| NotFound           (* update of a document that does not exist *)
| Unavailable.       (* the external service failed *)

Inductive result (A : Type) :=
| Ok (a : A)
| Throw (e : exn).
Arguments Ok {A} a.
Arguments Throw {A} e.

End JS.

Export JS.

(** ** The record store *)

Module Firestore.

(** A user document: field name to value. *)
Abbreviation doc := (gmap string jsval).

(** A document of the collection [ref_rewards]; [createdAt] is the time
    the server assigned at commit. *)
Record reward := Reward {
  r_userId : jsval;
  r_referrerId : jsval;
  r_reward : Z;
  r_createdAt : Z
}.

#[global] Instance reward_eq_dec : EqDecision reward.
Proof. solve_decision. Defined.

(** A document reference inside a collection: the path segments below
    the collection.  A record of the collection itself has one segment. *)
Abbreviation docref := (list string).

(** The store.  [users] holds the documents reached through
    [doc(db, 'users', id)], [ref_rewards] those reached through
    [doc(db, 'ref_rewards', id)]. *)
Record firestore := Store {
  users : gmap docref doc;
  ref_rewards : gmap docref reward
}.

(** [doc(db, collection, id)]: the client splits [id] at slashes, drops
    empty segments, refuses a double slash, and refuses a path that does
    not name a document (collection and segments must be even in number). *)
Definition doc_path (id : string) : result docref :=
  if includes id "//" then Throw InvalidArgument
  else
    let segs := List.filter (fun s => negb (String.eqb s "")) (split "/"%char id) in
    if Nat.even (1 + length segs) then Ok segs else Throw InvalidArgument.

(** [doc] applied to a JS value: anything but a string has no [indexOf]. *)
Definition doc_of (v : option jsval) : result docref :=
  match v with
  | Some (JStr s) => doc_path s
  | _ => Throw TypeError
  end.

(** A field of a write: a plain value or the transform [increment(n)]. *)
Inductive fieldval :=
| FVal (v : jsval)
| FIncrement (n : Z).

(** The server caps integer arithmetic at the bounds of 64-bit integers. *)
Definition clamp64 (x : Z) : Z := Z.max (- 2 ^ 63) (Z.min (2 ^ 63 - 1) x).

(** [increment(n)] is applied by the server: to an integer field with
    integer arithmetic, capped; to a double field with the arithmetic of
    doubles; a field that is missing or holds no number is set to [n]. *)
Definition apply_field (old : option jsval) (f : fieldval) : jsval :=
  match f with
  | FVal v => v
  | FIncrement n =>
      match old with
      | Some (JNum m) => JNum (clamp64 (m + n))
      | Some (JDbl m) => JDbl (round53 (round53 m + n))
      | _ => JNum n
      end
  end.

(** Merging a write into a document: the written fields replace or
    transform the stored ones, every other field stays. *)
Definition merge_doc (data : gmap string fieldval) (d : doc) : doc :=
  merge (fun f old => match f with
                      | Some f => Some (apply_field old f)
                      | None => old
                      end) data d.

Definition plain (data : gmap string jsval) : gmap string fieldval :=
  FVal <$> data.

(** [setDoc(ref, data, { merge: true })], also the transaction's
    [set(ref, data, { merge: true })]: creates the document if needed. *)
Definition set_merge (ref : docref) (data : gmap string fieldval)
    (db : firestore) : firestore :=
  Store (<[ref := merge_doc data (default ∅ (users db !! ref))]> (users db))
        (ref_rewards db).

(** [setDoc(ref, data)]: replaces the document. *)
Definition set_doc (ref : docref) (data : doc) (db : firestore) : firestore :=
  Store (<[ref := data]> (users db)) (ref_rewards db).

(** The writes a transaction buffers. *)
Inductive write :=
| WUpdate (ref : docref) (data : gmap string fieldval)
| WSetMerge (ref : docref) (data : gmap string fieldval)
| WSetReward (ref : docref) (userId referrerId : jsval) (amount : Z).

(** One buffered write applied at commit time [now]; an update of a
    missing document fails. *)
Definition apply_write (now : Z) (db : firestore) (w : write) : option firestore :=
  match w with
  | WUpdate ref data =>
      match users db !! ref with
      | Some d => Some (Store (<[ref := merge_doc data d]> (users db)) (ref_rewards db))
      | None => None
      end
  | WSetMerge ref data => Some (set_merge ref data db)
  | WSetReward ref u r a =>
      Some (Store (users db) (<[ref := Reward u r a now]> (ref_rewards db)))
  end.

Fixpoint commit (now : Z) (ws : list write) (db : firestore) : option firestore :=
  match ws with
  | [] => Some db
  | w :: ws' =>
      match apply_write now db w with
      | Some db' => commit now ws' db'
      | None => None
      end
  end.

(** The body of a transaction: it reads from the snapshot taken when
    the attempt starts and appends to the list of buffered writes. *)
Definition tx (A : Type) : Type :=
  firestore -> list write -> result (A * list write).

Definition tx_ret {A} (a : A) : tx A := fun _ ws => Ok (a, ws).

Definition tx_bind {A B} (m : tx A) (k : A -> tx B) : tx B :=
  fun snap ws =>
    match m snap ws with
    | Ok (a, ws') => k a snap ws'
    | Throw e => Throw e
    end.

Definition tx_lift {A} (r : result A) : tx A :=
  fun _ ws => match r with Ok a => Ok (a, ws) | Throw e => Throw e end.

(** [transaction.get(ref)].  The client refuses a read once a write has
    been buffered: all reads come before all writes. *)
Definition tx_get (ref : docref) : tx (option doc) :=
  fun snap ws =>
    match ws with
    | [] => Ok (users snap !! ref, ws)
    | _ :: _ => Throw InvalidArgument
    end.

Definition tx_write (w : write) : tx unit :=
  fun _ ws => Ok (tt, ws ++ [w]).

(** [transaction.update(ref, data)]. *)
Definition tx_update (ref : docref) (data : gmap string fieldval) : tx unit :=
  tx_write (WUpdate ref data).

(** [transaction.set(ref, data, { merge: true })]. *)
Definition tx_set_merge (ref : docref) (data : gmap string fieldval) : tx unit :=
  tx_write (WSetMerge ref data).

(** [transaction.set(rewardRef, { userId, referrerId, reward, createdAt:
    serverTimestamp() })]. *)
Definition tx_set_reward (ref : docref) (userId referrerId : jsval) (amount : Z)
  : tx unit :=
  tx_write (WSetReward ref userId referrerId amount).

(** [runTransaction(db, body)] as one atomic step: the body runs on the
    current state, its writes are applied together or not at all.  With
    [fails] the store gives up (no connection, retries exhausted). *)
Definition runTransaction {A} (fails : bool) (now : Z) (body : tx A)
    (db : firestore) : result A * firestore :=
  if fails then (Throw Unavailable, db)
  else
    match body db [] with
    | Throw e => (Throw e, db)
    | Ok (a, ws) =>
        match commit now ws db with
        | Some db' => (Ok a, db')
        | None => (Throw NotFound, db)
        end
    end.

#[global] Instance tx_mret : MRet tx := @tx_ret.
#[global] Instance tx_mbind : MBind tx := fun A B k m => tx_bind m k.

End Firestore.

Export Firestore.

(** ** The webhook's surroundings *)

Module Webhook.

(** The inbound update, as far as the handlers look at it.  A field that
    may be missing from the JSON body is an [option]. *)
Record tg_user := TgUser {
  id : Z;
  is_bot : bool;
  first_name : option string
}.

Record tg_message := TgMessage {
  from : option tg_user;
  chat : option Z;              (* [message.chat], given by its [id] *)
  text : option string
}.

Record request := Request {
  method : string;
  body : option (option tg_message)   (* [req.body], then [body.message] *)
}.

(** What the outside world does during one invocation: the photo the
    bot finds for the user ([getUserPhoto] catches its own errors and
    returns null), the server time, and which external calls fail. *)
Record env := Env {
  photo : option string;
  now : Z;
  getDoc_fails : bool;
  setDoc_fails : bool;
  transaction_fails : bool;
  sendPhoto_fails : bool
}.

(** The state an invocation acts on: the store and the welcome messages
    sent so far (the chat each one went to). *)
Record world := World {
  db : firestore;
  sent : list Z
}.

(** An asynchronous computation: it may throw, and what it did to the
    world before throwing stays done. *)
Definition io (A : Type) : Type := world -> result A * world.

Definition io_ret {A} (a : A) : io A := fun w => (Ok a, w).

Definition io_bind {A B} (m : io A) (k : A -> io B) : io B :=
  fun w =>
    match m w with
    | (Ok a, w') => k a w'
    | (Throw e, w') => (Throw e, w')
    end.

#[global] Instance io_mret : MRet io := @io_ret.
#[global] Instance io_mbind : MBind io := fun A B k m => io_bind m k.

Definition io_throw {A} (e : exn) : io A := fun w => (Throw e, w).

Definition io_lift {A} (r : result A) : io A := fun w => (r, w).

(** [try { m } catch (error) { h }]. *)
Definition try_catch {A} (m : io A) (h : io A) : io A :=
  fun w =>
    match m w with
    | (Ok a, w') => (Ok a, w')
    | (Throw _, w') => h w'
    end.

(** [await setDoc(ref, data, { merge: true })]. *)
Definition setDoc_merge (e : env) (ref : docref) (data : gmap string jsval) : io unit :=
  fun w =>
    if setDoc_fails e then (Throw Unavailable, w)
    else (Ok tt, World (set_merge ref (plain data) (db w)) (sent w)).

(** [await setDoc(ref, data)]. *)
Definition setDoc (e : env) (ref : docref) (data : gmap string jsval) : io unit :=
  fun w =>
    if setDoc_fails e then (Throw Unavailable, w)
    else (Ok tt, World (set_doc ref data (db w)) (sent w)).

(** [await getDoc(ref)]. *)
Definition getDoc (e : env) (ref : docref) : io (option doc) :=
  fun w =>
    if getDoc_fails e then (Throw Unavailable, w)
    else (Ok (users (db w) !! ref), w).

(** [await runTransaction(db, body)]. *)
Definition io_transaction {A} (e : env) (body : tx A) : io A :=
  fun w =>
    let '(r, db') := runTransaction (transaction_fails e) (now e) body (db w) in
    (r, World db' (sent w)).

(** [await bot.sendPhoto(chatId, ...)]: the welcome message. *)
Definition sendPhoto (e : env) (chatId : Z) : io unit :=
  fun w =>
    if sendPhoto_fails e then (Throw Unavailable, w)
    else (Ok tt, World (db w) (sent w ++ [chatId])).

(** Reading a property of something that may be undefined. *)
Definition property {A} (o : option A) : io A :=
  match o with
  | Some a => io_ret a
  | None => io_throw TypeError
  end.

(** [photoUrl] as a stored value: a string or null. *)
Definition photo_value (p : option string) : jsval :=
  match p with
  | Some s => JStr s
  | None => JNull
  end.

End Webhook.

Export Webhook.

(** What the reward step did.  The JavaScript functions return nothing;
    the model returns the exit they took, named after the outcomes of the
    design (the comments at the exits of [processReferralReward] say
    "Invalid referral", "Should exist", "Already rewarded" and "If still
    no referrer, abort"). *)
Inductive outcome :=
| Rewarded
| AlreadyRewarded
| NoReferrer
| SelfReferral
| SubjectMissing
| Failed.            (* "Transaction failed: " was logged *)

#[global] Instance outcome_eq_dec : EqDecision outcome.
Proof. solve_decision. Defined.

(** What [res] receives: [res.status(s).json({ status, message })] or
    [res.status(s).send(text)]. *)
Inductive sent_body :=
| Json (st msg : string)
| Send (s : string).

(** ** Revisions 1 and 2: the helper they share (lines 28-37, 206-215) *)

Definition extractReferralId (text : string) : option string :=
  if negb (truthy (Some (JStr text))) || negb (startsWith text "/start") then None
  else
    let parts := split " "%char text in
    if (length parts <? 2)%nat then None
    else
      match parts !! 1%nat with
      | Some payload =>
          if startsWith payload "ref" then Some (replace payload "ref" "")
          else Some payload
      | None => None
      end.

(** The object both revisions hand to [setDoc] (lines 81-87, 260-265). *)
Definition identity_fields (userId firstName : string) (photoUrl : option string)
  : gmap string jsval :=
  {[ "id" := JStr userId;
     "name" := JStr firstName;
     "photoURL" := photo_value photoUrl;
     "frontendOpened" := JBool true ]}.

(** The defaults revision 1 writes when [coins] is missing (line 96). *)
Definition defaults : gmap string jsval :=
  {[ "coins" := JNum 0;
     "reffer" := JNum 0;
     "rewardGiven" := JBool false;
     "tasksCompleted" := JNum 0;
     "totalWithdrawals" := JNum 0 ]}.

(** ** Revision 1 (lines 1-178) *)

Module V1.

(** The function passed to [runTransaction] (lines 89-135). *)
Definition transaction (userRef : docref) (userId : string)
    (referralId : option string) : tx unit :=
  userDoc ← tx_get userRef;
  match userDoc with
  | None => mret tt
  | Some data =>
      (if bool_decide (data !! "coins" = None)
       then tx_update userRef (plain defaults) else mret tt);;
      (if negb (truthy (data !! "refferBy")) && truthy (of_string referralId)
          && negb (bool_decide (referralId = Some userId))
       then tx_update userRef (plain {[ "refferBy" := default JNull (of_string referralId) ]})
       else mret tt);;
      freshDoc ← tx_get userRef;
      freshData ← tx_lift (match freshDoc with
                           | Some d => Ok d
                           | None => Throw TypeError
                           end);
      let currentReferrerId := freshData !! "refferBy" in
      if truthy (freshData !! "frontendOpened")
         && negb (truthy (freshData !! "rewardGiven"))
         && truthy currentReferrerId
      then
        referrerRef ← tx_lift (doc_of currentReferrerId);
        referrerDoc ← tx_get referrerRef;
        match referrerDoc with
        | Some referrerData =>
            let newCoins := plus (or_else (referrerData !! "coins") (JNum 0)) 500 in
            let newRefferCount := plus (or_else (referrerData !! "reffer") (JNum 0)) 1 in
            tx_update referrerRef
              (plain {[ "coins" := newCoins; "reffer" := newRefferCount ]});;
            tx_update userRef (plain {[ "rewardGiven" := JBool true ]});;
            rewardRef ← tx_lift (doc_path userId);
            tx_set_reward rewardRef (JStr userId)
              (default JNull currentReferrerId) 500
        | None => mret tt
        end
      else mret tt
  end.

(** [handler] (lines 55-178). *)
Definition handler (e : env) (req : request) : io (Z * sent_body) :=
  if negb (String.eqb (method req) "POST")
  then mret (200, Json "ok" "Telegram Bot Webhook Active")
  else
    try_catch
      (message ← property (body req);
       match message with
       | None => mret (200, Send "OK")
       | Some message =>
           match from message with
           | None => mret (200, Send "OK")
           | Some user =>
               if is_bot user then mret (200, Send "OK")
               else
                 let userId := toString (id user) in
                 let firstName := str_or_else (first_name user) "User" in
                 let text := str_or_else (text message) "" in
                 if negb (startsWith text "/start") then mret (200, Send "OK")
                 else
                   let referralId := extractReferralId text in
                   let photoUrl := photo e in
                   userRef ← io_lift (doc_path userId);
                   setDoc_merge e userRef (identity_fields userId firstName photoUrl);;
                   io_transaction e (transaction userRef userId referralId);;
                   chatId ← property (chat message);
                   sendPhoto e chatId;;
                   mret (200, Send "OK")
           end
       end)
      (mret (200, Send "Error")).

End V1.

(** ** Revision 2 (lines 179-377) *)

Module V2.

(** [finalReferrerId]: the stored referrer, else the one of this event
    (lines 274-280). *)
Definition finalReferrerId (userData : doc) (userId : string)
    (referralId : option string) : option jsval :=
  let currentReferrer := userData !! "refferBy" in
  if negb (truthy currentReferrer) && truthy (of_string referralId)
     && negb (bool_decide (referralId = Some userId))
  then of_string referralId
  else currentReferrer.

(** [userUpdates] as it stands before the reward logic (lines 291-305). *)
Definition userUpdates (userData : doc) (finalReferrerId : option jsval)
  : gmap string jsval :=
  let currentReferrer := userData !! "refferBy" in
  let userUpdates : gmap string jsval :=
    if bool_decide (userData !! "coins" = None)
    then <["rewardGiven" := JBool false]>
           (<["totalWithdrawals" := JNum 0]>
              (<["tasksCompleted" := JNum 0]>
                 (<["reffer" := JNum 0]> (<["coins" := JNum 0]> ∅))))
    else ∅ in
  if negb (truthy currentReferrer) && truthy finalReferrerId
  then <["refferBy" := default JNull finalReferrerId]> userUpdates
  else userUpdates.

(** What the referrer's record is updated with (lines 313-320). *)
Definition credit (refData : doc) : gmap string jsval :=
  let newCoins := plus (or_else (refData !! "coins") (JNum 0)) 500 in
  let newRefferCount := plus (or_else (refData !! "reffer") (JNum 0)) 1 in
  {[ "coins" := newCoins; "reffer" := newRefferCount ]}.

(** The function passed to [runTransaction] (lines 268-336). *)
Definition transaction (userRef : docref) (userId : string)
    (referralId : option string) : tx outcome :=
  (* read phase *)
  userDoc ← tx_get userRef;
  match userDoc with
  | None => mret SubjectMissing
  | Some userData =>
      let finalReferrerId := finalReferrerId userData userId referralId in
      referrerDoc ←
        (if truthy finalReferrerId && negb (truthy (userData !! "rewardGiven"))
         then
           referrerRef ← tx_lift (doc_of finalReferrerId);
           snap ← tx_get referrerRef;
           mret (Some snap)
         else mret None);
      (* write phase *)
      let userUpdates := userUpdates userData finalReferrerId in
      (* reward logic *)
      reward ←
        (match referrerDoc with
         | Some (Some refData) =>
             if negb (truthy (userData !! "rewardGiven")) then
               let userUpdates := <["rewardGiven" := JBool true]> userUpdates in
               referrerRef ← tx_lift (doc_of finalReferrerId);
               tx_update referrerRef (plain (credit refData));;
               rewardRef ← tx_lift (doc_path userId);
               tx_set_reward rewardRef (JStr userId)
                 (default JNull finalReferrerId) 500;;
               mret (userUpdates, true)
             else mret (userUpdates, false)
         | _ => mret (userUpdates, false)
         end : tx (gmap string jsval * bool));
      let userUpdates : gmap string jsval := reward.1 in
      let rewarded : bool := reward.2 in
      (* commit user updates (if any) *)
      (if (0 <? size userUpdates)%nat
       then tx_update userRef (plain userUpdates) else mret tt);;
      mret (if rewarded then Rewarded
            else if truthy finalReferrerId && truthy (userData !! "rewardGiven")
                 then AlreadyRewarded else NoReferrer)
  end.

(** The reward step of [handler] taken alone: the reference of line 257
    and the transaction of lines 268-336. *)
Definition process (e : env) (userId : string) (referralId : option string)
  : io outcome :=
  userRef ← io_lift (doc_path userId);
  io_transaction e (transaction userRef userId referralId).

(** [handler] (lines 233-377). *)
Definition handler (e : env) (req : request) : io (Z * sent_body) :=
  if negb (String.eqb (method req) "POST")
  then mret (200, Json "ok" "Telegram Bot Webhook Active")
  else
    try_catch
      (message ← property (body req);
       match message with
       | None => mret (200, Send "OK")
       | Some message =>
           match from message with
           | None => mret (200, Send "OK")
           | Some user =>
               if is_bot user then mret (200, Send "OK")
               else
                 let userId := toString (id user) in
                 let firstName := str_or_else (first_name user) "User" in
                 let text := str_or_else (text message) "" in
                 if negb (startsWith text "/start") then mret (200, Send "OK")
                 else
                   let referralId := extractReferralId text in
                   let photoUrl := photo e in
                   userRef ← io_lift (doc_path userId);
                   setDoc_merge e userRef (identity_fields userId firstName photoUrl);;
                   io_transaction e (transaction userRef userId referralId);;
                   chatId ← property (chat message);
                   sendPhoto e chatId;;
                   mret (200, Send "OK")
           end
       end)
      (mret (200, Send "Error")).

End V2.

(** ** Revision 3 (lines 378-644) *)

Module V3.


(** The function passed to [runTransaction] (lines 485-528). *)
Definition transaction (userRef referrerRef rewardRef : docref) (userId : Z)
    (referralId : option string) : tx outcome :=
  userSnap ← tx_get userRef;
  match userSnap with
  | None => mret SubjectMissing
  | Some userData =>
      if bool_decide (userData !! "rewardGiven" = Some (JBool true))
      then mret AlreadyRewarded
      else
        let currentReferrer := userData !! "refferBy" in
        currentReferrer ←
          (if negb (truthy currentReferrer) && truthy (of_string referralId)
           then
             tx_set_merge userRef
               {[ "refferBy" := FVal (default JNull (of_string referralId)) ]};;
             mret (of_string referralId)
           else mret currentReferrer);
        if negb (truthy currentReferrer) then mret NoReferrer
        else
          tx_set_merge referrerRef
            {[ "coins" := FIncrement 500; "reffer" := FIncrement 1 ]};;
          tx_update userRef (plain {[ "rewardGiven" := JBool true ]});;
          tx_set_reward rewardRef (JNum userId) (default JNull currentReferrer) 500;;
          mret Rewarded
  end.

(** [processReferralReward] (lines 477-533). *)
Definition processReferralReward (e : env) (userId : Z)
    (referralId : option string) : io outcome :=
  if negb (truthy (of_string referralId)) then mret NoReferrer
  else if bool_decide (referralId = Some (toString userId)) then mret SelfReferral
  else
    userRef ← io_lift (doc_path (toString userId));
    referrerRef ← io_lift (doc_of (of_string referralId));
    rewardRef ← io_lift (doc_path (toString userId));
    try_catch
      (io_transaction e (transaction userRef referrerRef rewardRef userId referralId))
      (mret Failed).

(** The referral parameter as the handler reads it (lines 556-562). *)
Definition referral_parameter (text : string) : option string :=
  if startsWith text "/start" then
    let parts := split " "%char text in
    if (1 <? length parts)%nat then parts !! 1%nat else None
  else None.

(** [baseData] (lines 579-584). *)
Definition baseData (userId : Z) (firstName : string) (photoURL : option string)
  : gmap string jsval :=
  {[ "id" := JNum userId;
     "name" := JStr firstName;
     "photoURL" := or_else (of_string photoURL) JNull;
     "frontendOpened" := JBool true ]}.

(** The document of a new user (lines 588-596). *)
Definition new_user (userId : Z) (firstName : string) (photoURL : option string)
    (referralId : option string) : gmap string jsval :=
  <["rewardGiven" := JBool false]>
    (<["totalWithdrawals" := JNum 0]>
       (<["tasksCompleted" := JNum 0]>
          (<["refferBy" := or_else (of_string referralId) JNull]>
             (<["reffer" := JNum 0]>
                (<["coins" := JNum 0]> (baseData userId firstName photoURL)))))).

(** "A. Initialize/Update User" (lines 577-600), the step of [handler]
    that makes sure the record exists. *)
Definition ensureUser (e : env) (userRef : docref) (userId : Z)
    (firstName : string) (photoURL referralId : option string) : io unit :=
  userSnap ← getDoc e userRef;
  match userSnap with
  | None => setDoc e userRef (new_user userId firstName photoURL referralId)
  | Some _ => setDoc_merge e userRef (baseData userId firstName photoURL)
  end.

(** [handler] (lines 539-637). *)
Definition handler (e : env) (req : request) : io (Z * sent_body) :=
  match body req with
  | None | Some None => mret (200, Send "No message found")
  | Some (Some msg) =>
      chatId ← property (chat msg);
      user ← property (from msg);
      let userId := id user in
      let firstName := str_or_else (first_name user) "User" in
      let text := str_or_else (text msg) "" in
      try_catch
        (let referralId := referral_parameter text in
         let photoURL := photo e in
         userRef ← io_lift (doc_path (toString userId));
         ensureUser e userRef userId firstName photoURL referralId;;
         processReferralReward e userId referralId;;
         sendPhoto e chatId)
        (mret tt);;
      mret (200, Send "OK")
  end.

End V3.

(** * Verification *)

(** ** Vocabulary *)

(** The world after a call, and after a sequence of calls.  Transactions
    are atomic, so calls that race on one record act one after another
    in some order; each call of a sequence comes with what the outside
    world does to it. *)
Definition after {A} (m : io A) (w : world) : world := (m w).2.

Definition calls {C A} (step : C -> io A) (cs : list C) (w : world) : world :=
  foldl (fun w c => after (step c) w) w cs.

(** The counter [c] and the counter [c + n] are both integers that a
    JavaScript number holds exactly. *)
Definition exact (c n : Z) : Prop :=
  - 2 ^ 53 < c < 2 ^ 53 /\ - 2 ^ 53 < c + n < 2 ^ 53.

(** The record [d'] is the record [d] after one credit: [coins] went up
    by 500 and [reffer] by 1, starting from 0 where the field was not
    there, and nothing else changed.  The sums are stated for integer
    counters in the range where numbers are exact. *)
Definition credited_once (d d' : doc) : Prop :=
  (forall c, d !! "coins" = Some (JNum c) -> exact c 500 ->
             d' !! "coins" = Some (JNum (c + 500))) /\
  (d !! "coins" = None -> d' !! "coins" = Some (JNum 500)) /\
  (forall n, d !! "reffer" = Some (JNum n) -> exact n 1 ->
             d' !! "reffer" = Some (JNum (n + 1))) /\
  (d !! "reffer" = None -> d' !! "reffer" = Some (JNum 1)) /\
  (forall k, k ≠ "coins" -> k ≠ "reffer" -> d' !! k = d !! k).

(** From [s] to [s'] nobody was rewarded for the user at [userRef]: the
    ledger is the same and so is every record but the user's own. *)
Definition quiet (userRef : docref) (s s' : firestore) : Prop :=
  ref_rewards s' = ref_rewards s /\
  (forall ref, ref ≠ userRef -> users s' !! ref = users s !! ref).

(** From [s] to [s'] one reward was given for the user at [userRef]: the
    ledger gained the entry under the user's key, naming [referrer] and
    stamped with one of the times [ts]; the record at [rref] was credited
    once; no record other than these two changed. *)
Definition rewarded_for (ts : list Z) (userRef rref : docref)
    (subject referrer : jsval) (s s' : firestore) : Prop :=
  exists t : Z,
    t ∈ ts /\
    ref_rewards s' = <[userRef := Reward subject referrer 500 t]> (ref_rewards s) /\
    (forall ref, ref ≠ userRef -> ref ≠ rref -> users s' !! ref = users s !! ref) /\
    (rref ≠ userRef ->
     exists d', users s' !! rref = Some d' /\
                credited_once (default ∅ (users s !! rref)) d').

Definition rewarded_once (ts : list Z) (userRef : docref) (s s' : firestore) : Prop :=
  exists (rref : docref) (subject referrer : jsval),
    rewarded_for ts userRef rref subject referrer s s'.

(** The user at [userRef] has been rewarded and the record is complete:
    from here on revision 2 has nothing left to write. *)
Definition settled (userRef : docref) (s : firestore) : Prop :=
  exists userData,
    users s !! userRef = Some userData /\
    truthy (userData !! "rewardGiven") = true /\
    userData !! "coins" ≠ None /\
    truthy (userData !! "refferBy") = true.

(** The user at [userRef] carries [rewardGiven: true], the test of
    revision 3. *)
Definition flagged (userRef : docref) (s : firestore) : Prop :=
  exists userData,
    users s !! userRef = Some userData /\
    userData !! "rewardGiven" = Some (JBool true).

(** The user at [userRef] is attributed to [v]. *)
Definition attributed (userRef : docref) (v : jsval) (s : firestore) : Prop :=
  exists userData,
    users s !! userRef = Some userData /\
    userData !! "refferBy" = Some v.

(** The fields [setDoc] writes for a user who is already there. *)
Definition identity_keys : list string :=
  ["id"; "name"; "photoURL"; "frontendOpened"].


(** [c] does not occur in [s]. *)
Fixpoint free_of (c : Ascii.ascii) (s : string) : bool :=
  match s with
  | EmptyString => true
  | String a r => negb (Ascii.eqb a c) && free_of c r
  end.

(** An asynchronous handler that, when it answers, answers 200. *)
Definition only_200 (m : io (Z * sent_body)) : Prop :=
  forall w r w', m w = (Ok r, w') -> r.1 = 200.

(** *** Revision 2 *)

(** The last write of the transaction: the user's own updates, if any. *)
Definition user_write (userRef : docref) (upd : gmap string jsval) : list write :=
  if (0 <? size upd)%nat then [WUpdate userRef (plain upd)] else [].

(** The store after the three writes of a reward. *)
Definition v2_rewarded_store (s : firestore) (t : Z) (userRef rref : docref)
    (userId : string) (fin : option jsval) (userData refData : doc) : firestore :=
  let credited := V2.credit refData ∪ refData in
  let own := if decide (rref = userRef) then credited else userData in
  Store (<[userRef := <["rewardGiven" := JBool true]> (V2.userUpdates userData fin) ∪ own]>
           (<[rref := credited]> (users s)))
        (<[userRef := Reward (JStr userId) (default JNull fin) 500 t]> (ref_rewards s)).

(** One call of revision 2, by cases: the result and the store it leaves. *)
Inductive v2_call (e : env) (userRef : docref) (userId : string)
    (referralId : option string) (s : firestore) : result outcome -> firestore -> Prop :=
| V2_unavailable :
    transaction_fails e = true ->
    v2_call e userRef userId referralId s (Throw Unavailable) s
| V2_missing :
    transaction_fails e = false ->
    users s !! userRef = None ->
    v2_call e userRef userId referralId s (Ok SubjectMissing) s
| V2_thrown userData ex :
    transaction_fails e = false ->
    users s !! userRef = Some userData ->
    truthy (userData !! "rewardGiven") = false ->
    doc_of (V2.finalReferrerId userData userId referralId) = Throw ex ->
    v2_call e userRef userId referralId s (Throw ex) s
| V2_not_due userData o :
    transaction_fails e = false ->
    users s !! userRef = Some userData ->
    let fin := V2.finalReferrerId userData userId referralId in
    (truthy fin = false /\ o = NoReferrer \/
     truthy fin = true /\ truthy (userData !! "rewardGiven") = true /\ o = AlreadyRewarded \/
     (exists rref, truthy fin = true /\ truthy (userData !! "rewardGiven") = false /\
                   doc_of fin = Ok rref /\ users s !! rref = None /\ o = NoReferrer)) ->
    v2_call e userRef userId referralId s (Ok o)
      (Store (<[userRef := V2.userUpdates userData fin ∪ userData]> (users s))
             (ref_rewards s))
| V2_rewarded userData rref refData :
    transaction_fails e = false ->
    users s !! userRef = Some userData ->
    let fin := V2.finalReferrerId userData userId referralId in
    truthy fin = true ->
    truthy (userData !! "rewardGiven") = false ->
    doc_of fin = Ok rref ->
    users s !! rref = Some refData ->
    v2_call e userRef userId referralId s (Ok Rewarded)
      (v2_rewarded_store s (now e) userRef rref userId fin userData refData).

(** A reward is due in revision 2: the user is there and not yet
    rewarded, the effective referrer is [referrer], and its record, at
    [rref], is there. *)
Definition v2_due (userRef rref : docref) (userId : string)
    (referralId : option string) (referrer : jsval) (s : firestore) : Prop :=
  exists userData,
    users s !! userRef = Some userData /\
    truthy (userData !! "rewardGiven") = false /\
    V2.finalReferrerId userData userId referralId = Some referrer /\
    truthy (Some referrer) = true /\
    doc_of (Some referrer) = Ok rref /\
    is_Some (users s !! rref).

(** *** Revision 3 *)

Definition increments : gmap string fieldval :=
  {[ "coins" := FIncrement 500; "reffer" := FIncrement 1 ]}.

(** The writes of a reward. *)
Definition v3_writes (userRef referrerRef rewardRef : docref) (userId : Z)
    (referralId : option string) (userData : doc) : list write :=
  let currentReferrer := userData !! "refferBy" in
  let assign := negb (truthy currentReferrer) && truthy (of_string referralId) in
  (if assign
   then [WSetMerge userRef {[ "refferBy" := FVal (default JNull (of_string referralId)) ]}]
   else []) ++
  [WSetMerge referrerRef increments;
   WUpdate userRef (plain {[ "rewardGiven" := JBool true ]});
   WSetReward rewardRef (JNum userId)
     (default JNull (if assign then of_string referralId else currentReferrer)) 500].

(** The store after the writes of a reward. *)
Definition v3_rewarded_store (s : firestore) (t : Z) (userRef rref : docref)
    (userId : Z) (referralId : option string) (userData : doc) : firestore :=
  let currentReferrer := userData !! "refferBy" in
  let assign := negb (truthy currentReferrer) && truthy (of_string referralId) in
  let attributed : doc :=
    if assign then <["refferBy" := default JNull (of_string referralId)]> userData
    else userData in
  let own :=
    if decide (rref = userRef) then merge_doc increments attributed else attributed in
  let other :=
    if decide (rref = userRef) then own
    else merge_doc increments (default ∅ (users s !! rref)) in
  Store (<[userRef := <["rewardGiven" := JBool true]> own]>
           (<[rref := other]> (<[userRef := attributed]> (users s))))
        (<[userRef := Reward (JNum userId)
                        (default JNull (if assign then of_string referralId
                                        else currentReferrer)) 500 t]>
           (ref_rewards s)).

(** One call of [processReferralReward], by cases. *)
Inductive v3_call (e : env) (userRef : docref) (userId : Z)
    (referralId : option string) (s : firestore) : result outcome -> firestore -> Prop :=
| V3_no_token :
    truthy (of_string referralId) = false ->
    v3_call e userRef userId referralId s (Ok NoReferrer) s
| V3_self :
    truthy (of_string referralId) = true ->
    referralId = Some (toString userId) ->
    v3_call e userRef userId referralId s (Ok SelfReferral) s
| V3_bad_reference ex :
    truthy (of_string referralId) = true ->
    referralId ≠ Some (toString userId) ->
    doc_of (of_string referralId) = Throw ex ->
    v3_call e userRef userId referralId s (Throw ex) s
| V3_failed rref :
    truthy (of_string referralId) = true ->
    referralId ≠ Some (toString userId) ->
    doc_of (of_string referralId) = Ok rref ->
    transaction_fails e = true ->
    v3_call e userRef userId referralId s (Ok Failed) s
| V3_missing rref :
    truthy (of_string referralId) = true ->
    referralId ≠ Some (toString userId) ->
    doc_of (of_string referralId) = Ok rref ->
    transaction_fails e = false ->
    users s !! userRef = None ->
    v3_call e userRef userId referralId s (Ok SubjectMissing) s
| V3_already rref userData :
    truthy (of_string referralId) = true ->
    referralId ≠ Some (toString userId) ->
    doc_of (of_string referralId) = Ok rref ->
    transaction_fails e = false ->
    users s !! userRef = Some userData ->
    userData !! "rewardGiven" = Some (JBool true) ->
    v3_call e userRef userId referralId s (Ok AlreadyRewarded) s
| V3_rewarded rref userData :
    truthy (of_string referralId) = true ->
    referralId ≠ Some (toString userId) ->
    doc_of (of_string referralId) = Ok rref ->
    transaction_fails e = false ->
    users s !! userRef = Some userData ->
    userData !! "rewardGiven" ≠ Some (JBool true) ->
    v3_call e userRef userId referralId s (Ok Rewarded)
      (v3_rewarded_store s (now e) userRef rref userId referralId userData).

(** A reward is due in revision 3: the user is there and not flagged,
    the token of this event is present, not the user's own id, and names
    the record at [rref]. *)
Definition v3_due (userRef rref : docref) (userId : Z)
    (referralId : option string) (s : firestore) : Prop :=
  exists userData,
    users s !! userRef = Some userData /\
    userData !! "rewardGiven" ≠ Some (JBool true) /\
    truthy (of_string referralId) = true /\
    referralId ≠ Some (toString userId) /\
    doc_of (of_string referralId) = Ok rref.

(** *** Inputs used in the examples *)

(** An invocation during which every external call succeeds. *)
Definition healthy : env := Env None 1000 false false false false.

(** The same, one second later. *)
Definition healthy_later : env := Env None 2000 false false false false.

(** An invocation during which the store refuses the transaction. *)
Definition store_down : env := Env None 1500 false false true false.

(** A "/start" message of user [uid], named Ann, in chat 7. *)
Definition start_request (uid : Z) (t : string) : request :=
  Request "POST"
    (Some (Some (TgMessage (Some (TgUser uid false (Some "Ann"))) (Some 7) (Some t)))).

(** A body whose message has neither sender nor chat. *)
Definition malformed_request (t : option string) : request :=
  Request "POST" (Some (Some (TgMessage None None t))).

Definition empty_store : firestore := Store ∅ ∅.

(** A store with the single user R1, who has no coins yet. *)
Definition only_R1 : firestore :=
  Store {[ ["R1"] := {[ "coins" := JNum 0; "reffer" := JNum 0 ]} ]} ∅.

(** The same with user 1, as revision 2 leaves a user who came without
    a referral. *)
Definition R1_and_user1 : firestore :=
  Store (<[ ["1"] := defaults ∪ identity_fields "1" "Ann" None ]> (users only_R1)) ∅.

(** Users R1 and R2, and user 1 already attributed to R1 but not yet
    rewarded. *)
Definition user1_of_R1 : firestore :=
  Store (<[ ["1"] := <["refferBy" := JStr "R1"]>
                       (defaults ∪ identity_fields "1" "Ann" None) ]>
           (<[ ["R2"] := {[ "coins" := JNum 0; "reffer" := JNum 0 ]} ]>
              (users only_R1))) ∅.

(** The two users R1 and R2, neither with coins yet. *)
Definition R1_and_R2 : firestore :=
  Store (<[ ["R2"] := {[ "coins" := JNum 0; "reffer" := JNum 0 ]} ]> (users only_R1)) ∅.

(** The same with user 1 as revision 3 creates a user who arrives with
    the token of R1. *)
Definition new_user1_of_R1 : firestore :=
  Store (<[ ["1"] := V3.new_user 1 "Ann" None (Some "R1") ]> (users R1_and_R2)) ∅.

(** User R1, and user 1 attributed to R1 and marked as rewarded, in a
    record that has no [coins]. *)
Definition flagged_without_coins : firestore :=
  Store (<[ ["1"] := <["rewardGiven" := JBool true]>
                       (<["refferBy" := JStr "R1"]> (identity_fields "1" "Ann" None)) ]>
           (users only_R1)) ∅.

(** The same with user 1 as revision 3 creates a user who came without
    a referral. *)
Definition R1_and_new_user1 : firestore :=
  Store (<[ ["1"] := V3.new_user 1 "Ann" None None ]> (users only_R1)) ∅.


(** User 1 after revision 2 has rewarded R1 for the first visit. *)
Definition v2_rewarded_user1 : firestore :=
  Store (<[ ["1"] := <["rewardGiven" := JBool true]>
                       (<["refferBy" := JStr "R1"]>
                          (defaults ∪ identity_fields "1" "Ann" None)) ]>
           {[ ["R1"] := {[ "coins" := JNum 500; "reffer" := JNum 1 ]} ]})
        {[ ["1"] := Reward (JStr "1") (JStr "R1") 500 1000 ]}.

(** The same after revision 3. *)
Definition v3_rewarded_user1 : firestore :=
  Store (<[ ["1"] := <["rewardGiven" := JBool true]>
                       (V3.new_user 1 "Ann" None (Some "R1")) ]>
           {[ ["R1"] := {[ "coins" := JNum 500; "reffer" := JNum 1 ]} ]})
        {[ ["1"] := Reward (JNum 1) (JStr "R1") 500 1000 ]}.
(** *** The photo helpers and the bot client *)

(** What the bot client answers.  [getFile] gives the file's
    [file_path], which the API may leave out. *)
Record photo_size := PhotoSize { file_id : string }.

Record profile_photos := ProfilePhotos {
  total_count : Z;
  photos : list (list photo_size)
}.

Record bot := Bot {
  getUserProfilePhotos : jsval -> result profile_photos;
  getFile : string -> result (option string);
  getFileLink : string -> result string
}.

Definition result_bind {A B} (r : result A) (k : A -> result B) : result B :=
  match r with
  | Ok a => k a
  | Throw e => Throw e
  end.

#[global] Instance result_mbind : MBind result := fun A B k r => result_bind r k.

(** Reading a property of something that may be undefined. *)
Definition defined {A} (o : option A) : result A :=
  match o with
  | Some a => Ok a
  | None => Throw TypeError
  end.

(** A value that may be undefined, inside a template literal. *)
Definition interpolate (o : option string) : string := default "undefined" o.

(** [getUserPhoto] of revisions 1 and 2 (lines 39-51, 217-229); [token]
    is [process.env.TELEGRAM_BOT_TOKEN]. *)
Definition getUserPhoto (b : bot) (token : option string) (userId : string)
  : result (option string) :=
  let attempt : result (option string) :=
    reply ← getUserProfilePhotos b (JStr userId);
    if 0 <? total_count reply then
      sizes ← defined (photos reply !! 0%nat);
      size ← defined (sizes !! 0%nat);
      file_path ← getFile b (file_id size);
      Ok (Some ("https://api.telegram.org/file/bot" +:+ interpolate token
                +:+ "/" +:+ interpolate file_path))
    else Ok None in
  match attempt with
  | Ok (Some url) => Ok (Some url)
  | Ok None => Ok None
  | Throw _ => Ok None
  end.

(** [getUserProfilePhotoUrl] of revision 3 (lines 418-430). *)
Definition getUserProfilePhotoUrl (b : bot) (userId : Z) : result (option string) :=
  let attempt : result (option string) :=
    userProfile ← getUserProfilePhotos b (JNum userId);
    if (0 <? total_count userProfile) && (0 <? length (photos userProfile))%nat then
      sizes ← defined (photos userProfile !! 0%nat);
      size ← defined (sizes !! 0%nat);
      fileLink ← getFileLink b (file_id size);
      Ok (Some fileLink)
    else Ok None in
  match attempt with
  | Ok (Some url) => Ok (Some url)
  | Ok None => Ok None
  | Throw _ => Ok None
  end.

(** What [extractReferralId] does to the payload (lines 33-36). *)
Definition strip_ref (payload : string) : string :=
  if startsWith payload "ref" then replace payload "ref" "" else payload.

(** The requests revisions 1 and 2 act upon: a POST whose message comes
    from a user who is not a bot and whose text starts with "/start"
    (lines 56-74, 234-252). *)
Definition is_start (req : request) : bool :=
  String.eqb (method req) "POST" &&
  match body req with
  | Some (Some message) =>
      match from message with
      | Some user =>
          negb (is_bot user) && startsWith (str_or_else (text message) "") "/start"
      | None => false
      end
  | _ => false
  end.

(** A computation that sends no message. *)
Definition silent {A} (m : io A) : Prop :=
  forall w, sent (m w).2 = sent w.

(** A computation that sends at most one message, and only to [chatId]. *)
Definition one_welcome {A} (chatId : Z) (m : io A) : Prop :=
  forall w, sent (m w).2 = sent w \/ sent (m w).2 = sent w ++ [chatId].

(** The reward step of revision 1 taken alone: the reference of line 79
    and the transaction of lines 89-135. *)
Definition v1_process (e : env) (userId : string) (referralId : option string)
  : io unit :=
  userRef ← io_lift (doc_path userId);
  io_transaction e (V1.transaction userRef userId referralId).

(** *** Revision 1 *)

(** The transaction of revision 1 buffers a write before its second
    read (lines 96-101): the defaults when [coins] is missing, the
    referrer when the record has none and the event brings one. *)
Definition v1_writes_first (data : doc) (userId : string)
    (referralId : option string) : bool :=
  bool_decide (data !! "coins" = None) ||
  (negb (truthy (data !! "refferBy")) && truthy (of_string referralId)
   && negb (bool_decide (referralId = Some userId))).

(** The test of line 108. *)
Definition v1_eligible (data : doc) : bool :=
  truthy (data !! "frontendOpened") && negb (truthy (data !! "rewardGiven"))
  && truthy (data !! "refferBy").

(** The store after the three writes of a reward of revision 1 (lines
    117-132). *)
Definition v1_rewarded_store (s : firestore) (t : Z) (userRef rref : docref)
    (userId : string) (userData refData : doc) : firestore :=
  let credited := V2.credit refData ∪ refData in
  let own := if decide (rref = userRef) then credited else userData in
  Store (<[userRef := <["rewardGiven" := JBool true]> own]>
           (<[rref := credited]> (users s)))
        (<[userRef := Reward (JStr userId) (default JNull (userData !! "refferBy")) 500 t]>
           (ref_rewards s)).

(** No record of the store holds [coins]. *)
Definition no_coins (s : firestore) : Prop :=
  forall ref d, users s !! ref = Some d -> d !! "coins" = None.

(** The record [d'] is the record [d] some requests later, as far as the
    reward is concerned: the same flag, the same referrer, and [coins]
    still there if it was. *)
Definition grown (d d' : doc) : Prop :=
  d' !! "rewardGiven" = d !! "rewardGiven" /\
  d' !! "refferBy" = d !! "refferBy" /\
  (d !! "coins" ≠ None -> d' !! "coins" ≠ None).

(** From [w] to [w'] the record at [ref] has kept its reward fields, and
    the ledger entry under [ref] is the same. *)
Definition kept (ref : docref) (w w' : world) : Prop :=
  ref_rewards (db w') !! ref = ref_rewards (db w) !! ref /\
  exists d d',
    users (db w) !! ref = Some d /\ users (db w') !! ref = Some d' /\ grown d d'.
(** ** Documents and writes *)

Ltac tx_unfold :=
  unfold mbind, mret, tx_mbind, tx_mret, tx_bind, tx_ret, tx_get, tx_lift,
    tx_update, tx_set_merge, tx_set_reward, tx_write.

Ltac io_unfold :=
  unfold after, mbind, mret, io_mbind, io_mret, io_bind, io_ret, io_lift,
    io_throw, io_transaction, try_catch, property.

Lemma merge_doc_lookup (data : gmap string fieldval) (d : doc) (k : string) :
  merge_doc data d !! k =
  match data !! k with
  | Some f => Some (apply_field (d !! k) f)
  | None => d !! k
  end.
Proof.
  unfold merge_doc. rewrite lookup_merge.
  destruct (data !! k), (d !! k); reflexivity.
Qed.

Lemma merge_doc_plain (m d : doc) : merge_doc (plain m) d = m ∪ d.
Proof.
  apply map_eq; intros k. rewrite merge_doc_lookup, lookup_union.
  unfold plain. rewrite lookup_fmap.
  destruct (m !! k), (d !! k); reflexivity.
Qed.

Lemma merge_doc_single (k : string) (v : jsval) (d : doc) :
  merge_doc {[ k := FVal v ]} d = <[k := v]> d.
Proof.
  apply map_eq; intros j. rewrite merge_doc_lookup.
  destruct (decide (k = j)) as [->|].
  - by rewrite lookup_singleton_eq, lookup_insert_eq.
  - by rewrite lookup_singleton_ne, lookup_insert_ne.
Qed.

Lemma merge_doc_plain_single (k : string) (v : jsval) (d : doc) :
  merge_doc (plain {[ k := v ]}) d = <[k := v]> d.
Proof. unfold plain. rewrite map_fmap_singleton. apply merge_doc_single. Qed.

Lemma store_eta (s : firestore) : Store (users s) (ref_rewards s) = s.
Proof. destruct s; reflexivity. Qed.

Lemma world_eta (w : world) : World (db w) (sent w) = w.
Proof. destruct w; reflexivity. Qed.

(** An update with no field is no change. *)
Lemma update_empty (s : firestore) (ref : docref) (d : doc) :
  users s !! ref = Some d ->
  Store (<[ref := (∅ : doc) ∪ d]> (users s)) (ref_rewards s) = s.
Proof.
  intros H. rewrite (left_id_L ∅ (∪)), insert_id by done. apply store_eta.
Qed.

Lemma size_insert_pos (k : string) (v : jsval) (m : doc) :
  (0 <? size (<[k := v]> m))%nat = true.
Proof.
  apply Nat.ltb_lt.
  destruct (size (<[k := v]> m)) eqn:E; [|lia].
  apply map_size_empty_iff in E. by apply insert_non_empty in E.
Qed.

Lemma size_pos_empty (m : doc) : (0 <? size m)%nat = false -> m = ∅.
Proof.
  intros H. apply Nat.ltb_ge in H. apply map_size_empty_iff. lia.
Qed.

(** Inside the range of safe integers the arithmetic of numbers is the
    arithmetic of integers. *)
Lemma round53_exact (x : Z) : - 2 ^ 53 < x < 2 ^ 53 -> round53 x = x.
Proof.
  intros H. unfold round53.
  destruct (Z.ltb_spec (Z.abs x) (2 ^ 53)) as [_|Hge]; [done|lia].
Qed.

Lemma number_exact (x : Z) : - 2 ^ 53 < x < 2 ^ 53 -> number x = JNum x.
Proof.
  intros H. unfold number, safe_integer.
  destruct (Z.ltb_spec (Z.abs x) (2 ^ 53)) as [_|Hge]; [done|lia].
Qed.

Lemma clamp64_exact (x : Z) : - 2 ^ 63 <= x <= 2 ^ 63 - 1 -> clamp64 x = x.
Proof. unfold clamp64. lia. Qed.

Lemma plus_num_exact (c n : Z) : exact c n -> plus (JNum c) n = JNum (c + n).
Proof.
  intros [Hc Hs]. unfold plus, to_number.
  by rewrite (round53_exact c), (round53_exact (c + n)), number_exact.
Qed.

Lemma plus_or_else_num (c n : Z) :
  exact c n -> plus (or_else (Some (JNum c)) (JNum 0)) n = JNum (c + n).
Proof.
  intros H. unfold or_else, truthy.
  destruct (Z.eqb_spec c 0) as [->|]; cbn [negb]; by apply plus_num_exact.
Qed.

Lemma increment_exact (c n : Z) :
  exact c n -> apply_field (Some (JNum c)) (FIncrement n) = JNum (c + n).
Proof.
  intros [Hc Hs]. cbn [apply_field]. rewrite clamp64_exact; [done|].
  assert (2 ^ 53 < 2 ^ 63) by done. lia.
Qed.

(** ** Revision 2: what one transaction does *)

Section V2_transaction.
Context (s : firestore) (userRef : docref) (userId : string) (referralId : option string).
Context (userData : doc) (Huser : users s !! userRef = Some userData).
Let fin := V2.finalReferrerId userData userId referralId.
Let upd := V2.userUpdates userData fin.

Lemma v2_no_read :
  truthy fin && negb (truthy (userData !! "rewardGiven")) = false ->
  V2.transaction userRef userId referralId s [] =
  Ok (if truthy fin && truthy (userData !! "rewardGiven")
      then AlreadyRewarded else NoReferrer,
      user_write userRef upd).
Proof.
  intros H. unfold V2.transaction. tx_unfold. rewrite Huser.
  fold fin. rewrite H. fold upd. unfold user_write. cbn [fst snd].
  destruct (0 <? size upd)%nat; reflexivity.
Qed.

Lemma v2_read_throw ex :
  truthy fin && negb (truthy (userData !! "rewardGiven")) = true ->
  doc_of fin = Throw ex ->
  V2.transaction userRef userId referralId s [] = Throw ex.
Proof.
  intros H Hd. unfold V2.transaction. tx_unfold. rewrite Huser.
  fold fin. rewrite H, Hd. reflexivity.
Qed.

Lemma v2_read_missing rref :
  truthy fin && negb (truthy (userData !! "rewardGiven")) = true ->
  doc_of fin = Ok rref -> users s !! rref = None ->
  V2.transaction userRef userId referralId s [] =
  Ok (NoReferrer, user_write userRef upd).
Proof.
  intros H Hd Hr. unfold V2.transaction. tx_unfold. rewrite Huser.
  fold fin. rewrite H, Hd, Hr. fold upd. unfold user_write. cbn [fst snd].
  apply andb_true_iff in H as [_ H]. apply negb_true_iff in H.
  rewrite H, andb_false_r.
  destruct (0 <? size upd)%nat; reflexivity.
Qed.

Lemma v2_reward rref refData rewardRef :
  truthy fin && negb (truthy (userData !! "rewardGiven")) = true ->
  doc_of fin = Ok rref -> users s !! rref = Some refData ->
  doc_path userId = Ok rewardRef ->
  V2.transaction userRef userId referralId s [] =
  Ok (Rewarded,
      [WUpdate rref (plain (V2.credit refData));
       WSetReward rewardRef (JStr userId) (default JNull fin) 500;
       WUpdate userRef (plain (<["rewardGiven" := JBool true]> upd))]).
Proof.
  intros H Hd Hr Hp. unfold V2.transaction. tx_unfold. rewrite Huser.
  fold fin. rewrite H, Hd, Hr. fold upd.
  apply andb_true_iff in H as [_ H]. rewrite H, Hp. cbn [fst snd app].
  rewrite size_insert_pos. reflexivity.
Qed.

End V2_transaction.

Lemma v2_subject_missing s userRef userId referralId :
  users s !! userRef = None ->
  V2.transaction userRef userId referralId s [] = Ok (SubjectMissing, []).
Proof. intros H. unfold V2.transaction. tx_unfold. rewrite H. reflexivity. Qed.

(** The fields of [userUpdates]. *)
Lemma v2_updates_lookup (userData : doc) (fin : option jsval) (k : string) :
  V2.userUpdates userData fin !! k =
  if bool_decide (k = "refferBy")
  then (if negb (truthy (userData !! "refferBy")) && truthy fin
        then Some (default JNull fin) else None)
  else if bool_decide (userData !! "coins" = None)
       then defaults !! k else None.
Proof.
  unfold V2.userUpdates, defaults.
  destruct (negb (truthy (userData !! "refferBy")) && truthy fin);
    destruct (bool_decide (userData !! "coins" = None));
    repeat case_bool_decide; simplify_map_eq; try reflexivity.
Qed.

Lemma v2_commit_reward s t userRef rref userId fin userData refData :
  users s !! userRef = Some userData ->
  users s !! rref = Some refData ->
  commit t [WUpdate rref (plain (V2.credit refData));
            WSetReward userRef (JStr userId) (default JNull fin) 500;
            WUpdate userRef (plain (<["rewardGiven" := JBool true]> (V2.userUpdates userData fin)))] s
  = Some (v2_rewarded_store s t userRef rref userId fin userData refData).
Proof.
  intros Hu Hr. unfold v2_rewarded_store. cbn [commit apply_write users ref_rewards].
  rewrite Hr. cbn [users ref_rewards]. rewrite !merge_doc_plain.
  destruct (decide (rref = userRef)) as [->|Hne].
  - rewrite lookup_insert_eq. rewrite merge_doc_plain. reflexivity.
  - rewrite lookup_insert_ne by done. rewrite Hu, merge_doc_plain. reflexivity.
Qed.

Lemma v2_commit_user s t userRef userData upd :
  users s !! userRef = Some userData ->
  commit t (user_write userRef upd) s =
  Some (Store (<[userRef := upd ∪ userData]> (users s)) (ref_rewards s)).
Proof.
  intros Hu. unfold user_write. destruct (0 <? size upd)%nat eqn:E.
  - cbn [commit apply_write]. rewrite Hu, merge_doc_plain. reflexivity.
  - apply size_pos_empty in E. subst upd. cbn [commit].
    by rewrite update_empty.
Qed.

Lemma v2_process_cases e userId referralId userRef w :
  doc_path userId = Ok userRef ->
  exists r s',
    V2.process e userId referralId w = (r, World s' (sent w)) /\
    v2_call e userRef userId referralId (db w) r s'.
Proof.
  intros Hp. unfold V2.process. io_unfold. rewrite Hp. unfold runTransaction.
  destruct (transaction_fails e) eqn:Hf.
  { eexists _, _. split; [reflexivity|]. by constructor. }
  destruct (users (db w) !! userRef) as [userData|] eqn:Hu.
  2:{ rewrite v2_subject_missing by done. cbn [commit].
      eexists _, _. split; [reflexivity|]. by constructor. }
  set (fin := V2.finalReferrerId userData userId referralId).
  destruct (truthy fin) eqn:Hfin; [destruct (truthy (userData !! "rewardGiven")) eqn:Hrg|].
  - rewrite (v2_no_read _ _ _ _ _ Hu) by (fold fin; by rewrite Hfin, Hrg).
    fold fin. rewrite (v2_commit_user _ _ _ _ _ Hu), Hfin, Hrg. cbn [andb].
    eexists _, _. split; [reflexivity|]. eapply V2_not_due; eauto.
  - destruct (doc_of fin) as [rref|ex] eqn:Hd.
    + destruct (users (db w) !! rref) as [refData|] eqn:Hr.
      * rewrite (v2_reward _ _ _ _ _ Hu rref refData userRef)
          by (try done; fold fin; by rewrite Hfin, Hrg).
        fold fin. rewrite (v2_commit_reward _ _ _ _ _ _ _ _ Hu Hr).
        eexists _, _. split; [reflexivity|]. by eapply V2_rewarded.
      * rewrite (v2_read_missing _ _ _ _ _ Hu rref)
          by (try done; fold fin; by rewrite Hfin, Hrg).
        fold fin. rewrite (v2_commit_user _ _ _ _ _ Hu).
        eexists _, _. split; [reflexivity|]. eapply V2_not_due; eauto 10.
    + rewrite (v2_read_throw _ _ _ _ _ Hu ex)
        by (try done; fold fin; by rewrite Hfin, Hrg).
      eexists _, _. split; [reflexivity|]. by eapply V2_thrown.
  - rewrite (v2_no_read _ _ _ _ _ Hu) by (fold fin; by rewrite Hfin).
    fold fin. rewrite (v2_commit_user _ _ _ _ _ Hu), Hfin. cbn [andb].
    eexists _, _. split; [reflexivity|]. eapply V2_not_due; eauto.
Qed.

Lemma v2_credit_coins (refData : doc) :
  V2.credit refData !! "coins" =
  Some (plus (or_else (refData !! "coins") (JNum 0)) 500).
Proof. unfold V2.credit. apply lookup_insert_eq. Qed.

Lemma v2_credit_reffer (refData : doc) :
  V2.credit refData !! "reffer" =
  Some (plus (or_else (refData !! "reffer") (JNum 0)) 1).
Proof.
  unfold V2.credit. rewrite lookup_insert_ne by done. apply lookup_singleton_eq.
Qed.

Lemma v2_credit_other (refData : doc) (k : string) :
  k ≠ "coins" -> k ≠ "reffer" -> V2.credit refData !! k = None.
Proof.
  intros. unfold V2.credit.
  rewrite lookup_insert_ne by done. by apply lookup_singleton_ne.
Qed.

Lemma v2_credit_once (refData : doc) :
  credited_once refData (V2.credit refData ∪ refData).
Proof.
  unfold credited_once. repeat split.
  - intros c H He. erewrite lookup_union_Some_l; [reflexivity|].
    rewrite v2_credit_coins, H. f_equal. by apply plus_or_else_num.
  - intros H. erewrite lookup_union_Some_l; [reflexivity|].
    by rewrite v2_credit_coins, H.
  - intros c H He. erewrite lookup_union_Some_l; [reflexivity|].
    rewrite v2_credit_reffer, H. f_equal. by apply plus_or_else_num.
  - intros H. erewrite lookup_union_Some_l; [reflexivity|].
    by rewrite v2_credit_reffer, H.
  - intros k Hc Hr. rewrite lookup_union_r; [done|]. by apply v2_credit_other.
Qed.

Lemma v2_final_stored (userData : doc) userId referralId :
  truthy (userData !! "refferBy") = true ->
  V2.finalReferrerId userData userId referralId = userData !! "refferBy".
Proof. intros H. unfold V2.finalReferrerId. by rewrite H. Qed.

Lemma v2_updates_settled (userData : doc) (fin : option jsval) :
  userData !! "coins" ≠ None ->
  truthy (userData !! "refferBy") = true ->
  V2.userUpdates userData fin = ∅.
Proof.
  intros Hc Hr. apply map_eq; intros k.
  rewrite v2_updates_lookup, Hr, lookup_empty. cbn [negb andb].
  rewrite (bool_decide_eq_false_2 (userData !! "coins" = None)) by done.
  by case_bool_decide.
Qed.

(** Once settled, a call changes nothing and says "already rewarded". *)
Lemma v2_call_settled e userRef userId referralId s r s' :
  settled userRef s ->
  v2_call e userRef userId referralId s r s' ->
  s' = s /\
  r = (if transaction_fails e then Throw Unavailable else Ok AlreadyRewarded).
Proof.
  intros (ud & Hu & Hrg & Hc & Hr) Hcall.
  destruct Hcall as [Hf|Hf Hn|ud' ex Hf Hu' Hrg'|ud' o Hf Hu' fin Ho
                    |ud' rref refData Hf Hu' fin Hfin Hrg'];
    rewrite ?Hf; try done; simplify_eq.
  - congruence.
  - subst fin. rewrite v2_final_stored in * by done.
    rewrite v2_updates_settled by done. split; [by apply update_empty|].
    destruct Ho as [[? _]|[(_ & _ & ->)|(? & _ & ? & _)]]; congruence.
  - congruence.
Qed.

(** The user's own record after a reward. *)
Lemma v2_rewarded_own s t userRef rref userId (userData refData : doc) referralId :
  let fin := V2.finalReferrerId userData userId referralId in
  users s !! userRef = Some userData ->
  users s !! rref = Some refData ->
  truthy fin = true ->
  exists d,
    users (v2_rewarded_store s t userRef rref userId fin userData refData) !! userRef
    = Some d /\
    d !! "rewardGiven" = Some (JBool true) /\
    d !! "coins" ≠ None /\
    d !! "refferBy" = (if truthy (userData !! "refferBy")
                       then userData !! "refferBy" else fin).
Proof.
  intros fin Hu Hr Hfin. unfold v2_rewarded_store. cbn [users].
  eexists. split; [apply lookup_insert_eq|].
  set (own := if decide (rref = userRef) then _ else _).
  assert (Hown : forall k, k ≠ "coins" -> k ≠ "reffer" -> own !! k = userData !! k).
  { intros k ? ?. unfold own. destruct (decide (rref = userRef)) as [->|]; [|done].
    simplify_eq. by apply v2_credit_once. }
  assert (Hcoins : userData !! "coins" ≠ None -> own !! "coins" ≠ None).
  { intros Hc. unfold own. destruct (decide (rref = userRef)) as [->|]; [|done].
    erewrite lookup_union_Some_l; [done|]. apply v2_credit_coins. }
  split; [|split].
  - erewrite lookup_union_Some_l; [|apply lookup_insert_eq]. done.
  - rewrite lookup_union, lookup_insert_ne, v2_updates_lookup by done.
    rewrite (bool_decide_eq_false_2 ("coins" = "refferBy")) by done.
    case_bool_decide as Hc;
      [unfold defaults; rewrite lookup_insert_eq; by destruct (own !! "coins")|].
    destruct (own !! "coins") eqn:E; [done|]. by apply Hcoins in Hc.
  - rewrite lookup_union, lookup_insert_ne, v2_updates_lookup by done.
    rewrite bool_decide_eq_true_2 by done. rewrite Hfin, andb_true_r.
    destruct (truthy (userData !! "refferBy")) eqn:Hcur; cbn [negb].
    + rewrite (left_id_L None (∪)), Hown by done. done.
    + destruct fin; [|done]. cbn. destruct (own !! "refferBy"); done.
Qed.

(** The store after a reward is settled. *)
Lemma v2_rewarded_settled s t userRef rref userId (userData refData : doc) referralId :
  let fin := V2.finalReferrerId userData userId referralId in
  users s !! userRef = Some userData ->
  users s !! rref = Some refData ->
  truthy fin = true ->
  settled userRef (v2_rewarded_store s t userRef rref userId fin userData refData).
Proof.
  intros fin Hu Hr Hfin.
  destruct (v2_rewarded_own s t userRef rref userId userData refData referralId
              Hu Hr Hfin) as (d & Hd & Hrg & Hc & Hby).
  exists d. split; [done|]. rewrite Hrg, Hby. split; [done|]. split; [done|].
  by destruct (truthy (userData !! "refferBy")) eqn:E.
Qed.

(** The store after a reward holds that one reward. *)
Lemma v2_rewarded_store_for s t userRef rref userId fin (userData refData : doc) :
  users s !! rref = Some refData ->
  rewarded_for [t] userRef rref (JStr userId) (default JNull fin) s
    (v2_rewarded_store s t userRef rref userId fin userData refData).
Proof.
  intros Hr. exists t.
  split; [apply list_elem_of_here|]. split; [done|]. split.
  - intros ref H1 H2. unfold v2_rewarded_store. cbn [users].
    by rewrite !lookup_insert_ne.
  - intros Hne. unfold v2_rewarded_store. cbn [users].
    rewrite lookup_insert_ne, lookup_insert_eq by done.
    eexists. split; [done|]. rewrite Hr. apply v2_credit_once.
Qed.

(** One call either rewards nobody, or rewards once and settles. *)
Lemma v2_call_step e userRef userId referralId s r s' :
  v2_call e userRef userId referralId s r s' ->
  (r ≠ Ok Rewarded /\ quiet userRef s s') \/
  (r = Ok Rewarded /\ rewarded_once [now e] userRef s s' /\ settled userRef s').
Proof.
  assert (Hq : quiet userRef s s) by (by split).
  intros [Hf|Hf Hn|ud ex Hf Hu Hrg Hd|ud o Hf Hu fin Ho
         |ud rref refData Hf Hu fin Hfin Hrg Hd Hr]; try (left; by split).
  - left. split.
    + destruct Ho as [[_ ->]|[(_ & _ & ->)|(? & _ & _ & _ & _ & ->)]]; done.
    + split; [done|]. intros ref Hne. cbn [users]. by rewrite lookup_insert_ne.
  - right. split; [done|]. split; [|by apply v2_rewarded_settled].
    exists rref, (JStr userId), (default JNull fin).
    by apply v2_rewarded_store_for.
Qed.

(** A call on a record that is attributed keeps the attribution, and a
    reward it gives names the stored referrer. *)
Lemma v2_call_attributed e userRef userId referralId s r s' v :
  attributed userRef v s ->
  truthy (Some v) = true ->
  v2_call e userRef userId referralId s r s' ->
  attributed userRef v s' /\
  (r = Ok Rewarded ->
   ref_rewards s' !! userRef = Some (Reward (JStr userId) v 500 (now e))).
Proof.
  intros (ud & Hu & Hv) Ht Hcall. assert (Ha : attributed userRef v s) by (by exists ud).
  destruct Hcall as [Hf|Hf Hn|ud' ex Hf Hu' Hrg'|ud' o Hf Hu' fin Ho
                    |ud' rref refData Hf Hu' fin Hfin Hrg' Hd Hr];
    try (split; [done|]; intros [=]); simplify_eq.
  - split.
    + eexists. cbn [users]. split; [apply lookup_insert_eq|].
      rewrite lookup_union, v2_updates_lookup, bool_decide_eq_true_2 by done.
      by rewrite Hv, Ht.
    + intros [= ->]. destruct Ho as [[_ ?]|[(_ & _ & ?)|(? & _ & _ & _ & _ & ?)]]; done.
  - assert (Hcur : truthy (ud !! "refferBy") = true) by (by rewrite Hv).
    destruct (v2_rewarded_own s (now e) userRef rref userId ud refData referralId
                Hu Hr Hfin) as (d & Hd' & _ & _ & Hby).
    rewrite Hcur in Hby. split; [exists d; by rewrite Hby|].
    intros _. unfold v2_rewarded_store. cbn [ref_rewards]. rewrite lookup_insert_eq.
    subst fin. rewrite v2_final_stored, Hv by done. done.
Qed.

(** A call on a store where the reward is due gives it. *)
Lemma v2_call_due e userRef rref userId referralId referrer s r s' :
  v2_due userRef rref userId referralId referrer s ->
  transaction_fails e = false ->
  v2_call e userRef userId referralId s r s' ->
  r = Ok Rewarded /\
  rewarded_for [now e] userRef rref (JStr userId) referrer s s' /\
  settled userRef s' /\
  flagged userRef s' /\
  attributed userRef referrer s'.
Proof.
  intros (ud & Hu & Hrg & Hfin & Ht & Hd & [refData Hr]) Hf Hcall.
  destruct Hcall as [Hf'|Hf' Hn|ud' ex Hf' Hu' Hrg'|ud' o Hf' Hu' fin Ho
                    |ud' rref' refData' Hf' Hu' fin Hfin' Hrg' Hd' Hr'];
    try congruence; simplify_eq.
  - subst fin. rewrite Hfin in Ho.
    destruct Ho as [[? _]|[(_ & ? & _)|(? & _ & _ & ? & ? & _)]]; congruence.
  - subst fin. rewrite Hfin in *.
    assert (rref' = rref) as -> by congruence.
    assert (refData' = refData) as -> by congruence.
    split; [done|]. split; [|split; [|split]].
    + pose proof (v2_rewarded_store_for s (now e) userRef rref userId (Some referrer)
                    ud refData Hr') as H. exact H.
    + rewrite <- Hfin. apply v2_rewarded_settled; try done. by rewrite Hfin.
    + destruct (v2_rewarded_own s (now e) userRef rref userId ud refData referralId
                  Hu Hr') as (d & Hd1 & Hd2 & _); [by rewrite Hfin|].
      rewrite Hfin in Hd1. by exists d.
    + destruct (v2_rewarded_own s (now e) userRef rref userId ud refData referralId
                  Hu Hr') as (d & Hd1 & _ & _ & Hby); [by rewrite Hfin|].
      rewrite Hfin in Hd1, Hby. exists d. split; [done|]. rewrite Hby.
      destruct (truthy (ud !! "refferBy")) eqn:E; [|done].
      by rewrite <- Hfin, v2_final_stored.
Qed.


(** ** Revision 3: what one transaction does *)

Section V3_transaction.
Context (s : firestore) (userRef referrerRef rewardRef : docref) (userId : Z).
Context (referralId : option string).
Context (userData : doc) (Huser : users s !! userRef = Some userData).

Lemma v3_already :
  userData !! "rewardGiven" = Some (JBool true) ->
  V3.transaction userRef referrerRef rewardRef userId referralId s [] =
  Ok (AlreadyRewarded, []).
Proof.
  intros H. unfold V3.transaction. tx_unfold. rewrite Huser.
  by rewrite bool_decide_eq_true_2.
Qed.

Lemma v3_reward :
  userData !! "rewardGiven" ≠ Some (JBool true) ->
  truthy (of_string referralId) = true ->
  V3.transaction userRef referrerRef rewardRef userId referralId s [] =
  Ok (Rewarded, v3_writes userRef referrerRef rewardRef userId referralId userData).
Proof.
  intros H Ht. unfold V3.transaction, v3_writes. tx_unfold. rewrite Huser.
  rewrite bool_decide_eq_false_2 by done. rewrite Ht, andb_true_r.
  destruct (truthy (userData !! "refferBy")) eqn:Hcur; cbn [negb app].
  - rewrite Hcur. reflexivity.
  - rewrite Ht. reflexivity.
Qed.

End V3_transaction.

Lemma v3_subject_missing s userRef referrerRef rewardRef userId referralId :
  users s !! userRef = None ->
  V3.transaction userRef referrerRef rewardRef userId referralId s [] =
  Ok (SubjectMissing, []).
Proof. intros H. unfold V3.transaction. tx_unfold. rewrite H. reflexivity. Qed.

Lemma v3_commit_reward s t userRef rref userId referralId userData :
  users s !! userRef = Some userData ->
  commit t (v3_writes userRef rref userRef userId referralId userData) s
  = Some (v3_rewarded_store s t userRef rref userId referralId userData).
Proof.
  intros Hu. unfold v3_writes, v3_rewarded_store.
  set (assign := negb _ && _).
  destruct assign; cbn [app commit apply_write set_merge users ref_rewards].
  - rewrite Hu. cbn [default]. rewrite merge_doc_single.
    destruct (decide (rref = userRef)) as [->|Hne].
    + rewrite !lookup_insert_eq. cbn [default].
      rewrite merge_doc_plain_single. reflexivity.
    + rewrite (lookup_insert_ne _ userRef rref) by done.
      rewrite (lookup_insert_ne _ rref userRef) by done.
      rewrite lookup_insert_eq, merge_doc_plain_single. reflexivity.
  - rewrite (insert_id (users s) userRef userData) by done.
    destruct (decide (rref = userRef)) as [->|Hne].
    + rewrite Hu, lookup_insert_eq. cbn [default].
      rewrite merge_doc_plain_single. reflexivity.
    + rewrite (lookup_insert_ne _ rref userRef) by done.
      rewrite Hu, merge_doc_plain_single. reflexivity.
Qed.

Lemma v3_process_cases e userId referralId userRef w :
  doc_path (toString userId) = Ok userRef ->
  exists r s',
    V3.processReferralReward e userId referralId w = (r, World s' (sent w)) /\
    v3_call e userRef userId referralId (db w) r s'.
Proof.
  intros Hp. unfold V3.processReferralReward.
  destruct (truthy (of_string referralId)) eqn:Ht; cbn [negb].
  2:{ exists (Ok NoReferrer), (db w). rewrite world_eta. split; [done|by constructor]. }
  case_bool_decide as Hself.
  { exists (Ok SelfReferral), (db w). rewrite world_eta. split; [done|by constructor]. }
  io_unfold. rewrite Hp.
  destruct (doc_of (of_string referralId)) as [rref|ex] eqn:Hd.
  2:{ exists (Throw ex), (db w). rewrite world_eta. split; [done|by constructor]. }
  unfold runTransaction.
  destruct (transaction_fails e) eqn:Hf.
  { eexists _, _. split; [reflexivity|]. by eapply V3_failed. }
  destruct (users (db w) !! userRef) as [userData|] eqn:Hu.
  2:{ rewrite v3_subject_missing by done. cbn [commit].
      eexists _, _. split; [reflexivity|]. by eapply V3_missing. }
  destruct (decide (userData !! "rewardGiven" = Some (JBool true))) as [Hrg|Hrg].
  - rewrite (v3_already _ _ _ _ _ _ _ Hu Hrg). cbn [commit].
    eexists _, _. split; [reflexivity|]. by eapply V3_already.
  - rewrite (v3_reward _ _ _ _ _ _ _ Hu Hrg Ht), (v3_commit_reward _ _ _ _ _ _ _ Hu).
    eexists _, _. split; [reflexivity|]. by eapply V3_rewarded.
Qed.

Lemma increments_coins : increments !! "coins" = Some (FIncrement 500).
Proof. apply lookup_insert_eq. Qed.

Lemma increments_reffer : increments !! "reffer" = Some (FIncrement 1).
Proof. unfold increments. rewrite lookup_insert_ne by done. apply lookup_singleton_eq. Qed.

Lemma increments_other (k : string) :
  k ≠ "coins" -> k ≠ "reffer" -> increments !! k = None.
Proof.
  intros. unfold increments. rewrite lookup_insert_ne by done.
  by apply lookup_singleton_ne.
Qed.

Lemma v3_credit_once (d : doc) : credited_once d (merge_doc increments d).
Proof.
  unfold credited_once. repeat split.
  - intros c H He. by rewrite merge_doc_lookup, increments_coins, H, increment_exact.
  - intros H. by rewrite merge_doc_lookup, increments_coins, H.
  - intros c H He. by rewrite merge_doc_lookup, increments_reffer, H, increment_exact.
  - intros H. by rewrite merge_doc_lookup, increments_reffer, H.
  - intros k ? ?. by rewrite merge_doc_lookup, increments_other.
Qed.

(** The user's own record after a reward of revision 3. *)
Lemma v3_rewarded_own s t userRef rref userId referralId (userData : doc) :
  exists own,
    users (v3_rewarded_store s t userRef rref userId referralId userData) !! userRef
    = Some (<["rewardGiven" := JBool true]> own) /\
    own !! "refferBy" =
    (if negb (truthy (userData !! "refferBy")) && truthy (of_string referralId)
     then Some (default JNull (of_string referralId))
     else userData !! "refferBy").
Proof.
  unfold v3_rewarded_store. cbn [users]. eexists. split; [apply lookup_insert_eq|].
  set (assign := negb _ && _).
  assert (H : (if assign then <["refferBy" := default JNull (of_string referralId)]> userData
               else userData) !! "refferBy"
              = if assign then Some (default JNull (of_string referralId))
                else userData !! "refferBy").
  { destruct assign; [apply lookup_insert_eq|done]. }
  destruct (decide (rref = userRef)); [|done].
  by rewrite merge_doc_lookup, increments_other.
Qed.

Lemma v3_rewarded_flagged s t userRef rref userId referralId userData :
  flagged userRef (v3_rewarded_store s t userRef rref userId referralId userData).
Proof.
  destruct (v3_rewarded_own s t userRef rref userId referralId userData)
    as (own & Hown & _).
  eexists. split; [exact Hown|]. apply lookup_insert_eq.
Qed.

(** Once flagged, a call changes nothing and does not reward. *)
Lemma v3_call_flagged e userRef userId referralId s r s' :
  flagged userRef s ->
  v3_call e userRef userId referralId s r s' ->
  s' = s /\ r ≠ Ok Rewarded.
Proof.
  intros (ud & Hu & Hrg) Hcall.
  destruct Hcall; try done. simplify_eq.
Qed.

(** The store after a reward holds that one reward. *)
Lemma v3_rewarded_store_for s t userRef rref userId referralId (userData : doc) :
  exists referrer,
    rewarded_for [t] userRef rref (JNum userId) referrer s
      (v3_rewarded_store s t userRef rref userId referralId userData).
Proof.
  eexists _, t.
  split; [apply list_elem_of_here|]. split; [reflexivity|]. split.
  - intros ref H1 H2. unfold v3_rewarded_store. cbn [users].
    by rewrite !lookup_insert_ne.
  - intros H. unfold v3_rewarded_store. cbn [users].
    rewrite lookup_insert_ne, lookup_insert_eq by done.
    rewrite decide_False by done.
    eexists. split; [done|]. apply v3_credit_once.
Qed.

(** One call either changes nothing, or rewards once and sets the flag. *)
Lemma v3_call_step e userRef userId referralId s r s' :
  v3_call e userRef userId referralId s r s' ->
  (r ≠ Ok Rewarded /\ s' = s) \/
  (r = Ok Rewarded /\ rewarded_once [now e] userRef s s' /\ flagged userRef s').
Proof.
  intros Hcall. destruct Hcall as [| | | | | |rref ud Ht Hne Hd Hf Hu Hrg];
    try (left; by split).
  right. split; [done|]. split; [|apply v3_rewarded_flagged].
  destruct (v3_rewarded_store_for s (now e) userRef rref userId referralId ud)
    as [referrer H].
  by exists rref, (JNum userId), referrer.
Qed.

(** A call on a record that is attributed keeps the attribution, and a
    reward it gives names the stored referrer. *)
Lemma v3_call_attributed e userRef userId referralId s r s' v :
  attributed userRef v s ->
  truthy (Some v) = true ->
  v3_call e userRef userId referralId s r s' ->
  attributed userRef v s' /\
  (r = Ok Rewarded ->
   ref_rewards s' !! userRef = Some (Reward (JNum userId) v 500 (now e))).
Proof.
  intros (ud & Hu & Hv) Ht Hcall. assert (Ha : attributed userRef v s) by (by exists ud).
  destruct Hcall as [| | | | | |rref ud' Ht' Hne Hd Hf Hu' Hrg];
    try (split; [done|]; intros [=]). simplify_eq.
  assert (Hcur : truthy (ud !! "refferBy") = true) by (by rewrite Hv).
  split.
  - destruct (v3_rewarded_own s (now e) userRef rref userId referralId ud)
      as (own & Hown & Hby).
    rewrite Hcur in Hby. cbn [negb andb] in Hby.
    eexists. split; [exact Hown|]. rewrite lookup_insert_ne by done. congruence.
  - intros _. unfold v3_rewarded_store. cbn [ref_rewards].
    rewrite lookup_insert_eq, Hcur, Hv. done.
Qed.

(** A call on a store where the reward is due gives it. *)
Lemma v3_call_due e userRef rref userId referralId s r s' :
  v3_due userRef rref userId referralId s ->
  transaction_fails e = false ->
  v3_call e userRef userId referralId s r s' ->
  r = Ok Rewarded /\
  (exists referrer,
     rewarded_for [now e] userRef rref (JNum userId) referrer s s') /\
  flagged userRef s'.
Proof.
  intros (ud & Hu & Hrg & Ht & Hne & Hd) Hf Hcall.
  destruct Hcall as [| | | | | |rref' ud' Ht' Hne' Hd' Hf' Hu' Hrg'];
    try congruence.
  assert (rref' = rref) as -> by congruence.
  split; [done|]. split; [apply v3_rewarded_store_for|apply v3_rewarded_flagged].
Qed.

(** ** Sequences of calls *)

Lemma quiet_refl userRef s : quiet userRef s s.
Proof. by split. Qed.

Lemma quiet_trans userRef s1 s2 s3 :
  quiet userRef s1 s2 -> quiet userRef s2 s3 -> quiet userRef s1 s3.
Proof.
  intros [H1 H2] [H3 H4]. split; [congruence|].
  intros ref Hne. rewrite H4, H2; done.
Qed.

Lemma quiet_rewarded_for ts userRef rref subject referrer s1 s2 s3 :
  quiet userRef s1 s2 ->
  rewarded_for ts userRef rref subject referrer s2 s3 ->
  rewarded_for ts userRef rref subject referrer s1 s3.
Proof.
  intros [H1 H2] (t & Ht & Hl & Ho & Hc). exists t.
  split; [done|]. split; [congruence|]. split.
  - intros ref ? ?. rewrite Ho, H2; done.
  - intros Hne. destruct (Hc Hne) as (d' & ? & ?). exists d'.
    by rewrite <- H2.
Qed.

Lemma rewarded_for_weaken ts ts' userRef rref subject referrer s s' :
  ts ⊆ ts' ->
  rewarded_for ts userRef rref subject referrer s s' ->
  rewarded_for ts' userRef rref subject referrer s s'.
Proof. intros Hs (t & Ht & H). exists t. split; [by apply Hs|done]. Qed.

Section Sequences.
Context {C : Type} (step : C -> io outcome) (time : C -> Z) (userRef : docref).

Lemma calls_frozen cs w :
  (forall c, after (step c) w = w) -> calls step cs w = w.
Proof.
  intros H. induction cs as [|c cs IH]; [done|].
  cbn [calls foldl]. rewrite H. exact IH.
Qed.

Hypothesis step_once : forall c w,
  quiet userRef (db w) (db (after (step c) w)) \/
  (rewarded_once [time c] userRef (db w) (db (after (step c) w)) /\
   forall c', after (step c') (after (step c) w) = after (step c) w).

Lemma calls_at_most_once cs w :
  quiet userRef (db w) (db (calls step cs w)) \/
  rewarded_once (time <$> cs) userRef (db w) (db (calls step cs w)).
Proof.
  revert w. induction cs as [|c cs IH]; intros w.
  { left. apply quiet_refl. }
  cbn [calls foldl]. fold (calls step cs (after (step c) w)).
  destruct (step_once c w) as [Hq|[(rref & sub & ref' & Hr) Hfrozen]].
  - destruct (IH (after (step c) w)) as [Hq'|(rref & sub & ref' & Hr)].
    + left. by eapply quiet_trans.
    + right. exists rref, sub, ref'.
      eapply rewarded_for_weaken; [|by eapply quiet_rewarded_for].
      rewrite fmap_cons. intros t Ht. by apply list_elem_of_further.
  - right. rewrite calls_frozen by done. exists rref, sub, ref'.
    eapply rewarded_for_weaken; [|done]. rewrite fmap_cons.
    intros t Ht. apply list_elem_of_singleton in Ht as ->. apply list_elem_of_here.
Qed.

End Sequences.

Section First_success.
Context (step : env -> io outcome) (due : world -> Prop).

Hypothesis failure_is_no_change : forall e w,
  due w -> transaction_fails e = true -> after (step e) w = w.

Hypothesis success_is_final : forall e w,
  due w -> transaction_fails e = false ->
  forall e', after (step e') (after (step e) w) = after (step e) w.

Lemma calls_first_success es w :
  due w ->
  Exists (fun e => transaction_fails e = false) es ->
  exists e, e ∈ es /\ transaction_fails e = false /\
            calls step es w = after (step e) w.
Proof.
  intros Hdue Hex. induction es as [|e es IH]; [by apply Exists_nil in Hex|].
  cbn [calls foldl]. fold (calls step es (after (step e) w)).
  destruct (transaction_fails e) eqn:Hf.
  - rewrite failure_is_no_change by done.
    apply Exists_cons in Hex as [Hex|Hex]; [congruence|].
    destruct (IH Hex) as (e' & ? & ? & ?). exists e'.
    split; [by apply list_elem_of_further|done].
  - exists e. split; [apply list_elem_of_here|]. split; [done|].
    apply calls_frozen. by apply success_is_final.
Qed.

End First_success.

(** ** The two reward steps, call after call *)

Lemma v2_after e userId referralId userRef w :
  doc_path userId = Ok userRef ->
  exists r s',
    V2.process e userId referralId w = (r, World s' (sent w)) /\
    after (V2.process e userId referralId) w = World s' (sent w) /\
    v2_call e userRef userId referralId (db w) r s'.
Proof.
  intros Hp. destruct (v2_process_cases e userId referralId userRef w Hp)
    as (r & s' & Heq & Hcall).
  exists r, s'. unfold after. by rewrite Heq.
Qed.

Lemma v2_settled_frozen e userId referralId userRef w :
  doc_path userId = Ok userRef ->
  settled userRef (db w) ->
  V2.process e userId referralId w =
  (if transaction_fails e then Throw Unavailable else Ok AlreadyRewarded, w).
Proof.
  intros Hp Hs. destruct (v2_after e userId referralId userRef w Hp)
    as (r & s' & Heq & _ & Hcall).
  destruct (v2_call_settled _ _ _ _ _ _ _ Hs Hcall) as [-> ->].
  by rewrite Heq, world_eta.
Qed.

Lemma v2_step_once userId referralId userRef e w :
  doc_path userId = Ok userRef ->
  quiet userRef (db w) (db (after (V2.process e userId referralId) w)) \/
  (rewarded_once [now e] userRef (db w) (db (after (V2.process e userId referralId) w)) /\
   forall e', after (V2.process e' userId referralId)
                (after (V2.process e userId referralId) w)
              = after (V2.process e userId referralId) w).
Proof.
  intros Hp. destruct (v2_after e userId referralId userRef w Hp)
    as (r & s' & _ & -> & Hcall). cbn [db].
  destruct (v2_call_step _ _ _ _ _ _ _ Hcall) as [[_ Hq]|(_ & Hr & Hs)];
    [by left|right]. split; [done|].
  intros e'. unfold after. by rewrite (v2_settled_frozen e' _ _ userRef).
Qed.

Lemma v3_after e userId referralId userRef w :
  doc_path (toString userId) = Ok userRef ->
  exists r s',
    V3.processReferralReward e userId referralId w = (r, World s' (sent w)) /\
    after (V3.processReferralReward e userId referralId) w = World s' (sent w) /\
    v3_call e userRef userId referralId (db w) r s'.
Proof.
  intros Hp. destruct (v3_process_cases e userId referralId userRef w Hp)
    as (r & s' & Heq & Hcall).
  exists r, s'. unfold after. by rewrite Heq.
Qed.

Lemma v3_flagged_frozen e userId referralId userRef w :
  doc_path (toString userId) = Ok userRef ->
  flagged userRef (db w) ->
  after (V3.processReferralReward e userId referralId) w = w.
Proof.
  intros Hp Hs. destruct (v3_after e userId referralId userRef w Hp)
    as (r & s' & _ & -> & Hcall).
  destruct (v3_call_flagged _ _ _ _ _ _ _ Hs Hcall) as [-> _].
  apply world_eta.
Qed.

Lemma v3_step_once userId referralId userRef e w :
  doc_path (toString userId) = Ok userRef ->
  quiet userRef (db w) (db (after (V3.processReferralReward e userId referralId) w)) \/
  (rewarded_once [now e] userRef (db w)
     (db (after (V3.processReferralReward e userId referralId) w)) /\
   forall e', after (V3.processReferralReward e' userId referralId)
                (after (V3.processReferralReward e userId referralId) w)
              = after (V3.processReferralReward e userId referralId) w).
Proof.
  intros Hp. destruct (v3_after e userId referralId userRef w Hp)
    as (r & s' & _ & -> & Hcall). cbn [db].
  destruct (v3_call_step _ _ _ _ _ _ _ Hcall) as [[_ ->]|(_ & Hr & Hs)];
    [left; apply quiet_refl|right]. split; [done|].
  intros e'. by apply (v3_flagged_frozen e' _ _ userRef).
Qed.

(** * The claims *)

(** ** C1: exactly-once reward *)

(** C1.  Revision 3 credits one user and names another.  User 1 arrives
    with the token of R1 while the transaction cannot reach the store:
    the record is created with [refferBy] R1 and nobody is rewarded.
    User 1 then comes back with the token of R2.  Inside the transaction
    the stored referrer R1 wins and is written into the ledger entry, but
    the record credited is the one built from the token before the
    transaction: R2 gets 500 coins and 1 referral, and R1, the referrer
    the ledger names, gets nothing. *)
Theorem v3_reward_misdirected :
  after (V3.handler store_down (start_request 1 "/start R1")) (World R1_and_R2 [])
  = World new_user1_of_R1 [7] /\
  V3.processReferralReward healthy_later 1 (Some "R2") (World new_user1_of_R1 [7])
  = (Ok Rewarded,
     World (Store (<[ ["1"] := <["rewardGiven" := JBool true]>
                                 (V3.new_user 1 "Ann" None (Some "R1")) ]>
                     (<[ ["R2"] := {[ "coins" := JNum 500; "reffer" := JNum 1 ]} ]>
                        {[ ["R1"] := {[ "coins" := JNum 0; "reffer" := JNum 0 ]} ]}))
                  {[ ["1"] := Reward (JNum 1) (JStr "R1") 500 2000 ]})
           [7]).
Proof. split; vm_compute; reflexivity. Qed.

(** The handler takes the same path: the second "/start" of user 1. *)
Example v3_reward_misdirected_by_handler :
  let w' := after (V3.handler healthy_later (start_request 1 "/start R2"))
              (World new_user1_of_R1 [7]) in
  ref_rewards (db w') = {[ ["1"] := Reward (JNum 1) (JStr "R1") 500 2000 ]} /\
  users (db w') !! ["R1"] = Some {[ "coins" := JNum 0; "reffer" := JNum 0 ]} /\
  users (db w') !! ["R2"] = Some {[ "coins" := JNum 500; "reffer" := JNum 1 ]}.
Proof. repeat split; vm_compute; reflexivity. Qed.

(** Revision 2 on the same record credits the referrer the ledger
    names: both come from [finalReferrerId]. *)
Example v2_credits_stored_referrer :
  let w' := after (V2.process healthy "1" (Some "R2")) (World user1_of_R1 []) in
  ref_rewards (db w') = {[ ["1"] := Reward (JStr "1") (JStr "R1") 500 1000 ]} /\
  users (db w') !! ["R1"] = Some {[ "coins" := JNum 500; "reffer" := JNum 1 ]} /\
  users (db w') !! ["R2"] = Some {[ "coins" := JNum 0; "reffer" := JNum 0 ]}.
Proof. repeat split; vm_compute; reflexivity. Qed.

(** Revision 2 has a gap of its own in the guard.  On a record that
    carries [rewardGiven: true] but no [coins], the defaults of lines
    294-300 write [rewardGiven: false] back, and the next call rewards. *)
Example v2_flag_reset_without_coins :
  let w1 := after (V2.process healthy "1" None) (World flagged_without_coins []) in
  let w2 := after (V2.process healthy_later "1" None) w1 in
  flagged ["1"] flagged_without_coins /\
  ref_rewards (db w1) = ∅ /\
  ref_rewards (db w2) = {[ ["1"] := Reward (JStr "1") (JStr "R1") 500 2000 ]} /\
  users (db w2) !! ["R1"] = Some {[ "coins" := JNum 500; "reffer" := JNum 1 ]}.
Proof.
  split.
  { exists (<["rewardGiven" := JBool true]>
              (<["refferBy" := JStr "R1"]> (identity_fields "1" "Ann" None))).
    split; vm_compute; reflexivity. }
  repeat split; vm_compute; reflexivity.
Qed.

(** ** C6: write-once attribution *)

Lemma calls_invariant {C A} (step : C -> io A) (P : world -> Prop) cs w :
  (forall c w0, P w0 -> P (after (step c) w0)) -> P w -> P (calls step cs w).
Proof.
  intros Hstep. revert w. induction cs as [|c cs IH]; intros w Hw; [done|].
  cbn [calls foldl]. apply IH. by apply Hstep.
Qed.

(** C6.  Once a user's record holds a referrer ([refferBy] set to a value
    the code reads as present, that is a truthy one), no sequence of
    later calls of the reward step changes it, whatever token each call
    brings; and a call that rewards writes the stored referrer, not its
    own token, into the ledger entry.  Stated for the transaction of
    revision 2 and for [processReferralReward] of revision 3. *)
Theorem write_once_attribution :
  (forall (cs : list (env * option string)) (w : world) (userId : string)
          (userRef : docref) (v : jsval),
     doc_path userId = Ok userRef ->
     attributed userRef v (db w) ->
     truthy (Some v) = true ->
     attributed userRef v (db (calls (fun c => V2.process c.1 userId c.2) cs w)) /\
     (forall e referralId w',
        V2.process e userId referralId w = (Ok Rewarded, w') ->
        ref_rewards (db w') !! userRef = Some (Reward (JStr userId) v 500 (now e)))) /\
  (forall (cs : list (env * option string)) (w : world) (userId : Z)
          (userRef : docref) (v : jsval),
     doc_path (toString userId) = Ok userRef ->
     attributed userRef v (db w) ->
     truthy (Some v) = true ->
     attributed userRef v
       (db (calls (fun c => V3.processReferralReward c.1 userId c.2) cs w)) /\
     (forall e referralId w',
        V3.processReferralReward e userId referralId w = (Ok Rewarded, w') ->
        ref_rewards (db w') !! userRef = Some (Reward (JNum userId) v 500 (now e)))).
Proof.
  split.
  - intros cs w userId userRef v Hp Ha Ht. split.
    + apply (calls_invariant _ (fun w0 => attributed userRef v (db w0))); [|done].
      intros [e referralId] w0 H0. cbn [fst snd].
      destruct (v2_after e userId referralId userRef w0 Hp)
        as (r & s' & _ & -> & Hcall). cbn [db].
      by destruct (v2_call_attributed _ _ _ _ _ _ _ _ H0 Ht Hcall).
    + intros e referralId w' Heq.
      destruct (v2_after e userId referralId userRef w Hp)
        as (r & s' & Heq' & _ & Hcall).
      rewrite Heq in Heq'. injection Heq' as <- ->. cbn [db].
      by destruct (v2_call_attributed _ _ _ _ _ _ _ _ Ha Ht Hcall) as [_ H]; apply H.
  - intros cs w userId userRef v Hp Ha Ht. split.
    + apply (calls_invariant _ (fun w0 => attributed userRef v (db w0))); [|done].
      intros [e referralId] w0 H0. cbn [fst snd].
      destruct (v3_after e userId referralId userRef w0 Hp)
        as (r & s' & _ & -> & Hcall). cbn [db].
      by destruct (v3_call_attributed _ _ _ _ _ _ _ _ H0 Ht Hcall).
    + intros e referralId w' Heq.
      destruct (v3_after e userId referralId userRef w Hp)
        as (r & s' & Heq' & _ & Hcall).
      rewrite Heq in Heq'. injection Heq' as <- ->. cbn [db].
      by destruct (v3_call_attributed _ _ _ _ _ _ _ _ Ha Ht Hcall) as [_ H]; apply H.
Qed.

(** User 1 is attributed to R1; calls that bring the token of R2, or no
    token, leave that as it is, and the reward names R1. *)
Lemma write_once_attribution_witness :
  (attributed ["1"] (JStr "R1")
     (db (calls (fun c => V2.process c.1 "1" c.2)
            [(healthy, Some "R2"); (healthy_later, None)] (World user1_of_R1 []))) /\
   ref_rewards (db (V2.process healthy "1" (Some "R2") (World user1_of_R1 [])).2)
     !! ["1"] = Some (Reward (JStr "1") (JStr "R1") 500 1000)) /\
  (attributed ["1"] (JStr "R1")
     (db (calls (fun c => V3.processReferralReward c.1 1 c.2)
            [(healthy, Some "R2"); (healthy_later, None)] (World user1_of_R1 []))) /\
   ref_rewards (db (V3.processReferralReward healthy 1 (Some "R2")
                      (World user1_of_R1 [])).2)
     !! ["1"] = Some (Reward (JNum 1) (JStr "R1") 500 1000)).
Proof.
  assert (Ha : attributed ["1"] (JStr "R1") (db (World user1_of_R1 []))).
  { eexists. split; vm_compute; reflexivity. }
  split; split.
  - refine (proj1 (proj1 write_once_attribution _ (World user1_of_R1 []) "1" ["1"]
                     (JStr "R1") _ Ha _)); vm_compute; reflexivity.
  - refine (proj2 (proj1 write_once_attribution [] (World user1_of_R1 []) "1" ["1"]
                     (JStr "R1") _ Ha _) healthy (Some "R2") _ _);
      vm_compute; reflexivity.
  - refine (proj1 (proj2 write_once_attribution _ (World user1_of_R1 []) 1 ["1"]
                     (JStr "R1") _ Ha _)); vm_compute; reflexivity.
  - refine (proj2 (proj2 write_once_attribution [] (World user1_of_R1 []) 1 ["1"]
                     (JStr "R1") _ Ha _) healthy (Some "R2") _ _);
      vm_compute; reflexivity.
Defined.

(** ** C7: idempotent repeat *)

Lemma v2_settled_transaction s userRef userId referralId :
  settled userRef s ->
  V2.transaction userRef userId referralId s [] = Ok (AlreadyRewarded, []).
Proof.
  intros (ud & Hu & Hrg & Hc & Hr).
  rewrite (v2_no_read _ _ _ _ _ Hu); rewrite v2_final_stored by done.
  - rewrite Hr, Hrg, v2_updates_settled by done. reflexivity.
  - by rewrite Hrg, andb_false_r.
Qed.

Lemma v2_rewarded_then_settled e userId referralId w w' :
  V2.process e userId referralId w = (Ok Rewarded, w') ->
  exists userRef, doc_path userId = Ok userRef /\ settled userRef (db w').
Proof.
  intros Heq. destruct (doc_path userId) as [userRef|ex] eqn:Hp.
  2:{ unfold V2.process in Heq. io_unfold. by rewrite Hp in Heq. }
  exists userRef. split; [done|].
  destruct (v2_after e userId referralId userRef w Hp)
    as (r & s' & Heq' & _ & Hcall).
  rewrite Heq in Heq'. injection Heq' as <- ->. cbn [db].
  by destruct (v2_call_step _ _ _ _ _ _ _ Hcall) as [[? _]|(_ & _ & ?)].
Qed.

Lemma v3_rewarded_then_flagged e userId referralId w w' :
  V3.processReferralReward e userId referralId w = (Ok Rewarded, w') ->
  exists userRef rref,
    doc_path (toString userId) = Ok userRef /\
    doc_of (of_string referralId) = Ok rref /\
    truthy (of_string referralId) = true /\
    referralId ≠ Some (toString userId) /\
    flagged userRef (db w').
Proof.
  intros Heq. destruct (doc_path (toString userId)) as [userRef|ex] eqn:Hp.
  2:{ unfold V3.processReferralReward in Heq. io_unfold. rewrite Hp in Heq.
      destruct (negb _); [done|]. by case_bool_decide. }
  destruct (v3_after e userId referralId userRef w Hp)
    as (r & s' & Heq' & _ & Hcall).
  rewrite Heq in Heq'. injection Heq' as <- ->. cbn [db].
  inversion Hcall; subst. exists userRef, rref.
  repeat (split; [done|]). apply v3_rewarded_flagged.
Qed.

(** C7.  After a call of the reward step that rewarded, every later call
    with the same arguments, after any number of such calls, leaves the
    whole store (the user's record, the referrer's record, the ledger)
    as it is and exits as "already rewarded"; its transaction buffers no
    write at all.  A later call that cannot reach the store changes
    nothing either: revision 2 then throws, revision 3 logs the failure.
    Stated for the transaction of revision 2 and for
    [processReferralReward] of revision 3. *)
Theorem idempotent_repeat :
  (forall (e : env) (w w' : world) (userId : string) (referralId : option string),
     V2.process e userId referralId w = (Ok Rewarded, w') ->
     (forall (es : list env) (e' : env),
        V2.process e' userId referralId
          (calls (fun e => V2.process e userId referralId) es w')
        = (if transaction_fails e' then Throw Unavailable else Ok AlreadyRewarded, w')) /\
     (exists userRef,
        doc_path userId = Ok userRef /\
        V2.transaction userRef userId referralId (db w') [] = Ok (AlreadyRewarded, []))) /\
  (forall (e : env) (w w' : world) (userId : Z) (referralId : option string),
     V3.processReferralReward e userId referralId w = (Ok Rewarded, w') ->
     (forall (es : list env) (e' : env),
        V3.processReferralReward e' userId referralId
          (calls (fun e => V3.processReferralReward e userId referralId) es w')
        = (if transaction_fails e' then Ok Failed else Ok AlreadyRewarded, w')) /\
     (exists userRef rref,
        doc_path (toString userId) = Ok userRef /\
        doc_of (of_string referralId) = Ok rref /\
        V3.transaction userRef rref userRef userId referralId (db w') []
        = Ok (AlreadyRewarded, []))).
Proof.
  split.
  - intros e w w' userId referralId Heq.
    destruct (v2_rewarded_then_settled _ _ _ _ _ Heq) as (userRef & Hp & Hs).
    split.
    + intros es e'. rewrite calls_frozen.
      * by apply (v2_settled_frozen e' _ _ userRef).
      * intros e0. unfold after. by rewrite (v2_settled_frozen e0 _ _ userRef).
    + exists userRef. split; [done|]. by apply v2_settled_transaction.
  - intros e w w' userId referralId Heq.
    destruct (v3_rewarded_then_flagged _ _ _ _ _ Heq)
      as (userRef & rref & Hp & Hd & Ht & Hne & Hs).
    split.
    + intros es e'. rewrite calls_frozen.
      * destruct (v3_after e' userId referralId userRef w' Hp)
          as (r & s' & Heq' & _ & Hcall).
        rewrite Heq'. destruct Hs as (ud & Hu & Hrg).
        destruct Hcall as [| | |? ? ? ? Hf|? ? ? ? Hf|? ? ? ? ? Hf|? ? ? ? ? Hf];
          try congruence; rewrite Hf, world_eta; try done.
      * intros e0. by apply (v3_flagged_frozen e0 _ _ userRef).
    + exists userRef, rref. split; [done|]. split; [done|].
      destruct Hs as (ud & Hu & Hrg). by apply (v3_already _ _ _ _ _ _ ud).
Qed.

(** User 1 has been rewarded for R1; after two more calls, one of them
    while the store is down, a further call finds the user already
    rewarded and the store as the first call left it. *)
Lemma idempotent_repeat_witness :
  (V2.process healthy_later "1" (Some "R1")
     (calls (fun e => V2.process e "1" (Some "R1")) [healthy_later; store_down]
        (V2.process healthy "1" (Some "R1") (World R1_and_user1 [])).2)
   = (Ok AlreadyRewarded, (V2.process healthy "1" (Some "R1") (World R1_and_user1 [])).2)) /\
  (V3.processReferralReward healthy_later 1 (Some "R1")
     (calls (fun e => V3.processReferralReward e 1 (Some "R1")) [healthy_later; store_down]
        (V3.processReferralReward healthy 1 (Some "R1") (World R1_and_new_user1 [])).2)
   = (Ok AlreadyRewarded,
      (V3.processReferralReward healthy 1 (Some "R1") (World R1_and_new_user1 [])).2)).
Proof.
  split.
  - refine (proj1 (proj1 idempotent_repeat healthy (World R1_and_user1 []) _ "1"
                     (Some "R1") _) [healthy_later; store_down] healthy_later).
    vm_compute. reflexivity.
  - refine (proj1 (proj2 idempotent_repeat healthy (World R1_and_new_user1 []) _ 1
                     (Some "R1") _) [healthy_later; store_down] healthy_later).
    vm_compute. reflexivity.
Defined.

(** ** C8: extraction of the referral token *)

Lemma append_cons (c : ascii) (a b : string) : String c a +:+ b = String c (a +:+ b).
Proof. reflexivity. Qed.

Lemma prefix_empty (s : string) : String.prefix "" s = true.
Proof. by destruct s. Qed.

Lemma prefix_cons (c : ascii) (a b : string) :
  String.prefix (String c a) (String c b) = String.prefix a b.
Proof. cbn. destruct (ascii_dec c c); [done|congruence]. Qed.

Lemma prefix_app (a b : string) : String.prefix a (a +:+ b) = true.
Proof.
  induction a as [|c a IH]; [apply prefix_empty|].
  by rewrite append_cons, prefix_cons.
Qed.

Lemma substring_all (s : string) : String.substring 0 (String.length s) s = s.
Proof. induction s as [|c s IH]; [done|]. cbn. by rewrite IH. Qed.

Lemma substring_skip (p s : string) (m : nat) :
  String.substring (String.length p) m (p +:+ s) = String.substring 0 m s.
Proof. induction p as [|c p IH]; [done|]. rewrite append_cons. cbn. exact IH. Qed.

Lemma length_append (p s : string) :
  String.length (p +:+ s) = (String.length p + String.length s)%nat.
Proof. induction p as [|c p IH]; [done|]. rewrite append_cons. cbn. by rewrite IH. Qed.

Lemma index_prefix (c : ascii) (p s : string) :
  String.index 0 (String c p) (String c p +:+ s) = Some 0%nat.
Proof.
  rewrite append_cons. cbn [String.index].
  rewrite <- append_cons, prefix_app. reflexivity.
Qed.

Lemma replace_prefix (c : ascii) (p s : string) :
  replace (String c p +:+ s) (String c p) "" = s.
Proof.
  unfold replace. rewrite index_prefix.
  cbn [String.substring Nat.add]. rewrite substring_skip, length_append.
  replace (String.length (String c p) + String.length s - String.length (String c p))%nat
    with (String.length s) by lia.
  rewrite substring_all. reflexivity.
Qed.

Lemma split_free (c : ascii) (s : string) :
  free_of c s = true -> split c s = [s].
Proof.
  induction s as [|a r IH]; [done|]. cbn [free_of split].
  intros [Ha Hr]%andb_true_iff. apply negb_true_iff in Ha. rewrite Ha, IH; done.
Qed.

Lemma split_sep (c : ascii) (a b : string) :
  free_of c a = true -> split c (a +:+ String c b) = a :: split c b.
Proof.
  induction a as [|x a IH]; intros H.
  - change ("" +:+ String c b) with (String c b). cbn [split].
    by rewrite Ascii.eqb_refl.
  - cbn [free_of] in H. apply andb_true_iff in H as [Hx Ha].
    apply negb_true_iff in Hx. rewrite append_cons. cbn [split].
    by rewrite Hx, IH.
Qed.

Lemma split_nonempty (c : ascii) (s : string) : split c s ≠ [].
Proof.
  induction s as [|a r IH]; [done|]. cbn [split].
  destruct (Ascii.eqb a c); [done|]. by destruct (split c r).
Qed.

Lemma split_short (c : ascii) (s : string) :
  (length (split c s) <? 2)%nat = free_of c s.
Proof.
  induction s as [|a r IH]; [done|]. cbn [split free_of].
  destruct (Ascii.eqb a c); cbn [negb andb].
  - pose proof (split_nonempty c r). by destruct (split c r).
  - rewrite <- IH. by destruct (split c r).
Qed.

Lemma extract_payload (payload : string) :
  free_of " " payload = true ->
  extractReferralId ("/start " +:+ payload) =
  Some (if startsWith payload "ref" then replace payload "ref" "" else payload).
Proof.
  intros H. unfold extractReferralId.
  change ("/start " +:+ payload) with ("/start" +:+ String " " payload).
  unfold startsWith at 1. rewrite prefix_app.
  rewrite split_sep, split_free by done.
  change (truthy (Some (JStr ("/start" +:+ String " " payload)))) with true.
  cbn [negb orb length Nat.ltb Nat.leb lookup list_lookup].
  by destruct (startsWith payload "ref").
Qed.

Lemma extract_none (text : string) :
  extractReferralId text = None <->
  startsWith text "/start" = false \/ free_of " " text = true.
Proof.
  unfold extractReferralId.
  destruct (startsWith text "/start") eqn:Hs.
  - assert (Ht : truthy (Some (JStr text)) = true) by (by destruct text).
    rewrite Ht, split_short. cbn [negb orb].
    destruct (free_of " " text) eqn:Hf; [by split; [right|]|].
    pose proof (split_short " " text) as Hl. rewrite Hf in Hl.
    destruct (split " " text) as [|a [|payload l]]; try done.
    cbn [lookup list_lookup]. split; [|by intros [|]].
    by destruct (startsWith payload "ref").
  - rewrite orb_true_r. by split; [left|].
Qed.

(** C8, counterexample.  The token "ref_R1" does not name the referrer
    "R1": the helper of revisions 1 and 2 removes the three characters
    "ref" and keeps the underscore, and revision 3 removes nothing. *)
Lemma referral_token_counterexample :
  extractReferralId "/start ref_R1" = Some "_R1" /\
  extractReferralId "/start ref_R1" ≠ Some "R1" /\
  V3.referral_parameter "/start ref_R1" = Some "ref_R1".
Proof. split; [|split]; vm_compute; congruence. Qed.

Lemma prefix_before_space (p head tail : string) :
  free_of " " p = true ->
  String.prefix p (head +:+ String " " tail) = String.prefix p head.
Proof.
  revert head. induction p as [|c p IH]; intros head Hp.
  { by rewrite !prefix_empty. }
  cbn [free_of] in Hp. apply andb_true_iff in Hp as [Hc Hp].
  apply negb_true_iff, Ascii.eqb_neq in Hc.
  destruct head as [|h head].
  - change ("" +:+ String " " tail) with (String " " tail). cbn [String.prefix].
    destruct (ascii_dec c " "); [congruence|done].
  - rewrite append_cons. cbn [String.prefix].
    destruct (ascii_dec c h); [by apply IH|done].
Qed.

(** The second word of the text, whatever follows it. *)
Lemma extract_second_word (head payload : string) (more : list string) :
  free_of " " head = true -> free_of " " payload = true ->
  startsWith head "/start" = true ->
  split " " (head +:+ String " " payload) = [head; payload] /\
  forall text,
    split " " text = head :: payload :: more ->
    startsWith text "/start" = true ->
    extractReferralId text = Some (strip_ref payload).
Proof.
  intros Hh Hp Hs. split; [by rewrite split_sep, split_free|].
  intros text Hsplit Hst. unfold extractReferralId.
  assert (Ht : truthy (Some (JStr text)) = true) by (by destruct text).
  rewrite Ht, Hst, Hsplit. cbn [negb orb length Nat.ltb Nat.leb lookup list_lookup].
  unfold strip_ref. by destruct (startsWith payload "ref").
Qed.

(** C8, as amended.  [extractReferralId] takes the text after the first
    space up to the next space and removes a leading "ref".  For every
    text whose first word starts with "/start" the result is the second
    word, stripped, whatever follows it; stripping gives the rest of a
    word that begins with "ref" and leaves any other word as it is.  So
    "/start ref" plus an id without spaces gives that id, and so does
    "/start " plus an id that does not begin with "ref".  It returns null
    exactly when the text does not start with "/start" or holds no
    space. *)
Theorem referral_token_extraction :
  (forall id : string,
     free_of " " id = true ->
     extractReferralId ("/start ref" +:+ id) = Some id) /\
  (forall id : string,
     free_of " " id = true ->
     startsWith id "ref" = false ->
     extractReferralId ("/start " +:+ id) = Some id) /\
  (forall text : string,
     extractReferralId text = None <->
     startsWith text "/start" = false \/ free_of " " text = true) /\
  (forall head payload : string,
     free_of " " head = true -> free_of " " payload = true ->
     startsWith head "/start" = true ->
     extractReferralId (head +:+ " " +:+ payload) = Some (strip_ref payload) /\
     forall rest : string,
       extractReferralId (head +:+ " " +:+ payload +:+ " " +:+ rest)
       = Some (strip_ref payload)) /\
  (forall id : string, strip_ref ("ref" +:+ id) = id) /\
  (forall payload : string,
     startsWith payload "ref" = false -> strip_ref payload = payload).
Proof.
  split; [|split; [|split; [|split; [|split]]]].
  - intros id H.
    change ("/start ref" +:+ id) with ("/start " +:+ ("ref" +:+ id)).
    rewrite extract_payload by done.
    unfold startsWith. by rewrite prefix_app, replace_prefix.
  - intros id H Hs. by rewrite extract_payload, Hs.
  - apply extract_none.
  - intros head payload Hh Hp Hs.
    change (head +:+ " " +:+ payload) with (head +:+ String " " payload).
    split.
    + destruct (extract_second_word head payload [] Hh Hp Hs) as [Hsplit H].
      apply H; [done|]. unfold startsWith in *.
      by rewrite prefix_before_space.
    + intros rest.
      change (head +:+ " " +:+ payload +:+ " " +:+ rest)
        with (head +:+ String " " (payload +:+ String " " rest)).
      destruct (extract_second_word head payload (split " " rest) Hh Hp Hs) as [_ H].
      apply H; [by rewrite !split_sep|].
      unfold startsWith in *. by rewrite prefix_before_space.
  - intros id. unfold strip_ref, startsWith. by rewrite prefix_app, replace_prefix.
  - intros payload Hs. unfold strip_ref. by rewrite Hs.
Qed.

(** The tokens "refR1" and "R1" both name R1; "/start" alone has none;
    what follows the second word is ignored, and so is what follows
    "/start" in the first. *)
Lemma referral_token_extraction_witness :
  extractReferralId "/start refR1" = Some "R1" /\
  extractReferralId "/start R1" = Some "R1" /\
  extractReferralId "/start" = None /\
  extractReferralId "/start R1 R2" = Some "R1" /\
  extractReferralId "/startX refR1 R2 R3" = Some "R1".
Proof.
  split; [|split; [|split; [|split]]].
  - apply (proj1 referral_token_extraction "R1"). reflexivity.
  - apply (proj1 (proj2 referral_token_extraction) "R1"); reflexivity.
  - apply (proj1 (proj2 (proj2 referral_token_extraction)) "/start"). right. reflexivity.
  - apply (proj2 (proj1 (proj2 (proj2 (proj2 referral_token_extraction)))
                    "/start" "R1" eq_refl eq_refl eq_refl) "R2").
  - transitivity (Some (strip_ref "refR1")).
    + exact (proj2 (proj1 (proj2 (proj2 (proj2 referral_token_extraction)))
                      "/startX" "refR1" eq_refl eq_refl eq_refl) "R2 R3").
    + exact (f_equal Some
               (proj1 (proj2 (proj2 (proj2 (proj2 referral_token_extraction)))) "R1")).
Defined.

(** ** C9: what ensuring the user leaves alone *)


Lemma not_identity_key (k : string) :
  k ∉ identity_keys ->
  k ≠ "id" /\ k ≠ "name" /\ k ≠ "photoURL" /\ k ≠ "frontendOpened".
Proof.
  unfold identity_keys. intros H.
  repeat split; intros ->; apply H;
    repeat first [apply list_elem_of_here | apply list_elem_of_further].
Qed.

Lemma identity_key_other (k : string) :
  k ≠ "id" -> k ≠ "name" -> k ≠ "photoURL" -> k ≠ "frontendOpened" ->
  k ∉ identity_keys.
Proof.
  intros ? ? ? ? H. unfold identity_keys in H.
  repeat (apply elem_of_cons in H as [H|H]; [done|]). by apply elem_of_nil in H.
Qed.


Lemma identity_fields_keys userId firstName photoUrl (k : string) :
  k ∉ identity_keys -> identity_fields userId firstName photoUrl !! k = None.
Proof.
  intros (? & ? & ? & ?)%not_identity_key. unfold identity_fields.
  rewrite !lookup_insert_ne by done. by apply lookup_singleton_ne.
Qed.

Lemma baseData_keys userId firstName photoURL (k : string) :
  k ∉ identity_keys -> V3.baseData userId firstName photoURL !! k = None.
Proof.
  intros (? & ? & ? & ?)%not_identity_key. unfold V3.baseData.
  rewrite !lookup_insert_ne by done. by apply lookup_singleton_ne.
Qed.



(** ** C2, C3: the transaction of revision 1 *)

(** C2.  Revision 1, a user who writes "/start" for the first time, all
    external services working: the transaction buffers the defaults and
    then reads again, the client refuses the read, the shared [catch]
    takes over and the welcome message is never sent. *)
Theorem v1_welcome_lost :
  V1.handler healthy (start_request 1 "/start") (World empty_store []) =
  (Ok (200, Send "Error"),
   World (Store {[ ["1"] := identity_fields "1" "Ann" None ]} ∅) []).
Proof. vm_compute. reflexivity. Qed.

(** The same in revision 2 needs the store to fail: the transaction is
    inside the same [try] as the welcome message. *)
Example v2_welcome_lost :
  V2.handler store_down (start_request 1 "/start") (World empty_store []) =
  (Ok (200, Send "Error"),
   World (Store {[ ["1"] := identity_fields "1" "Ann" None ]} ∅) []).
Proof. vm_compute. reflexivity. Qed.

(** C3.  Revision 1, new user 1 arriving with the token of the existing
    user R1: the transaction buffers the defaults and the referrer and
    then reads again, so it fails as a whole.  The user is neither
    attributed nor marked, R1 is not credited, the ledger stays empty. *)
Theorem v1_reward_not_applied :
  V1.handler healthy (start_request 1 "/start refR1") (World only_R1 []) =
  (Ok (200, Send "Error"),
   World (Store (<[ ["1"] := identity_fields "1" "Ann" None ]> (users only_R1)) ∅) []).
Proof. vm_compute. reflexivity. Qed.

(** Revision 2 on the same input applies the reward as one unit. *)
Example v2_new_user_rewarded :
  V2.handler healthy (start_request 1 "/start refR1") (World only_R1 []) =
  (Ok (200, Send "OK"),
   World (Store (<[ ["1"] := <["rewardGiven" := JBool true]>
                               (<["refferBy" := JStr "R1"]>
                                  (defaults ∪ identity_fields "1" "Ann" None)) ]>
                   {[ ["R1"] := {[ "coins" := JNum 500; "reffer" := JNum 1 ]} ]})
                {[ ["1"] := Reward (JStr "1") (JStr "R1") 500 1000 ]})
         [7]).
Proof. vm_compute. reflexivity. Qed.

(** Revision 3 keeps the failure of the transaction away from the
    welcome message: when the user can be read and written, the token
    (if any) names a document and the bot can send, the message goes out
    whether or not the transaction fails. *)
Lemma v3_welcome_sent (e : env) (w : world) (user : tg_user) (chatId : Z)
    (t : option string) (userRef : docref) :
  doc_path (toString (id user)) = Ok userRef ->
  getDoc_fails e = false -> setDoc_fails e = false -> sendPhoto_fails e = false ->
  (forall ex, doc_of (of_string (V3.referral_parameter (str_or_else t ""))) ≠ Throw ex) ->
  exists s',
    V3.handler e (Request "POST" (Some (Some (TgMessage (Some user) (Some chatId) t)))) w
    = (Ok (200, Send "OK"), World s' (sent w ++ [chatId])).
Proof.
  intros Hp Hg Hs Hb Hd. unfold V3.handler. cbn [body chat from text].
  set (referralId := V3.referral_parameter (str_or_else t "")) in *.
  assert (He : exists s1,
             V3.ensureUser e userRef (id user) (str_or_else (first_name user) "User")
               (photo e) referralId w = (Ok (), World s1 (sent w))).
  { unfold V3.ensureUser, getDoc, setDoc, setDoc_merge. io_unfold. rewrite Hg.
    destruct (users (db w) !! userRef); rewrite Hs; by eexists. }
  destruct He as [s1 He].
  destruct (v3_process_cases e (id user) referralId userRef (World s1 (sent w)) Hp)
    as (r & s' & Heq & Hcall). cbn [sent] in Heq.
  assert (Hr : exists o, r = Ok o).
  { destruct Hcall; try by eexists. by destruct (Hd ex). }
  destruct Hr as [o ->]. exists s'.
  repeat io_unfold. cbv beta iota zeta. rewrite Hp, He, Heq.
  unfold sendPhoto. rewrite Hb. reflexivity.
Qed.

(** ** C4: self-referral at creation in revision 3 *)

(** C4.  Revision 3, new user 1 writing "/start 1": the record is created
    with [refferBy] set to the user's own id.  [processReferralReward]
    then refuses the token, so nobody is rewarded, but the record names
    its own user as referrer. *)
Theorem v3_self_referral_stored :
  toString 1 = "1" /\
  V3.handler healthy (start_request 1 "/start 1") (World empty_store []) =
  (Ok (200, Send "OK"),
   World (Store {[ ["1"] := <["refferBy" := JStr "1"]> (V3.new_user 1 "Ann" None None) ]} ∅)
         [7]).
Proof. split; vm_compute; reflexivity. Qed.

(** The transactions themselves never attribute a user to its own id. *)
Lemma v2_own_token_ignored (userData : doc) (userId : string) :
  V2.finalReferrerId userData userId (Some userId) = userData !! "refferBy".
Proof.
  unfold V2.finalReferrerId. rewrite bool_decide_eq_true_2 by done.
  by rewrite andb_false_r.
Qed.

Lemma v3_own_token_refused e (userId : Z) w :
  V3.processReferralReward e userId (Some (toString userId)) w =
  (Ok (if truthy (of_string (Some (toString userId))) then SelfReferral else NoReferrer), w).
Proof.
  unfold V3.processReferralReward.
  destruct (truthy (of_string (Some (toString userId)))); [|done].
  by rewrite bool_decide_eq_true_2.
Qed.

(** ** C5: the missing referrer in revision 3 *)

(** C5.  Revision 3, new user 1 arriving with the token R9 while no record
    R9 exists: the merge-set creates the record R9 with 500 coins and 1
    referral, the user is marked as rewarded and the ledger gets its
    entry. *)
Theorem v3_missing_referrer_credited :
  users empty_store !! ["R9"] = None /\
  V3.handler healthy (start_request 1 "/start R9") (World empty_store []) =
  (Ok (200, Send "OK"),
   World (Store (<[ ["R9"] := {[ "coins" := JNum 500; "reffer" := JNum 1 ]} ]>
                   {[ ["1"] := <["rewardGiven" := JBool true]>
                                 (V3.new_user 1 "Ann" None (Some "R9")) ]})
                {[ ["1"] := Reward (JNum 1) (JStr "R9") 500 1000 ]})
         [7]).
Proof. split; vm_compute; reflexivity. Qed.

(** Revision 2 guards the reward with [referrerDoc.exists()]: with no
    record for the referrer a call rewards nobody, creates no record for
    the referrer, writes no ledger entry and leaves the user unrewarded. *)
Lemma v2_missing_referrer e userRef rref userId referralId (userData : doc) s r s' :
  users s !! userRef = Some userData ->
  truthy (userData !! "rewardGiven") = false ->
  doc_of (V2.finalReferrerId userData userId referralId) = Ok rref ->
  users s !! rref = None ->
  v2_call e userRef userId referralId s r s' ->
  r ≠ Ok Rewarded /\
  ref_rewards s' = ref_rewards s /\
  users s' !! rref = None /\
  exists userData',
    users s' !! userRef = Some userData' /\
    truthy (userData' !! "rewardGiven") = false.
Proof.
  intros Hu Hrg Hd Hr Hcall.
  assert (Hne : rref ≠ userRef) by congruence.
  destruct Hcall as [Hf|Hf Hn|ud' ex Hf Hu' Hrg'|ud' o Hf Hu' fin Ho
                    |ud' rref' refData' Hf Hu' fin Hfin' Hrg' Hd' Hr'];
    try (repeat split; [done..|by exists userData]); simplify_eq.
  - split.
    { destruct Ho as [[_ ->]|[(_ & _ & ->)|(? & _ & _ & _ & _ & ->)]]; done. }
    split; [done|]. cbn [users]. split; [by rewrite lookup_insert_ne|].
    eexists. split; [apply lookup_insert_eq|].
    rewrite lookup_union, v2_updates_lookup.
    rewrite (bool_decide_eq_false_2 ("rewardGiven" = "refferBy")) by done.
    case_bool_decide.
    + replace (defaults !! "rewardGiven") with (Some (JBool false)) by done.
      by destruct (userData !! "rewardGiven").
    + by rewrite (left_id_L None (∪)).
  - subst fin. congruence.
Qed.

(** And the user stays eligible: once the referrer's record exists, the
    same event delivered again gives the reward. *)
Example v2_retry_after_referrer_appears :
  let first := after (V2.handler healthy (start_request 1 "/start refR9"))
                 (World empty_store []) in
  let with_R9 :=
    World (set_doc ["R9"] {[ "coins" := JNum 0; "reffer" := JNum 0 ]} (db first))
          (sent first) in
  let second := after (V2.handler healthy_later (start_request 1 "/start refR9")) with_R9 in
  ref_rewards (db first) = ∅ /\
  users (db first) !! ["R9"] = None /\
  ref_rewards (db second) !! ["1"] = Some (Reward (JStr "1") (JStr "R9") 500 2000) /\
  users (db second) !! ["R9"] = Some {[ "coins" := JNum 500; "reffer" := JNum 1 ]}.
Proof. repeat split; vm_compute; reflexivity. Qed.

(** ** C10: the answer to the caller *)

(** C10.  Revision 3, a body whose message has no chat (and no sender):
    [msg.chat.id] is read before the [try], the exception leaves the
    handler, and no response is sent at all. *)
Theorem v3_malformed_body_uncaught (e : env) (w : world) (t : option string) :
  V3.handler e (malformed_request t) w = (Throw TypeError, w).
Proof. reflexivity. Qed.

(** Revisions 1 and 2 do answer 200 to every request. *)

Lemma only_200_ret (b : sent_body) : only_200 (mret (200, b)).
Proof. intros w r w' [= <- _]. reflexivity. Qed.

Lemma only_200_bind {A} (m : io A) (k : A -> io (Z * sent_body)) :
  (forall a, only_200 (k a)) -> only_200 (m ≫= k).
Proof.
  intros Hk w r w'. unfold mbind, io_mbind, io_bind.
  destruct (m w) as [[a|ex] w1]; [apply Hk|discriminate].
Qed.

Lemma only_200_catch (m h : io (Z * sent_body)) w :
  only_200 m -> only_200 h ->
  (forall w0, exists r w1, h w0 = (Ok r, w1)) ->
  exists b w', try_catch m h w = (Ok (200, b), w').
Proof.
  intros Hm Hh Hret. unfold try_catch.
  destruct (m w) as [[[st b]|ex] w1] eqn:E.
  - apply Hm in E. cbn in E. subst st. by eexists _, _.
  - destruct (Hret w1) as ([st b] & w2 & E2). rewrite E2.
    apply Hh in E2. cbn in E2. subst st. by eexists _, _.
Qed.

Lemma v1_always_200 (e : env) (req : request) (w : world) :
  exists b w', V1.handler e req w = (Ok (200, b), w').
Proof.
  unfold V1.handler. destruct (negb _); [by eexists _, _|].
  apply only_200_catch; [|apply only_200_ret|by eexists _, _].
  apply only_200_bind. intros [message|]; [|apply only_200_ret].
  destruct (from message) as [user|]; [|apply only_200_ret].
  destruct (is_bot user); [apply only_200_ret|].
  destruct (negb _); [apply only_200_ret|].
  repeat (apply only_200_bind; intros ?). apply only_200_ret.
Qed.

Lemma v2_always_200 (e : env) (req : request) (w : world) :
  exists b w', V2.handler e req w = (Ok (200, b), w').
Proof.
  unfold V2.handler. destruct (negb _); [by eexists _, _|].
  apply only_200_catch; [|apply only_200_ret|by eexists _, _].
  apply only_200_bind. intros [message|]; [|apply only_200_ret].
  destruct (from message) as [user|]; [|apply only_200_ret].
  destruct (is_bot user); [apply only_200_ret|].
  destruct (negb _); [apply only_200_ret|].
  repeat (apply only_200_bind; intros ?). apply only_200_ret.
Qed.

(** ** The reference of a user *)

(** The decimal form of an id holds no slash and is not empty, so
    [doc(db, 'users', id.toString())] always names the record
    [users/<id>]: the assumption [doc_path (toString userId) = Ok userRef]
    of the theorems above holds for every user, with
    [userRef = [toString userId]]. *)

Lemma includes_free (s : string) :
  free_of "/" s = true -> includes s "//" = false.
Proof.
  unfold includes. intros H.
  assert (Hi : String.index 0 "//" s = None); [|by rewrite Hi].
  induction s as [|a r IH]; [done|].
  cbn [free_of] in H. apply andb_true_iff in H as [Ha Hr].
  apply negb_true_iff, Ascii.eqb_neq in Ha.
  cbn [String.index]. rewrite IH by done.
  replace (String.prefix "//" (String a r)) with false; [done|].
  cbn [String.prefix]. destruct (ascii_dec "/" a); [congruence|done].
Qed.

Lemma doc_path_plain (s : string) :
  free_of "/" s = true -> s ≠ "" -> doc_path s = Ok [s].
Proof.
  intros H Hne. unfold doc_path. rewrite includes_free, split_free by done.
  cbn [List.filter]. apply String.eqb_neq in Hne. by rewrite Hne.
Qed.

Lemma pretty_N_char_digit (x : N) : Ascii.eqb (pretty_N_char x) "/" = false.
Proof. unfold pretty_N_char. by repeat case_match. Qed.

Lemma pretty_N_go_plain (x : N) (s : string) :
  free_of "/" s = true -> (s ≠ "" \/ (0 < x)%N) ->
  free_of "/" (pretty_N_go x s) = true /\ pretty_N_go x s ≠ "".
Proof.
  revert s. induction (N.lt_wf_0 x) as [x _ IH]. intros s Hs Hne.
  destruct (decide (x = 0)%N) as [->|Hx].
  - rewrite pretty_N_go_0. split; [done|]. destruct Hne as [?|?]; [done|lia].
  - rewrite pretty_N_go_step by lia. apply IH.
    + apply N.div_lt; lia.
    + cbn [free_of]. by rewrite pretty_N_char_digit, Hs.
    + by left.
Qed.

Lemma user_reference (userId : Z) :
  doc_path (toString userId) = Ok [toString userId].
Proof.
  unfold toString, pretty, pretty_Z.
  destruct userId as [|p|p]; [reflexivity| |].
  - unfold pretty, pretty_positive, pretty, pretty_N.
    rewrite decide_False by done.
    destruct (pretty_N_go_plain (N.pos p) "") as [H1 H2]; [done|right; lia|].
    by apply doc_path_plain.
  - unfold pretty, pretty_positive, pretty, pretty_N.
    rewrite decide_False by done.
    destruct (pretty_N_go_plain (N.pos p) "") as [H1 H2]; [done|right; lia|].
    apply doc_path_plain; [|done].
    change ("-" +:+ pretty_N_go (N.pos p) "")
      with (String "-" (pretty_N_go (N.pos p) "")).
    cbn [free_of]. by rewrite H1.
Qed.

(** * Further properties of the code *)

(** ** The photo helpers *)

(** X1.  [getUserPhoto] (revisions 1 and 2) never throws, whatever the
    bot client does.  It returns a URL exactly when the profile reply
    counts at least one photo, holds a first size of a first photo, and
    [getFile] answers for it without throwing; the URL is then the file
    URL of the bot, built from the token and the [file_path] of the
    answer, each of which appears as the text "undefined" when it is
    missing.  In every other case, a failing call or a reply that counts
    photos it does not hold included, it returns null. *)
Theorem getUserPhoto_result (b : bot) (token : option string) (userId : string) :
  (exists v, getUserPhoto b token userId = Ok v) /\
  (forall url,
     getUserPhoto b token userId = Ok (Some url) <->
     exists reply sizes size file_path,
       getUserProfilePhotos b (JStr userId) = Ok reply /\
       0 < total_count reply /\
       photos reply !! 0%nat = Some sizes /\
       sizes !! 0%nat = Some size /\
       getFile b (file_id size) = Ok file_path /\
       url = "https://api.telegram.org/file/bot" +:+ interpolate token
             +:+ "/" +:+ interpolate file_path).
Proof.
  unfold getUserPhoto, mbind, result_mbind, result_bind, defined.
  destruct (getUserProfilePhotos b (JStr userId)) as [reply|ex] eqn:Hreply.
  2:{ split; [by eexists|]. intros url. split; [done|]. by intros (? & ? & ? & ? & ? & _). }
  destruct (Z.ltb_spec 0 (total_count reply)) as [Hpos|Hpos].
  2:{ split; [by eexists|]. intros url. split; [done|].
      intros (? & ? & ? & ? & [= <-] & ? & _). lia. }
  destruct (photos reply !! 0%nat) as [sizes|] eqn:Hsizes.
  2:{ split; [by eexists|]. intros url. split; [done|].
      intros (? & ? & ? & ? & [= <-] & _ & ? & _). congruence. }
  destruct (sizes !! 0%nat) as [size|] eqn:Hsize.
  2:{ split; [by eexists|]. intros url. split; [done|].
      intros (? & ? & ? & ? & [= <-] & _ & ? & ? & _). congruence. }
  destruct (getFile b (file_id size)) as [file_path|ex] eqn:Hfile.
  2:{ split; [by eexists|]. intros url. split; [done|].
      intros (? & ? & ? & ? & [= <-] & _ & ? & ? & ? & _). congruence. }
  split; [by eexists|]. intros url. split.
  - intros [= <-]. by exists reply, sizes, size, file_path.
  - intros (? & ? & ? & ? & [= <-] & _ & ? & ? & ? & ->).
    repeat f_equal; congruence.
Qed.

(** X2.  [getUserProfilePhotoUrl] (revision 3) never throws either.  It
    returns the link [getFileLink] gives for the first size of the first
    photo exactly when the reply counts at least one photo, holds that
    size, and the link can be had; it returns null in every other
    case. *)
Theorem getUserProfilePhotoUrl_result (b : bot) (userId : Z) :
  (exists v, getUserProfilePhotoUrl b userId = Ok v) /\
  (forall url,
     getUserProfilePhotoUrl b userId = Ok (Some url) <->
     exists reply sizes size,
       getUserProfilePhotos b (JNum userId) = Ok reply /\
       0 < total_count reply /\
       photos reply !! 0%nat = Some sizes /\
       sizes !! 0%nat = Some size /\
       getFileLink b (file_id size) = Ok url).
Proof.
  unfold getUserProfilePhotoUrl, mbind, result_mbind, result_bind, defined.
  destruct (getUserProfilePhotos b (JNum userId)) as [reply|ex] eqn:Hreply.
  2:{ split; [by eexists|]. intros url. split; [done|]. by intros (? & ? & ? & ? & _). }
  destruct (Z.ltb_spec 0 (total_count reply)) as [Hpos|Hpos]; cbn [andb].
  2:{ split; [by eexists|]. intros url. split; [done|].
      intros (? & ? & ? & [= <-] & ? & _). lia. }
  destruct (photos reply) as [|sizes rest] eqn:Hphotos;
    cbn [length Nat.ltb Nat.leb lookup list_lookup].
  { split; [by eexists|]. intros url. split; [done|].
    intros (? & ? & ? & [= <-] & _ & H & _). by rewrite Hphotos in H. }
  destruct (sizes !! 0%nat) as [size|] eqn:Hsize.
  2:{ split; [by eexists|]. intros url. split; [done|].
      intros (? & ? & ? & [= <-] & _ & H & ? & _).
      rewrite Hphotos in H. cbn in H. congruence. }
  destruct (getFileLink b (file_id size)) as [link|ex] eqn:Hlink.
  2:{ split; [by eexists|]. intros url. split; [done|].
      intros (? & ? & ? & [= <-] & _ & H & ? & ?).
      rewrite Hphotos in H. cbn in H. congruence. }
  split; [by eexists|]. intros url. split.
  - intros [= <-]. exists reply, sizes, size. by rewrite Hphotos.
  - intros (? & ? & ? & [= <-] & _ & H & ? & ?).
    rewrite Hphotos in H. cbn in H. congruence.
Qed.

(** ** The referral parameter of revision 3 *)

Lemma referral_parameter_strip (text : string) :
  extractReferralId text = strip_ref <$> V3.referral_parameter text.
Proof.
  unfold extractReferralId, V3.referral_parameter, strip_ref.
  destruct (startsWith text "/start") eqn:Hs; [|by rewrite orb_true_r].
  assert (Ht : truthy (Some (JStr text)) = true) by (by destruct text).
  rewrite Ht. cbn [negb orb].
  destruct (split " " text) as [|a [|payload l]]; try done.
  cbn [length Nat.ltb Nat.leb lookup list_lookup fmap option_fmap option_map].
  by destruct (startsWith payload "ref").
Qed.

Lemma parameter_second_word (head payload text : string) (more : list string) :
  split " " text = head :: payload :: more ->
  startsWith text "/start" = true ->
  V3.referral_parameter text = Some payload.
Proof.
  intros Hsplit Hst. unfold V3.referral_parameter. by rewrite Hst, Hsplit.
Qed.

(** X3.  The inline extraction of revision 3 and [extractReferralId] of
    revisions 1 and 2 read the same word; the helper then strips it (it
    removes "ref" from a word that begins with "ref"), revision 3 keeps
    it as it is.  Revision 3 returns the second word of every text whose
    first word starts with "/start", whatever follows, and null exactly
    when the text does not start with "/start" or holds no space. *)
Theorem referral_parameter_spec :
  (forall text : string,
     extractReferralId text = strip_ref <$> V3.referral_parameter text) /\
  (forall payload : string,
     free_of " " payload = true ->
     V3.referral_parameter ("/start " +:+ payload) = Some payload) /\
  (forall text : string,
     V3.referral_parameter text = None <->
     startsWith text "/start" = false \/ free_of " " text = true) /\
  (forall head payload : string,
     free_of " " head = true -> free_of " " payload = true ->
     startsWith head "/start" = true ->
     V3.referral_parameter (head +:+ " " +:+ payload) = Some payload /\
     forall rest : string,
       V3.referral_parameter (head +:+ " " +:+ payload +:+ " " +:+ rest) = Some payload).
Proof.
  split; [apply referral_parameter_strip|]. split; [|split].
  - intros payload H. unfold V3.referral_parameter.
    change ("/start " +:+ payload) with ("/start" +:+ String " " payload).
    unfold startsWith. rewrite prefix_app, split_sep, split_free by done.
    reflexivity.
  - intros text. rewrite <- extract_none, referral_parameter_strip.
    by destruct (V3.referral_parameter text).
  - intros head payload Hh Hp Hs. split.
    + change (head +:+ " " +:+ payload) with (head +:+ String " " payload).
      apply (parameter_second_word head payload _ []).
      * by rewrite split_sep, split_free.
      * unfold startsWith in *. by rewrite prefix_before_space.
    + intros rest.
      change (head +:+ " " +:+ payload +:+ " " +:+ rest)
        with (head +:+ String " " (payload +:+ String " " rest)).
      apply (parameter_second_word head payload _ (split " " rest)).
      * by rewrite !split_sep.
      * unfold startsWith in *. by rewrite prefix_before_space.
Qed.

(** "/start ref42" gives "ref42" in revision 3 and "42" in the helper;
    what follows the second word is ignored. *)
Lemma referral_parameter_spec_witness :
  V3.referral_parameter "/start ref42" = Some "ref42" /\
  extractReferralId "/start ref42" = Some "42" /\
  V3.referral_parameter "/start R1 R2" = Some "R1".
Proof.
  assert (H : V3.referral_parameter "/start ref42" = Some "ref42").
  { apply (proj1 (proj2 referral_parameter_spec) "ref42"). reflexivity. }
  split; [exact H|]. split.
  - rewrite (proj1 referral_parameter_spec "/start ref42"), H. reflexivity.
  - exact (proj2 (proj2 (proj2 (proj2 referral_parameter_spec))
                    "/start" "R1" eq_refl eq_refl eq_refl) "R2").
Defined.

(** ** The handlers as a whole *)

(** X4.  Revisions 1 and 2 act only on a POST that carries a "/start"
    from a user who is not a bot.  Any other request, a GET, a body
    without message, a message without sender, a bot's message, another
    text, is answered with 200 and leaves the store and the chats as they
    were. *)
Theorem only_start_is_handled (e : env) (req : request) (w : world) :
  is_start req = false ->
  (exists b, V1.handler e req w = (Ok (200, b), w)) /\
  (exists b, V2.handler e req w = (Ok (200, b), w)).
Proof.
  unfold is_start, V1.handler, V2.handler. intros H.
  destruct (String.eqb (method req) "POST"); cbn [negb andb] in *;
    [|split; by eexists].
  destruct (body req) as [[message|]|]; repeat io_unfold; cbv beta iota zeta;
    [|split; by eexists..].
  destruct (from message) as [user|]; [|split; by eexists].
  destruct (is_bot user); cbn [negb andb] in H; [split; by eexists|].
  rewrite H. split; by eexists.
Qed.

(** A GET and a bot's "/start". *)
Lemma only_start_is_handled_witness :
  V1.handler healthy (Request "GET" None) (World only_R1 [])
  = (Ok (200, Json "ok" "Telegram Bot Webhook Active"), World only_R1 []) /\
  V2.handler healthy
    (Request "POST" (Some (Some (TgMessage (Some (TgUser 1 true None)) (Some 7)
                                   (Some "/start refR1")))))
    (World only_R1 [])
  = (Ok (200, Send "OK"), World only_R1 []).
Proof.
  split.
  - destruct (proj1 (only_start_is_handled healthy (Request "GET" None)
                       (World only_R1 []) eq_refl)) as [b Hb].
    rewrite Hb. vm_compute in Hb. congruence.
  - destruct (proj2 (only_start_is_handled healthy
                       (Request "POST" (Some (Some (TgMessage (Some (TgUser 1 true None))
                                                      (Some 7) (Some "/start refR1")))))
                       (World only_R1 []) eq_refl)) as [b Hb].
    rewrite Hb. vm_compute in Hb. congruence.
Defined.

(** X5.  Revisions 1 and 2 answer every request with status 200,
    whatever the request holds and whichever of the external calls
    fails: all their work is inside one [try] whose [catch] answers 200
    as well. *)
Theorem shared_catch_answers_200 (e : env) (req : request) (w : world) :
  (exists b w', V1.handler e req w = (Ok (200, b), w')) /\
  (exists b w', V2.handler e req w = (Ok (200, b), w')).
Proof. split; [apply v1_always_200|apply v2_always_200]. Qed.

Lemma try_catch_unit (m : io unit) (w : world) :
  exists w', try_catch m (mret tt) w = (Ok tt, w').
Proof. unfold try_catch. destruct (m w) as [[[]|ex] w1]; by eexists. Qed.

(** X6.  Revision 3 answers 200 "OK" to every message that has a chat and
    a sender, whatever its text and whichever external call fails, and
    200 "No message found", doing nothing, to a body without message; it
    does not look at the method. *)
Theorem v3_answers_messages (e : env) (w : world) (m : string) :
  (forall msg chatId user,
     chat msg = Some chatId -> from msg = Some user ->
     exists w', V3.handler e (Request m (Some (Some msg))) w = (Ok (200, Send "OK"), w')) /\
  V3.handler e (Request m (Some None)) w = (Ok (200, Send "No message found"), w) /\
  V3.handler e (Request m None) w = (Ok (200, Send "No message found"), w).
Proof.
  split; [|by split].
  intros msg chatId user Hc Hf. unfold V3.handler. cbn [body]. rewrite Hc, Hf.
  unfold property, mbind, io_mbind, io_bind at 1 2 3. unfold io_ret at 1 2.
  match goal with
  | |- context [try_catch ?inner _ w] =>
      destruct (try_catch_unit inner w) as [w' ->]
  end.
  by exists w'.
Qed.

(** A text that is no command, while the store cannot be read. *)
Lemma v3_answers_messages_witness :
  exists w',
    V3.handler (Env None 1000 true false false false)
      (Request "PUT" (Some (Some (TgMessage (Some (TgUser 1 false None)) (Some 7)
                                     (Some "hello")))))
      (World only_R1 [])
    = (Ok (200, Send "OK"), w').
Proof.
  apply (proj1 (v3_answers_messages (Env None 1000 true false false false)
                  (World only_R1 []) "PUT")
           (TgMessage (Some (TgUser 1 false None)) (Some 7) (Some "hello"))
           7 (TgUser 1 false None)); reflexivity.
Defined.

(** ** The welcome message *)

Lemma silent_ret {A} (a : A) : silent (mret a : io A).
Proof. by intros w. Qed.

Lemma silent_throw {A} (ex : exn) : silent (io_throw ex : io A).
Proof. by intros w. Qed.

Lemma silent_lift {A} (r : result A) : silent (io_lift r).
Proof. by intros w. Qed.

Lemma silent_property {A} (o : option A) : silent (property o).
Proof. by destruct o. Qed.

Lemma silent_bind {A B} (m : io A) (k : A -> io B) :
  silent m -> (forall a, silent (k a)) -> silent (m ≫= k).
Proof.
  intros Hm Hk w. unfold mbind, io_mbind, io_bind.
  specialize (Hm w). destruct (m w) as [[a|ex] w1]; cbn [snd] in *; [|done].
  by rewrite Hk.
Qed.

Lemma silent_try_catch {A} (m h : io A) :
  silent m -> silent h -> silent (try_catch m h).
Proof.
  intros Hm Hh w. unfold try_catch.
  specialize (Hm w). destruct (m w) as [[a|ex] w1]; cbn [snd] in *; [done|].
  by rewrite Hh.
Qed.

Lemma silent_setDoc_merge e ref data : silent (setDoc_merge e ref data).
Proof. intros w. unfold setDoc_merge. by destruct (setDoc_fails e). Qed.

Lemma silent_setDoc e ref data : silent (setDoc e ref data).
Proof. intros w. unfold setDoc. by destruct (setDoc_fails e). Qed.

Lemma silent_getDoc e ref : silent (getDoc e ref).
Proof. intros w. unfold getDoc. by destruct (getDoc_fails e). Qed.

Lemma silent_transaction {A} e (body : tx A) : silent (io_transaction e body).
Proof.
  intros w. unfold io_transaction.
  by destruct (runTransaction (transaction_fails e) (now e) body (db w)).
Qed.

Lemma silent_one_welcome {A} (c : Z) (m : io A) : silent m -> one_welcome c m.
Proof. intros H w. left. apply H. Qed.

Lemma one_welcome_sendPhoto e (c : Z) : one_welcome c (sendPhoto e c).
Proof. intros w. unfold sendPhoto. destruct (sendPhoto_fails e); [by left|by right]. Qed.

Lemma one_welcome_after {A B} (c : Z) (m : io A) (k : A -> io B) :
  silent m -> (forall a, one_welcome c (k a)) -> one_welcome c (m ≫= k).
Proof.
  intros Hm Hk w. unfold mbind, io_mbind, io_bind.
  specialize (Hm w). destruct (m w) as [[a|ex] w1]; cbn [snd] in *; [|by left].
  rewrite <- Hm. apply Hk.
Qed.

Lemma one_welcome_then {A B} (c : Z) (m : io A) (k : A -> io B) :
  one_welcome c m -> (forall a, silent (k a)) -> one_welcome c (m ≫= k).
Proof.
  intros Hm Hk w. unfold mbind, io_mbind, io_bind.
  specialize (Hm w). destruct (m w) as [[a|ex] w1]; cbn [snd] in *; [|done].
  by rewrite Hk.
Qed.

Lemma one_welcome_try_catch {A} (c : Z) (m h : io A) :
  one_welcome c m -> silent h -> one_welcome c (try_catch m h).
Proof.
  intros Hm Hh w. unfold try_catch.
  specialize (Hm w). destruct (m w) as [[a|ex] w1]; cbn [snd] in *; [done|].
  by rewrite Hh.
Qed.

Lemma one_welcome_property {A} (c : Z) (a : Z) (k : Z -> io A) :
  one_welcome c (k a) -> one_welcome c (property (Some a) ≫= k).
Proof. intros H w. apply H. Qed.

Lemma v3_reward_silent e userId referralId :
  silent (V3.processReferralReward e userId referralId).
Proof.
  unfold V3.processReferralReward.
  destruct (negb _); [apply silent_ret|]. case_bool_decide; [apply silent_ret|].
  repeat (apply silent_bind; [apply silent_lift|intros ?]).
  apply silent_try_catch; [apply silent_transaction|apply silent_ret].
Qed.

Lemma v3_ensure_silent e userRef userId firstName photoURL referralId :
  silent (V3.ensureUser e userRef userId firstName photoURL referralId).
Proof.
  unfold V3.ensureUser. apply silent_bind; [apply silent_getDoc|].
  intros [d|]; [apply silent_setDoc_merge|apply silent_setDoc].
Qed.

Lemma io_ret_bind {A B} (a : A) (k : A -> io B) : (io_ret a ≫= k) = k a.
Proof. reflexivity. Qed.

Lemma io_throw_bind {A B} (ex : exn) (k : A -> io B) :
  (io_throw ex ≫= k) = io_throw ex.
Proof. reflexivity. Qed.

(** What revisions 1 and 2 do once the request has passed their tests
    (lines 76-172, 254-371), whatever the transaction is. *)
Lemma start_flow_welcome {A} e (userId firstName : string) (body : docref -> tx A)
    (c : option Z) (answer : Z * sent_body) :
  match c with
  | Some chatId => one_welcome chatId
  | None => silent
  end (userRef ← io_lift (doc_path userId);
       setDoc_merge e userRef (identity_fields userId firstName (photo e));;
       io_transaction e (body userRef);;
       chatId ← property c;
       sendPhoto e chatId;;
       mret answer).
Proof.
  destruct c as [chatId|]; unfold property.
  - apply one_welcome_after; [apply silent_lift|intros userRef].
    apply one_welcome_after; [apply silent_setDoc_merge|intros _].
    apply one_welcome_after; [apply silent_transaction|intros _].
    rewrite io_ret_bind.
    apply one_welcome_then; [apply one_welcome_sendPhoto|intros _; apply silent_ret].
  - apply silent_bind; [apply silent_lift|intros userRef].
    apply silent_bind; [apply silent_setDoc_merge|intros _].
    apply silent_bind; [apply silent_transaction|intros _].
    rewrite io_throw_bind. apply silent_throw.
Qed.

(** X7.  One invocation of a handler sends at most one welcome message,
    and only to the chat of the message it handles: the list of sent
    messages is left as it was or grows by that chat.  A request without
    message or without chat sends nothing. *)
Theorem at_most_one_welcome (e : env) (req : request) (w : world) :
  let welcomed (w' : world) :=
    sent w' = sent w \/
    exists msg c, body req = Some (Some msg) /\ chat msg = Some c /\
                  sent w' = sent w ++ [c] in
  welcomed (after (V1.handler e req) w) /\
  welcomed (after (V2.handler e req) w) /\
  welcomed (after (V3.handler e req) w).
Proof.
  intros welcomed.
  assert (Hsilent : forall m : io (Z * sent_body), silent m -> welcomed (after m w)).
  { intros m Hm. left. apply Hm. }
  assert (Hflow : forall (m : io (Z * sent_body)) msg,
             body req = Some (Some msg) ->
             match chat msg with
             | Some chatId => one_welcome chatId
             | None => silent
             end m -> welcomed (after m w)).
  { intros m msg Hb Hm. destruct (chat msg) as [c|] eqn:Hc; [|by apply Hsilent].
    destruct (Hm w) as [H|H]; [by left|right]. by exists msg, c. }
  assert (Hquiet : forall (c : option Z) (m : io (Z * sent_body)),
             silent m ->
             match c with Some chatId => one_welcome chatId | None => silent end m).
  { intros [c|] m Hm; [by apply silent_one_welcome|done]. }
  assert (Hcatch : forall (c : option Z) (m h : io (Z * sent_body)),
             match c with Some chatId => one_welcome chatId | None => silent end m ->
             silent h ->
             match c with Some chatId => one_welcome chatId | None => silent end
               (try_catch m h)).
  { intros [c|] m h Hm Hh; [by apply one_welcome_try_catch|by apply silent_try_catch]. }
  split; [|split].
  - unfold V1.handler. destruct (negb _); [apply Hsilent, silent_ret|].
    destruct (body req) as [[msg|]|] eqn:Hb; unfold property;
      rewrite ?io_ret_bind, ?io_throw_bind;
      [|apply Hsilent, silent_try_catch;
        [apply silent_ret || apply silent_throw|apply silent_ret] ..].
    apply (Hflow _ msg eq_refl), Hcatch; [|apply silent_ret].
    destruct (from msg) as [user|]; [|apply Hquiet, silent_ret].
    destruct (is_bot user); [apply Hquiet, silent_ret|].
    destruct (negb _); [apply Hquiet, silent_ret|].
    apply (start_flow_welcome e _ _ (fun userRef => V1.transaction userRef _ _)).
  - unfold V2.handler. destruct (negb _); [apply Hsilent, silent_ret|].
    destruct (body req) as [[msg|]|] eqn:Hb; unfold property;
      rewrite ?io_ret_bind, ?io_throw_bind;
      [|apply Hsilent, silent_try_catch;
        [apply silent_ret || apply silent_throw|apply silent_ret] ..].
    apply (Hflow _ msg eq_refl), Hcatch; [|apply silent_ret].
    destruct (from msg) as [user|]; [|apply Hquiet, silent_ret].
    destruct (is_bot user); [apply Hquiet, silent_ret|].
    destruct (negb _); [apply Hquiet, silent_ret|].
    apply (start_flow_welcome e _ _ (fun userRef => V2.transaction userRef _ _)).
  - unfold V3.handler.
    destruct (body req) as [[msg|]|] eqn:Hb; [|apply Hsilent, silent_ret..].
    apply (Hflow _ msg eq_refl).
    destruct (chat msg) as [c|]; unfold property at 1;
      rewrite ?io_ret_bind, ?io_throw_bind; [|apply silent_throw].
    destruct (from msg) as [user|]; unfold property;
      rewrite ?io_ret_bind, ?io_throw_bind; [|apply silent_one_welcome, silent_throw].
    apply one_welcome_then; [|intros _; apply silent_ret].
    apply one_welcome_try_catch; [|apply silent_ret].
    apply one_welcome_after; [apply silent_lift|intros userRef].
    apply one_welcome_after; [apply v3_ensure_silent|intros _].
    apply one_welcome_after; [apply v3_reward_silent|intros _].
    apply one_welcome_sendPhoto.
Qed.

(** ** One reward per user *)

(** X8.  However many calls of the reward step run for one user with the
    same token, each an atomic transaction and each with its own fate
    ([env]): the store ends either with no reward for the user (ledger
    and all other records as before) or with exactly one (one ledger
    entry under the user's key, one record other than the user's own
    credited once with 500 coins and 1 referral, nothing else changed
    outside the user's own record).
    When the reward is due at the start and at least one call reaches the
    store, the store ends with exactly that one reward and the user
    carries [rewardGiven: true].  In revision 2 the record credited is
    the one of the effective referrer, whom the ledger names; in
    revision 3 it is the record the token names.  Stated for the
    transaction of revision 2 and for [processReferralReward] of
    revision 3. *)
Theorem at_most_one_reward :
  (forall (es : list env) (w : world) (userId : string)
          (referralId : option string) (userRef : docref),
     doc_path userId = Ok userRef ->
     let w' := calls (fun e => V2.process e userId referralId) es w in
     (quiet userRef (db w) (db w') \/
      rewarded_once (now <$> es) userRef (db w) (db w')) /\
     (forall rref referrer,
        v2_due userRef rref userId referralId referrer (db w) ->
        Exists (fun e => transaction_fails e = false) es ->
        rewarded_for (now <$> es) userRef rref (JStr userId) referrer (db w) (db w') /\
        flagged userRef (db w'))) /\
  (forall (es : list env) (w : world) (userId : Z)
          (referralId : option string) (userRef : docref),
     doc_path (toString userId) = Ok userRef ->
     let w' := calls (fun e => V3.processReferralReward e userId referralId) es w in
     (quiet userRef (db w) (db w') \/
      rewarded_once (now <$> es) userRef (db w) (db w')) /\
     (forall rref,
        v3_due userRef rref userId referralId (db w) ->
        Exists (fun e => transaction_fails e = false) es ->
        (exists referrer,
           rewarded_for (now <$> es) userRef rref (JNum userId) referrer (db w) (db w')) /\
        flagged userRef (db w'))).
Proof.
  split.
  - intros es w userId referralId userRef Hp w'. split.
    + apply calls_at_most_once. intros e w0. by apply v2_step_once.
    + intros rref referrer Hdue Hex.
      destruct (calls_first_success (fun e => V2.process e userId referralId)
                  (fun w0 => db w0 = db w)) with (es := es) (w := w)
        as (e & Hin & Hf & Heq); try done.
      * intros e w0 H0 Hf. destruct (v2_after e userId referralId userRef w0 Hp)
          as (r & s' & _ & -> & Hcall).
        destruct Hcall; try congruence. apply world_eta.
      * intros e w0 H0 Hf e'.
        destruct (v2_after e userId referralId userRef w0 Hp)
          as (r & s' & _ & Haft & Hcall). rewrite H0 in Hcall.
        destruct (v2_call_due _ _ _ _ _ _ _ _ _ Hdue Hf Hcall) as (_ & _ & Hs & _).
        rewrite Haft. unfold after.
        by rewrite (v2_settled_frozen e' _ _ userRef).
      * subst w'. rewrite Heq.
        destruct (v2_after e userId referralId userRef w Hp)
          as (r & s' & _ & -> & Hcall). cbn [db].
        destruct (v2_call_due _ _ _ _ _ _ _ _ _ Hdue Hf Hcall) as (_ & Hr & _ & Hfl & _).
        split; [|done]. eapply rewarded_for_weaken; [|done].
        intros t Ht. apply list_elem_of_singleton in Ht as ->.
        by apply list_elem_of_fmap_2.
  - intros es w userId referralId userRef Hp w'. split.
    + apply calls_at_most_once. intros e w0. by apply v3_step_once.
    + intros rref Hdue Hex.
      destruct (calls_first_success (fun e => V3.processReferralReward e userId referralId)
                  (fun w0 => db w0 = db w)) with (es := es) (w := w)
        as (e & Hin & Hf & Heq); try done.
      * intros e w0 H0 Hf. destruct (v3_after e userId referralId userRef w0 Hp)
          as (r & s' & _ & -> & Hcall).
        destruct Hcall; try congruence; apply world_eta.
      * intros e w0 H0 Hf e'.
        destruct (v3_after e userId referralId userRef w0 Hp)
          as (r & s' & _ & Haft & Hcall). rewrite H0 in Hcall.
        destruct (v3_call_due _ _ _ _ _ _ _ _ Hdue Hf Hcall) as (_ & _ & Hs).
        rewrite Haft. by apply (v3_flagged_frozen e' _ _ userRef).
      * subst w'. rewrite Heq.
        destruct (v3_after e userId referralId userRef w Hp)
          as (r & s' & _ & -> & Hcall). cbn [db].
        destruct (v3_call_due _ _ _ _ _ _ _ _ Hdue Hf Hcall) as (_ & [referrer Hr] & Hfl).
        split; [|done]. exists referrer. eapply rewarded_for_weaken; [|done].
        intros t Ht. apply list_elem_of_singleton in Ht as ->.
        by apply list_elem_of_fmap_2.
Qed.

(** Three calls for user 1 with the token of R1, the first of them while
    the store is down: one reward, stamped by the second call. *)
Lemma at_most_one_reward_witness :
  (rewarded_for [1500; 1000; 2000] ["1"] ["R1"] (JStr "1") (JStr "R1") R1_and_user1
     (db (calls (fun e => V2.process e "1" (Some "R1"))
            [store_down; healthy; healthy_later] (World R1_and_user1 []))) /\
   flagged ["1"]
     (db (calls (fun e => V2.process e "1" (Some "R1"))
            [store_down; healthy; healthy_later] (World R1_and_user1 [])))) /\
  ((exists referrer,
      rewarded_for [1500; 1000; 2000] ["1"] ["R1"] (JNum 1) referrer R1_and_new_user1
        (db (calls (fun e => V3.processReferralReward e 1 (Some "R1"))
               [store_down; healthy; healthy_later] (World R1_and_new_user1 [])))) /\
   flagged ["1"]
     (db (calls (fun e => V3.processReferralReward e 1 (Some "R1"))
            [store_down; healthy; healthy_later] (World R1_and_new_user1 [])))).
Proof.
  split.
  - refine (proj2 (proj1 at_most_one_reward [store_down; healthy; healthy_later]
                     (World R1_and_user1 []) "1" (Some "R1") ["1"] _)
                  ["R1"] (JStr "R1") _ _).
    + vm_compute. reflexivity.
    + exists (defaults ∪ identity_fields "1" "Ann" None).
      split; [vm_compute; reflexivity|].
      split; [vm_compute; reflexivity|].
      split; [vm_compute; reflexivity|].
      split; [vm_compute; reflexivity|].
      split; [vm_compute; reflexivity|].
      exists {[ "coins" := JNum 0; "reffer" := JNum 0 ]}. vm_compute. reflexivity.
    + apply Exists_cons_tl, Exists_cons_hd. reflexivity.
  - refine (proj2 (proj2 at_most_one_reward [store_down; healthy; healthy_later]
                     (World R1_and_new_user1 []) 1 (Some "R1") ["1"] _)
                  ["R1"] _ _).
    + vm_compute. reflexivity.
    + exists (V3.new_user 1 "Ann" None None). split; [vm_compute; reflexivity|].
      split; [vm_compute; discriminate|].
      split; [vm_compute; reflexivity|].
      split; [vm_compute; discriminate|].
      vm_compute. reflexivity.
    + apply Exists_cons_tl, Exists_cons_hd. reflexivity.
Defined.
(** ** Revision 1: what one transaction does *)

Section V1_transaction.
Context (s : firestore) (userRef : docref) (userId : string) (referralId : option string).
Context (userData : doc) (Huser : users s !! userRef = Some userData).

(** A write before the second read: the client refuses the read. *)
Lemma v1_early_write :
  v1_writes_first userData userId referralId = true ->
  V1.transaction userRef userId referralId s [] = Throw InvalidArgument.
Proof.
  unfold v1_writes_first. intros H. unfold V1.transaction. tx_unfold. rewrite Huser.
  destruct (bool_decide (userData !! "coins" = None)); cbn [orb] in H.
  - cbn [app]. by destruct (_ && _ && _).
  - rewrite H. reflexivity.
Qed.

Lemma v1_not_eligible :
  v1_writes_first userData userId referralId = false ->
  v1_eligible userData = false ->
  V1.transaction userRef userId referralId s [] = Ok (tt, []).
Proof.
  unfold v1_writes_first, v1_eligible. intros H He.
  apply orb_false_iff in H as [H1 H2].
  unfold V1.transaction. tx_unfold. rewrite Huser, H1, H2, Huser, He. reflexivity.
Qed.

Lemma v1_bad_reference ex :
  v1_writes_first userData userId referralId = false ->
  v1_eligible userData = true ->
  doc_of (userData !! "refferBy") = Throw ex ->
  V1.transaction userRef userId referralId s [] = Throw ex.
Proof.
  unfold v1_writes_first, v1_eligible. intros H He Hd.
  apply orb_false_iff in H as [H1 H2].
  unfold V1.transaction. tx_unfold. rewrite Huser, H1, H2, Huser, He, Hd. reflexivity.
Qed.

Lemma v1_referrer_missing rref :
  v1_writes_first userData userId referralId = false ->
  v1_eligible userData = true ->
  doc_of (userData !! "refferBy") = Ok rref ->
  users s !! rref = None ->
  V1.transaction userRef userId referralId s [] = Ok (tt, []).
Proof.
  unfold v1_writes_first, v1_eligible. intros H He Hd Hr.
  apply orb_false_iff in H as [H1 H2].
  unfold V1.transaction. tx_unfold.
  rewrite Huser, H1, H2, Huser, He, Hd, Hr. reflexivity.
Qed.

Lemma v1_reward rref refData rewardRef :
  v1_writes_first userData userId referralId = false ->
  v1_eligible userData = true ->
  doc_of (userData !! "refferBy") = Ok rref ->
  users s !! rref = Some refData ->
  doc_path userId = Ok rewardRef ->
  V1.transaction userRef userId referralId s [] =
  Ok (tt, [WUpdate rref (plain (V2.credit refData));
           WUpdate userRef (plain {[ "rewardGiven" := JBool true ]});
           WSetReward rewardRef (JStr userId) (default JNull (userData !! "refferBy")) 500]).
Proof.
  unfold v1_writes_first, v1_eligible. intros H He Hd Hr Hp.
  apply orb_false_iff in H as [H1 H2].
  unfold V1.transaction. tx_unfold.
  rewrite Huser, H1, H2, Huser, He, Hd, Hr, Hp. reflexivity.
Qed.

End V1_transaction.

Lemma v1_subject_missing s userRef userId referralId :
  users s !! userRef = None ->
  V1.transaction userRef userId referralId s [] = Ok (tt, []).
Proof. intros H. unfold V1.transaction. tx_unfold. rewrite H. reflexivity. Qed.

Lemma v1_commit_reward s t userRef rref userId (userData refData : doc) :
  users s !! userRef = Some userData ->
  users s !! rref = Some refData ->
  commit t [WUpdate rref (plain (V2.credit refData));
            WUpdate userRef (plain {[ "rewardGiven" := JBool true ]});
            WSetReward userRef (JStr userId) (default JNull (userData !! "refferBy")) 500] s
  = Some (v1_rewarded_store s t userRef rref userId userData refData).
Proof.
  intros Hu Hr. unfold v1_rewarded_store. cbn [commit apply_write users ref_rewards].
  rewrite Hr. cbn [users ref_rewards]. rewrite merge_doc_plain.
  destruct (decide (rref = userRef)) as [->|Hne].
  - rewrite lookup_insert_eq, merge_doc_plain_single. reflexivity.
  - rewrite lookup_insert_ne by done. rewrite Hu, merge_doc_plain_single. reflexivity.
Qed.

(** One call of the reward step of revision 1: the store is left as it
    was, or the one reward of [v1_rewarded_store] is applied. *)
Lemma v1_process_cases e userId referralId userRef w :
  doc_path userId = Ok userRef ->
  exists r s',
    v1_process e userId referralId w = (r, World s' (sent w)) /\
    (s' = db w /\
     (forall userData,
        users (db w) !! userRef = Some userData ->
        transaction_fails e = false ->
        v1_writes_first userData userId referralId = true ->
        r = Throw InvalidArgument) \/
     exists userData rref refData,
       transaction_fails e = false /\
       users (db w) !! userRef = Some userData /\
       v1_writes_first userData userId referralId = false /\
       v1_eligible userData = true /\
       doc_of (userData !! "refferBy") = Ok rref /\
       users (db w) !! rref = Some refData /\
       r = Ok tt /\
       s' = v1_rewarded_store (db w) (now e) userRef rref userId userData refData).
Proof.
  intros Hp. unfold v1_process. io_unfold. rewrite Hp. unfold runTransaction.
  destruct (transaction_fails e) eqn:Hf.
  { eexists _, _. split; [reflexivity|]. left. split; [done|]. congruence. }
  destruct (users (db w) !! userRef) as [userData|] eqn:Hu.
  2:{ rewrite v1_subject_missing by done. cbn [commit].
      eexists _, _. split; [reflexivity|]. left. split; [done|]. congruence. }
  destruct (v1_writes_first userData userId referralId) eqn:Hw.
  { rewrite (v1_early_write _ _ _ _ _ Hu Hw).
    eexists _, _. split; [reflexivity|]. left. split; [done|]. congruence. }
  destruct (v1_eligible userData) eqn:He.
  2:{ rewrite (v1_not_eligible _ _ _ _ _ Hu Hw He). cbn [commit].
      eexists _, _. split; [reflexivity|]. left. split; [done|]. congruence. }
  destruct (doc_of (userData !! "refferBy")) as [rref|ex] eqn:Hd.
  2:{ rewrite (v1_bad_reference _ _ _ _ _ Hu ex Hw He Hd).
      eexists _, _. split; [reflexivity|]. left. split; [done|]. congruence. }
  destruct (users (db w) !! rref) as [refData|] eqn:Hr.
  2:{ rewrite (v1_referrer_missing _ _ _ _ _ Hu rref Hw He Hd Hr). cbn [commit].
      eexists _, _. split; [reflexivity|]. left. split; [done|]. congruence. }
  rewrite (v1_reward _ _ _ _ _ Hu rref refData userRef Hw He Hd Hr Hp).
  rewrite (v1_commit_reward _ _ _ _ _ _ _ Hu Hr).
  eexists _, _. split; [reflexivity|]. right.
  exists userData, rref, refData. by repeat split.
Qed.

Lemma v1_eligible_attributed (userData : doc) :
  v1_eligible userData = true ->
  exists v, userData !! "refferBy" = Some v /\ truthy (Some v) = true.
Proof.
  unfold v1_eligible. intros H. apply andb_true_iff in H as [_ H].
  destruct (userData !! "refferBy") as [v|]; [by exists v|done].
Qed.

Lemma v1_rewarded_store_for s t userRef rref userId (userData refData : doc) :
  users s !! rref = Some refData ->
  rewarded_for [t] userRef rref (JStr userId) (default JNull (userData !! "refferBy")) s
    (v1_rewarded_store s t userRef rref userId userData refData).
Proof.
  intros Hr. exists t.
  split; [apply list_elem_of_here|]. split; [done|]. split.
  - intros ref H1 H2. unfold v1_rewarded_store. cbn [users].
    by rewrite !lookup_insert_ne.
  - intros Hne. unfold v1_rewarded_store. cbn [users].
    rewrite lookup_insert_ne, lookup_insert_eq by done.
    eexists. split; [done|]. rewrite Hr. apply v2_credit_once.
Qed.

Lemma v1_rewarded_own s t userRef rref userId (userData refData : doc) :
  users s !! userRef = Some userData ->
  users s !! rref = Some refData ->
  exists d,
    users (v1_rewarded_store s t userRef rref userId userData refData) !! userRef = Some d /\
    d !! "rewardGiven" = Some (JBool true) /\
    d !! "refferBy" = userData !! "refferBy".
Proof.
  intros Hu Hr. unfold v1_rewarded_store. cbn [users].
  eexists. split; [apply lookup_insert_eq|]. split; [apply lookup_insert_eq|].
  rewrite lookup_insert_ne by done.
  destruct (decide (rref = userRef)) as [->|]; [|done].
  simplify_eq. by apply v2_credit_once.
Qed.

(** X9.  The transaction of revision 1 writes before it reads again.
    Whenever the store can be reached and the user's record lacks
    [coins], or has no referrer while the event brings a token that is
    not the user's id, the second [transaction.get] comes after a
    buffered update: the client refuses it, the call throws and the
    store is left as it was.  This holds for every store and every
    token. *)
Theorem v1_read_after_write (e : env) (userId : string) (referralId : option string)
    (userRef : docref) (w : world) (userData : doc) :
  doc_path userId = Ok userRef ->
  transaction_fails e = false ->
  users (db w) !! userRef = Some userData ->
  userData !! "coins" = None \/
  (truthy (userData !! "refferBy") = false /\ truthy (of_string referralId) = true /\
   referralId ≠ Some userId) ->
  v1_process e userId referralId w = (Throw InvalidArgument, w).
Proof.
  intros Hp Hf Hu H.
  assert (Hw : v1_writes_first userData userId referralId = true).
  { unfold v1_writes_first. destruct H as [->|(-> & -> & Hne)]; [done|].
    rewrite (bool_decide_eq_false_2 (referralId = Some userId)) by done.
    apply orb_true_r. }
  unfold v1_process. io_unfold. rewrite Hp. unfold runTransaction.
  rewrite Hf, (v1_early_write _ _ _ _ _ Hu Hw). by rewrite world_eta.
Qed.

(** A record without counters, and a first visit with the token R1. *)
Lemma v1_read_after_write_witness :
  v1_process healthy "1" None
    (World (Store {[ ["1"] := identity_fields "1" "Ann" None ]} ∅) [])
  = (Throw InvalidArgument,
     World (Store {[ ["1"] := identity_fields "1" "Ann" None ]} ∅) []) /\
  v1_process healthy "1" (Some "R1") (World R1_and_user1 [])
  = (Throw InvalidArgument, World R1_and_user1 []).
Proof.
  split.
  - apply (v1_read_after_write healthy "1" None ["1"] _ (identity_fields "1" "Ann" None));
      [reflexivity|reflexivity|reflexivity|left; reflexivity].
  - apply (v1_read_after_write healthy "1" (Some "R1") ["1"] (World R1_and_user1 [])
             (defaults ∪ identity_fields "1" "Ann" None));
      [reflexivity|reflexivity|vm_compute; reflexivity|].
    right. split; [vm_compute; reflexivity|]. split; [reflexivity|discriminate].
Defined.

(** X10.  What the reward step of revision 1 can do: it sends no
    message, and it leaves the store exactly as it was or gives one
    reward to a user whose record already named a referrer [v] before
    the call.  In that case the ledger entry under the user's key names
    [v], the record of [v], when it is not the user's own, is credited
    once, no record other than these two has changed, and the user's
    record still names [v] and carries [rewardGiven: true]. *)
Theorem v1_rewards_only_attributed (e : env) (userId : string)
    (referralId : option string) (userRef : docref) (w : world) :
  doc_path userId = Ok userRef ->
  let w' := after (v1_process e userId referralId) w in
  sent w' = sent w /\
  (db w' = db w \/
   exists v rref,
     attributed userRef v (db w) /\ truthy (Some v) = true /\
     doc_of (Some v) = Ok rref /\ is_Some (users (db w) !! rref) /\
     rewarded_for [now e] userRef rref (JStr userId) v (db w) (db w') /\
     attributed userRef v (db w') /\ flagged userRef (db w')).
Proof.
  intros Hp w'. subst w'. unfold after.
  destruct (v1_process_cases e userId referralId userRef w Hp) as (r & s' & -> & H).
  cbn [snd sent db]. split; [done|].
  destruct H as [[-> _]|(ud & rref & refData & Hf & Hu & Hw & He & Hd & Hr & -> & ->)];
    [by left|right].
  destruct (v1_eligible_attributed _ He) as (v & Hv & Ht).
  exists v, rref. split; [by exists ud|]. split; [done|].
  split; [by rewrite <- Hv|]. split; [done|]. split.
  { pose proof (v1_rewarded_store_for (db w) (now e) userRef rref userId ud refData Hr)
      as H. by rewrite Hv in H. }
  destruct (v1_rewarded_own (db w) (now e) userRef rref userId ud refData Hu Hr)
    as (d & Hd' & Hrg & Hby).
  split; exists d; [by rewrite Hby|done].
Qed.

(** User 1, attributed to R1 and not yet rewarded. *)
Lemma v1_rewards_only_attributed_witness :
  let w' := after (v1_process healthy "1" (Some "R2")) (World user1_of_R1 []) in
  sent w' = [] /\
  (db w' = user1_of_R1 \/
   exists v rref,
     attributed ["1"] v user1_of_R1 /\ truthy (Some v) = true /\
     doc_of (Some v) = Ok rref /\ is_Some (users user1_of_R1 !! rref) /\
     rewarded_for [1000] ["1"] rref (JStr "1") v user1_of_R1 (db w') /\
     attributed ["1"] v (db w') /\ flagged ["1"] (db w')).
Proof.
  apply (v1_rewards_only_attributed healthy "1" (Some "R2") ["1"] (World user1_of_R1 [])).
  reflexivity.
Defined.

(** ** The handlers of revisions 1 and 2 on a "/start" *)

Lemma is_start_message (req : request) :
  is_start req = true ->
  exists msg user,
    String.eqb (method req) "POST" = true /\
    body req = Some (Some msg) /\ from msg = Some user /\ is_bot user = false /\
    startsWith (str_or_else (text msg) "") "/start" = true.
Proof.
  unfold is_start. intros H. apply andb_true_iff in H as [Hm H].
  destruct (body req) as [[msg|]|]; try done.
  destruct (from msg) as [user|] eqn:Hfrom; [|done].
  apply andb_true_iff in H as [Hb Hs]. apply negb_true_iff in Hb.
  by exists msg, user.
Qed.

(** The handler of revision 1 on a "/start": the steps of lines 76-172
    under the shared [catch]. *)
Lemma v1_handler_start (e : env) (req : request) (msg : tg_message) (user : tg_user) :
  String.eqb (method req) "POST" = true ->
  body req = Some (Some msg) -> from msg = Some user -> is_bot user = false ->
  startsWith (str_or_else (text msg) "") "/start" = true ->
  V1.handler e req =
  try_catch
    (setDoc_merge e [toString (id user)]
       (identity_fields (toString (id user)) (str_or_else (first_name user) "User")
          (photo e));;
     v1_process e (toString (id user)) (extractReferralId (str_or_else (text msg) ""));;
     chatId ← property (chat msg);
     sendPhoto e chatId;;
     mret (200, Send "OK"))
    (mret (200, Send "Error")).
Proof.
  intros Hm Hb Hf Hbot Hs. unfold V1.handler, v1_process.
  rewrite Hm, Hb.
  change (property (Some (Some msg))) with (@io_ret (option tg_message) (Some msg)).
  rewrite io_ret_bind.
  rewrite Hf, Hbot, Hs, user_reference. reflexivity.
Qed.

Lemma v2_handler_start (e : env) (req : request) (msg : tg_message) (user : tg_user) :
  String.eqb (method req) "POST" = true ->
  body req = Some (Some msg) -> from msg = Some user -> is_bot user = false ->
  startsWith (str_or_else (text msg) "") "/start" = true ->
  V2.handler e req =
  try_catch
    (setDoc_merge e [toString (id user)]
       (identity_fields (toString (id user)) (str_or_else (first_name user) "User")
          (photo e));;
     V2.process e (toString (id user)) (extractReferralId (str_or_else (text msg) ""));;
     chatId ← property (chat msg);
     sendPhoto e chatId;;
     mret (200, Send "OK"))
    (mret (200, Send "Error")).
Proof.
  intros Hm Hb Hf Hbot Hs. unfold V2.handler, V2.process.
  rewrite Hm, Hb.
  change (property (Some (Some msg))) with (@io_ret (option tg_message) (Some msg)).
  rewrite io_ret_bind.
  rewrite Hf, Hbot, Hs, user_reference. reflexivity.
Qed.

(** The steps after the request's tests, whatever the reward step is:
    the answer is "OK" with the welcome message sent, or "Error" with no
    message sent. *)
Lemma start_flow_answer {A} (ensure : io unit) (reward : io A) (e : env)
    (c : option Z) (w : world) :
  silent ensure -> silent reward ->
  let m := try_catch
             (ensure;; reward;; chatId ← property c; sendPhoto e chatId;;
              mret (200, Send "OK"))
             (mret (200, Send "Error")) in
  ((m w).1 = Ok (200, Send "OK") /\ sendPhoto_fails e = false /\
   exists chatId, c = Some chatId /\ sent (m w).2 = sent w ++ [chatId]) \/
  ((m w).1 = Ok (200, Send "Error") /\ sent (m w).2 = sent w).
Proof.
  intros He Hr m. subst m. unfold try_catch, mbind, io_mbind, io_bind.
  specialize (He w). destruct (ensure w) as [[[]|ex] w1]; cbn [snd] in He;
    [|right; by split].
  specialize (Hr w1). destruct (reward w1) as [[a|ex] w2]; cbn [snd] in Hr;
    [|right; split; [done|cbn; congruence]].
  destruct c as [chatId|]; unfold property, io_ret, io_throw;
    [|right; split; [done|cbn; congruence]].
  unfold sendPhoto. destruct (sendPhoto_fails e);
    [right; split; [done|cbn; congruence]|left].
  split; [done|]. split; [done|]. exists chatId. split; [done|].
  cbn. congruence.
Qed.

Lemma v1_process_silent e userId referralId : silent (v1_process e userId referralId).
Proof.
  unfold v1_process. apply silent_bind; [apply silent_lift|intros ?].
  apply silent_transaction.
Qed.

Lemma v2_process_silent e userId referralId : silent (V2.process e userId referralId).
Proof.
  unfold V2.process. apply silent_bind; [apply silent_lift|intros ?].
  apply silent_transaction.
Qed.

(** X11.  In revisions 1 and 2 the answer to a "/start" tells whether the
    welcome message went out: the handler answers 200 "OK" and has sent
    one message, to the chat of the request, or it answers 200 "Error"
    and has sent nothing. *)
Theorem answer_tells_welcome (e : env) (req : request) (w : world) :
  is_start req = true ->
  let answered (r : result (Z * sent_body) * world) :=
    (r.1 = Ok (200, Send "OK") /\
     exists msg chatId, body req = Some (Some msg) /\ chat msg = Some chatId /\
                        sent r.2 = sent w ++ [chatId]) \/
    (r.1 = Ok (200, Send "Error") /\ sent r.2 = sent w) in
  answered (V1.handler e req w) /\ answered (V2.handler e req w).
Proof.
  intros (msg & user & Hm & Hb & Hf & Hbot & Hs)%is_start_message answered.
  subst answered. cbv beta. split.
  - rewrite (v1_handler_start e req msg user) by done.
    destruct (start_flow_answer
                (setDoc_merge e [toString (id user)]
                   (identity_fields (toString (id user))
                      (str_or_else (first_name user) "User") (photo e)))
                (v1_process e (toString (id user))
                   (extractReferralId (str_or_else (text msg) "")))
                e (chat msg) w)
      as [(H1 & _ & c & Hc & H2)|[H1 H2]];
      [apply silent_setDoc_merge|apply v1_process_silent| |by right].
    left. split; [done|]. by exists msg, c.
  - rewrite (v2_handler_start e req msg user) by done.
    destruct (start_flow_answer
                (setDoc_merge e [toString (id user)]
                   (identity_fields (toString (id user))
                      (str_or_else (first_name user) "User") (photo e)))
                (V2.process e (toString (id user))
                   (extractReferralId (str_or_else (text msg) "")))
                e (chat msg) w)
      as [(H1 & _ & c & Hc & H2)|[H1 H2]];
      [apply silent_setDoc_merge|apply v2_process_silent| |by right].
    left. split; [done|]. by exists msg, c.
Qed.

(** A "/start" while the bot cannot send, and one while it can. *)
Lemma answer_tells_welcome_witness :
  V2.handler (Env None 1000 false false false true) (start_request 1 "/start")
    (World empty_store []) =
  (Ok (200, Send "Error"),
   World (Store {[ ["1"] := defaults ∪ identity_fields "1" "Ann" None ]} ∅) []) /\
  (V2.handler healthy (start_request 1 "/start") (World empty_store [])).1
  = Ok (200, Send "OK").
Proof.
  split.
  - destruct (proj2 (answer_tells_welcome (Env None 1000 false false false true)
                       (start_request 1 "/start") (World empty_store []) eq_refl))
      as [[H _]|[_ _]]; [vm_compute in H; discriminate|].
    vm_compute. reflexivity.
  - destruct (proj2 (answer_tells_welcome healthy (start_request 1 "/start")
                       (World empty_store []) eq_refl))
      as [[H _]|[_ H]]; [exact H|vm_compute in H; discriminate].
Defined.

Lemma not_start_unchanged (e : env) (req : request) (w : world) :
  is_start req = false ->
  after (V1.handler e req) w = w /\ after (V2.handler e req) w = w.
Proof.
  unfold is_start, V1.handler, V2.handler, after. intros H.
  destruct (String.eqb (method req) "POST"); cbn [negb andb] in *; [|done].
  destruct (body req) as [[message|]|]; repeat io_unfold; cbv beta iota zeta; try done.
  destruct (from message) as [user|]; [|done].
  destruct (is_bot user); cbn [negb andb] in H; [done|].
  by rewrite H.
Qed.

(** ** Revision 1 from a store without counters *)

Lemma identity_fields_coins userId firstName photoUrl :
  identity_fields userId firstName photoUrl !! "coins" = None.
Proof. apply identity_fields_keys. by apply identity_key_other. Qed.

Lemma no_coins_ensured e userRef userId firstName photoUrl w :
  no_coins (db w) ->
  no_coins (db (after (setDoc_merge e userRef
                         (identity_fields userId firstName photoUrl)) w)).
Proof.
  intros Hn. unfold after, setDoc_merge. destruct (setDoc_fails e); [done|].
  cbn [snd db]. intros ref d. unfold set_merge. cbn [users].
  destruct (decide (ref = userRef)) as [->|Hne].
  - rewrite lookup_insert_eq. intros [= <-].
    rewrite merge_doc_plain, lookup_union, identity_fields_coins.
    destruct (users (db w) !! userRef) as [old|] eqn:Hold; simpl.
    + by rewrite (Hn _ _ Hold).
    + by rewrite lookup_empty.
  - rewrite lookup_insert_ne by done. apply Hn.
Qed.

(** One "/start" on a store without counters. *)
Lemma v1_start_fails (e : env) (req : request) (w : world) :
  is_start req = true -> no_coins (db w) ->
  exists s',
    V1.handler e req w = (Ok (200, Send "Error"), World s' (sent w)) /\
    ref_rewards s' = ref_rewards (db w) /\ no_coins s'.
Proof.
  intros (msg & user & Hm & Hb & Hf & Hbot & Hs)%is_start_message Hn.
  rewrite (v1_handler_start e req msg user) by done.
  set (userId := toString (id user)).
  set (fields := identity_fields userId (str_or_else (first_name user) "User") (photo e)).
  pose proof (no_coins_ensured e [userId] userId
                (str_or_else (first_name user) "User") (photo e) w Hn) as Hn1.
  fold fields in Hn1. unfold after in Hn1.
  unfold try_catch, mbind, io_mbind, io_bind.
  unfold setDoc_merge in *. destruct (setDoc_fails e).
  { exists (db w). by rewrite world_eta. }
  cbn [snd db] in Hn1.
  set (w1 := World (set_merge [userId] (plain fields) (db w)) (sent w)) in *.
  pose proof (user_reference (id user)) as Hp. fold userId in Hp.
  assert (Hfail : exists ex, v1_process e userId
                    (extractReferralId (str_or_else (text msg) "")) w1 = (Throw ex, w1)).
  { destruct (transaction_fails e) eqn:Hfl.
    - exists Unavailable. unfold v1_process. io_unfold.
      rewrite Hp. unfold runTransaction. rewrite Hfl.
      by rewrite world_eta.
    - exists InvalidArgument.
      set (d := merge_doc (plain fields) (default ∅ (users (db w) !! [userId]))).
      assert (Hu : users (db w1) !! [userId] = Some d) by apply lookup_insert_eq.
      assert (Hw : v1_writes_first d userId
                     (extractReferralId (str_or_else (text msg) "")) = true).
      { unfold v1_writes_first. by rewrite (Hn1 _ _ Hu). }
      unfold v1_process. io_unfold. rewrite Hp. unfold runTransaction.
      rewrite Hfl, (v1_early_write _ _ _ _ _ Hu Hw). by rewrite world_eta. }
  destruct Hfail as [ex ->]. exists (db w1).
  split; [done|]. split; [done|]. exact Hn1.
Qed.

(** X12.  Revision 1 cannot get started.  In a store where no record
    holds [coins], the empty store among them, every "/start" is
    answered "Error": the record it creates has no [coins], so the
    transaction buffers the defaults and fails at its second read.
    Whatever requests arrive, handled one after another, and whichever
    external calls fail, no welcome message is sent, the ledger is not
    written, and no record gets [coins]. *)
Theorem v1_never_starts (cs : list (env * request)) (w : world) :
  no_coins (db w) ->
  let w' := calls (fun c => V1.handler c.1 c.2) cs w in
  sent w' = sent w /\
  ref_rewards (db w') = ref_rewards (db w) /\
  no_coins (db w') /\
  (forall e req, is_start req = true -> (V1.handler e req w').1 = Ok (200, Send "Error")).
Proof.
  intros Hn w'.
  assert (H : sent w' = sent w /\ ref_rewards (db w') = ref_rewards (db w) /\
              no_coins (db w')).
  { subst w'.
    apply (calls_invariant _ (fun w0 => sent w0 = sent w /\
                                        ref_rewards (db w0) = ref_rewards (db w) /\
                                        no_coins (db w0))); [|done].
    intros [e req] w0 (Hs & Hl & Hn0). cbn [fst snd].
    destruct (is_start req) eqn:Hst.
    - destruct (v1_start_fails e req w0 Hst Hn0) as (s' & Heq & Hl' & Hn').
      unfold after. rewrite Heq. cbn [snd sent db]. split; [done|]. split; [congruence|done].
    - by rewrite (proj1 (not_start_unchanged e req w0 Hst)). }
  destruct H as (Hs & Hl & Hn'). repeat (split; [done|]).
  intros e req Hst. destruct (v1_start_fails e req w' Hst Hn') as (s' & -> & _). done.
Qed.

(** Two users arrive at the empty store, one of them with a token. *)
Lemma v1_never_starts_witness :
  let w' := calls (fun c => V1.handler c.1 c.2)
              [(healthy, start_request 1 "/start");
               (healthy_later, start_request 2 "/start ref1")]
              (World empty_store []) in
  sent w' = [] /\ ref_rewards (db w') = ∅ /\ no_coins (db w') /\
  (forall e req, is_start req = true -> (V1.handler e req w').1 = Ok (200, Send "Error")).
Proof.
  apply (v1_never_starts [(healthy, start_request 1 "/start");
                          (healthy_later, start_request 2 "/start ref1")]
           (World empty_store [])).
  intros ref d H. cbn in H. by rewrite lookup_empty in H.
Defined.

(** ** Revision 2: the record of a user who was welcomed *)

Lemma elem_of_identity_keys (k : string) :
  k ∈ identity_keys ->
  k ≠ "coins" /\ k ≠ "reffer" /\ k ≠ "rewardGiven" /\ k ≠ "refferBy" /\
  defaults !! k = None.
Proof.
  unfold identity_keys. intros H.
  repeat (apply elem_of_cons in H as [->|H]; [by repeat split|]).
  by apply elem_of_nil in H.
Qed.

(** A call of revision 2 that completes leaves the user's record with
    [coins] and with the identity fields it had. *)
Lemma v2_call_completed e userRef userId referralId s o s' (userData : doc) :
  v2_call e userRef userId referralId s (Ok o) s' ->
  users s !! userRef = Some userData ->
  exists d,
    users s' !! userRef = Some d /\
    d !! "coins" ≠ None /\
    (forall k, k ∈ identity_keys -> d !! k = userData !! k).
Proof.
  intros Hcall Hu.
  inversion Hcall as [|Hf Hn|ud ex Hf Hu' Hrg Hd|ud o' Hf Hu' fin Ho
                     |ud rref refData Hf Hu' fin Hfin Hrg Hd Hr]; subst;
    [congruence|..]; assert (ud = userData) as -> by congruence.
  - eexists. cbn [users]. split; [apply lookup_insert_eq|]. split.
    + rewrite lookup_union, v2_updates_lookup.
      rewrite (bool_decide_eq_false_2 ("coins" = "refferBy")) by done.
      case_bool_decide as Hc; [by destruct (userData !! "coins")|].
      by destruct (userData !! "coins").
    + intros k (_ & _ & _ & Hk & Hdef)%elem_of_identity_keys.
      rewrite lookup_union, v2_updates_lookup.
      rewrite (bool_decide_eq_false_2 (k = "refferBy")) by done.
      rewrite Hdef. case_bool_decide; by rewrite (left_id_L None (∪)).
  - destruct (v2_rewarded_own s (now e) userRef rref userId userData refData referralId
                Hu Hr Hfin) as (d & Hd' & _ & Hc & _).
    exists d. split; [done|]. split; [done|].
    intros k (Hk1 & Hk2 & Hk3 & Hk4 & Hdef)%elem_of_identity_keys.
    unfold v2_rewarded_store in Hd'. cbn [users] in Hd'.
    rewrite lookup_insert_eq in Hd'. injection Hd' as <-.
    rewrite lookup_union, lookup_insert_ne, v2_updates_lookup by done.
    rewrite (bool_decide_eq_false_2 (k = "refferBy")) by done.
    rewrite Hdef.
    assert (Hown : (if decide (rref = userRef) then V2.credit refData ∪ refData
                    else userData) !! k = userData !! k).
    { destruct (decide (rref = userRef)) as [->|]; [|done].
      assert (refData = userData) as -> by congruence. by apply v2_credit_once. }
    rewrite Hown. case_bool_decide; by rewrite (left_id_L None (∪)).
Qed.

Lemma identity_fields_lookup userId firstName photoUrl :
  identity_fields userId firstName photoUrl !! "id" = Some (JStr userId) /\
  identity_fields userId firstName photoUrl !! "name" = Some (JStr firstName) /\
  identity_fields userId firstName photoUrl !! "photoURL" = Some (photo_value photoUrl) /\
  identity_fields userId firstName photoUrl !! "frontendOpened" = Some (JBool true).
Proof. unfold identity_fields. repeat split; by simplify_map_eq. Qed.

(** X13.  In revision 2 a user who is answered "OK" to a "/start" has a
    record with the four identity fields the handler wrote ([id],
    [name], [photoURL], [frontendOpened: true]) and with [coins]: the
    transaction that follows the [setDoc] keeps the former and makes
    sure of the latter, whether or not it rewarded anybody. *)
Theorem v2_welcomed_user_has_record (e : env) (req : request) (w w' : world)
    (msg : tg_message) (user : tg_user) :
  is_start req = true ->
  body req = Some (Some msg) -> from msg = Some user ->
  V2.handler e req w = (Ok (200, Send "OK"), w') ->
  exists d,
    users (db w') !! [toString (id user)] = Some d /\
    d !! "id" = Some (JStr (toString (id user))) /\
    d !! "name" = Some (JStr (str_or_else (first_name user) "User")) /\
    d !! "photoURL" = Some (photo_value (photo e)) /\
    d !! "frontendOpened" = Some (JBool true) /\
    d !! "coins" ≠ None.
Proof.
  intros (msg' & user' & Hm & Hb & Hf & Hbot & Hs)%is_start_message Hb' Hf' Heq.
  assert (msg' = msg) as -> by congruence.
  assert (user' = user) as -> by congruence.
  rewrite (v2_handler_start e req msg user) in Heq by done.
  set (userId := toString (id user)) in *.
  set (firstName := str_or_else (first_name user) "User") in *.
  pose proof (user_reference (id user)) as Hp. fold userId in Hp.
  unfold try_catch, mbind, io_mbind, io_bind in Heq.
  unfold setDoc_merge in Heq. destruct (setDoc_fails e); [done|].
  set (d1 := merge_doc (plain (identity_fields userId firstName (photo e)))
               (default ∅ (users (db w) !! [userId]))).
  set (w1 := World (set_merge [userId] (plain (identity_fields userId firstName (photo e)))
                      (db w)) (sent w)) in *.
  assert (Hu1 : users (db w1) !! [userId] = Some d1) by apply lookup_insert_eq.
  destruct (v2_after e userId (extractReferralId (str_or_else (text msg) "")) [userId] w1 Hp)
    as (r & s' & Hrun & _ & Hcall).
  rewrite Hrun in Heq. destruct r as [o|ex]; [|done].
  destruct (chat msg) as [c|]; [|done]. unfold property, io_ret, sendPhoto in Heq.
  destruct (sendPhoto_fails e); [done|]. injection Heq as <-. cbn [db].
  destruct (v2_call_completed _ _ _ _ _ _ _ d1 Hcall Hu1) as (d & Hd & Hc & Hid).
  exists d. split; [done|].
  destruct (identity_fields_lookup userId firstName (photo e)) as (H1 & H2 & H3 & H4).
  assert (Hd1 : forall k v, identity_fields userId firstName (photo e) !! k = Some v ->
                            d1 !! k = Some v).
  { intros k v Hk. unfold d1. rewrite merge_doc_plain.
    by apply lookup_union_Some_l. }
  unfold identity_keys in Hid.
  rewrite !Hid by (repeat first [apply list_elem_of_here | apply list_elem_of_further]).
  by rewrite (Hd1 _ _ H1), (Hd1 _ _ H2), (Hd1 _ _ H3), (Hd1 _ _ H4).
Qed.

(** A first visit. *)
Lemma v2_welcomed_user_has_record_witness :
  exists d,
    users (db (V2.handler healthy (start_request 1 "/start") (World empty_store [])).2)
      !! [toString 1] = Some d /\
    d !! "id" = Some (JStr (toString 1)) /\
    d !! "name" = Some (JStr "Ann") /\
    d !! "photoURL" = Some JNull /\
    d !! "frontendOpened" = Some (JBool true) /\
    d !! "coins" ≠ None.
Proof.
  apply (v2_welcomed_user_has_record healthy (start_request 1 "/start")
           (World empty_store []) _
           (TgMessage (Some (TgUser 1 false (Some "Ann"))) (Some 7) (Some "/start"))
           (TgUser 1 false (Some "Ann")));
    [reflexivity|reflexivity|reflexivity|vm_compute; reflexivity].
Defined.

(** ** Who is credited *)

(** X14.  Who gets the coins when a user already attributed to [v] is
    rewarded.  Revision 2 writes [v] into the ledger and credits the
    record of [v], whatever token the event brings.  Revision 3 writes
    [v] into the ledger as well, but it credits the record named by the
    token of the event: when that is another record than the one of
    [v], the record of the stored referrer is left as it was.  (The
    credit is stated for a record other than the user's own.) *)
Theorem credited_record :
  (forall (e : env) (userId : string) (referralId : option string) (userRef : docref)
          (v : jsval) (w w' : world),
     doc_path userId = Ok userRef ->
     attributed userRef v (db w) -> truthy (Some v) = true ->
     V2.process e userId referralId w = (Ok Rewarded, w') ->
     exists rref,
       doc_of (Some v) = Ok rref /\
       rewarded_for [now e] userRef rref (JStr userId) v (db w) (db w')) /\
  (forall (e : env) (userId : Z) (referralId : option string) (userRef : docref)
          (v : jsval) (w w' : world),
     doc_path (toString userId) = Ok userRef ->
     attributed userRef v (db w) -> truthy (Some v) = true ->
     V3.processReferralReward e userId referralId w = (Ok Rewarded, w') ->
     exists rref,
       doc_of (of_string referralId) = Ok rref /\
       rewarded_for [now e] userRef rref (JNum userId) v (db w) (db w') /\
       (forall vref, doc_of (Some v) = Ok vref -> vref ≠ rref -> vref ≠ userRef ->
                     users (db w') !! vref = users (db w) !! vref)).
Proof.
  split.
  - intros e userId referralId userRef v w w' Hp (ud & Hu & Hv) Ht Heq.
    destruct (v2_after e userId referralId userRef w Hp) as (r & s' & Heq' & _ & Hcall).
    rewrite Heq in Heq'. injection Heq' as <- ->. cbn [db].
    inversion Hcall as [| | |ud' o' Hf Hu' fin Ho
                       |ud' rref refData Hf Hu' fin Hfin Hrg Hd Hr]; subst.
    { destruct Ho as [[_ ?]|[(_ & _ & ?)|(? & _ & _ & _ & _ & ?)]]; done. }
    assert (ud' = ud) as -> by congruence.
    assert (Hfin' : fin = Some v).
    { subst fin. rewrite v2_final_stored by (by rewrite Hv). done. }
    exists rref. split; [by rewrite <- Hfin'|].
    replace v with (default JNull fin) by (by rewrite Hfin').
    by apply v2_rewarded_store_for.
  - intros e userId referralId userRef v w w' Hp Ha Ht Heq.
    destruct (v3_after e userId referralId userRef w Hp) as (r & s' & Heq' & _ & Hcall).
    rewrite Heq in Heq'. injection Heq' as <- ->. cbn [db].
    destruct (v3_call_attributed _ _ _ _ _ _ _ _ Ha Ht Hcall) as [_ Hl].
    specialize (Hl eq_refl).
    inversion Hcall as [| | | | | |rref ud Ht' Hne Hd Hf Hu Hrg]; subst.
    exists rref. split; [done|].
    destruct (v3_rewarded_store_for (db w) (now e) userRef rref userId referralId ud)
      as (referrer & t & Hin & Hledger & Hothers & Hcredit).
    assert (referrer = v) as ->.
    { rewrite Hledger, lookup_insert_eq in Hl. congruence. }
    split; [by exists t|].
    intros vref _ H1 H2. by apply Hothers.
Qed.

(** User 1 is attributed to R1 and comes back with the token of R2:
    revision 2 credits R1, revision 3 credits R2 and leaves R1 as it
    was. *)
Lemma credited_record_witness :
  (exists rref,
     doc_of (Some (JStr "R1")) = Ok rref /\
     rewarded_for [1000] ["1"] rref (JStr "1") (JStr "R1") user1_of_R1
       (db (V2.process healthy "1" (Some "R2") (World user1_of_R1 [])).2)) /\
  (exists rref,
     doc_of (of_string (Some "R2")) = Ok rref /\
     rewarded_for [1000] ["1"] rref (JNum 1) (JStr "R1") user1_of_R1
       (db (V3.processReferralReward healthy 1 (Some "R2") (World user1_of_R1 [])).2) /\
     (forall vref, doc_of (Some (JStr "R1")) = Ok vref -> vref ≠ rref -> vref ≠ ["1"] ->
        users (db (V3.processReferralReward healthy 1 (Some "R2")
                     (World user1_of_R1 [])).2) !! vref
        = users user1_of_R1 !! vref)).
Proof.
  split.
  - apply (proj1 credited_record healthy "1" (Some "R2") ["1"] (JStr "R1")
             (World user1_of_R1 []));
      [reflexivity| |reflexivity|vm_compute; reflexivity].
    exists (<["refferBy" := JStr "R1"]> (defaults ∪ identity_fields "1" "Ann" None)).
    split; vm_compute; reflexivity.
  - apply (proj2 credited_record healthy 1 (Some "R2") ["1"] (JStr "R1")
             (World user1_of_R1 []));
      [reflexivity| |reflexivity|vm_compute; reflexivity].
    exists (<["refferBy" := JStr "R1"]> (defaults ∪ identity_fields "1" "Ann" None)).
    split; vm_compute; reflexivity.
Defined.

(** ** The references of users *)

(** X15.  Every user has a record of their own: for ids that are safe
    integers (the ids a JavaScript number holds exactly, and the only
    ones the platform gives out), the reference built from a user's id
    always names a document, and two different ids never name the same
    one. *)
Theorem users_have_their_own_record (a b : Z) :
  safe_integer a = true -> safe_integer b = true -> a ≠ b ->
  exists ra rb,
    doc_path (toString a) = Ok ra /\ doc_path (toString b) = Ok rb /\ ra ≠ rb.
Proof.
  intros _ _ Hne. exists [toString a], [toString b].
  split; [apply user_reference|]. split; [apply user_reference|].
  intros [= H]. apply Hne. unfold toString in H. by apply (inj pretty) in H.
Qed.

Lemma users_have_their_own_record_witness :
  exists ra rb,
    doc_path (toString 1) = Ok ra /\ doc_path (toString (-1)) = Ok rb /\ ra ≠ rb.
Proof. apply (users_have_their_own_record 1 (-1)); [reflexivity|reflexivity|lia]. Defined.

(** ** A reward is final, whatever requests follow *)

Lemma grown_refl (d : doc) : grown d d.
Proof. by repeat split. Qed.

Lemma grown_trans (d1 d2 d3 : doc) : grown d1 d2 -> grown d2 d3 -> grown d1 d3.
Proof.
  intros (H1 & H2 & H3) (H5 & H6 & H7).
  split; [congruence|]. split; [congruence|]. auto.
Qed.

Lemma kept_refl (ref : docref) (w : world) (d : doc) :
  users (db w) !! ref = Some d -> kept ref w w.
Proof. intros H. split; [done|]. exists d, d. by split; [|split; [|apply grown_refl]]. Qed.

Lemma kept_trans (ref : docref) (w1 w2 w3 : world) :
  kept ref w1 w2 -> kept ref w2 w3 -> kept ref w1 w3.
Proof.
  intros (H1 & d1 & d2 & Hd1 & Hd2 & Hg) (H2 & d2' & d3 & Hd2' & Hd3 & Hg').
  assert (d2' = d2) as -> by congruence.
  split; [congruence|]. exists d1, d3. split; [done|]. split; [done|].
  by eapply grown_trans.
Qed.

(** The identity fields are none of the fields of the reward. *)
Lemma grown_identity (data d : doc) :
  (forall k, k ∉ identity_keys -> data !! k = None) -> grown d (data ∪ d).
Proof.
  intros Hkeys.
  assert (H : forall k, k ∉ identity_keys -> (data ∪ d) !! k = d !! k).
  { intros k Hk. rewrite lookup_union_r; [done|]. by apply Hkeys. }
  unfold grown. rewrite !H by (by apply identity_key_other). by repeat split.
Qed.

Lemma grown_credit (d : doc) : grown d (V2.credit d ∪ d).
Proof.
  destruct (v2_credit_once d) as (_ & _ & _ & _ & Ho).
  unfold grown. rewrite !Ho by done. repeat split.
  intros _. erewrite lookup_union_Some_l; [done|]. apply v2_credit_coins.
Qed.

Lemma grown_increments (d : doc) : grown d (merge_doc increments d).
Proof.
  destruct (v3_credit_once d) as (_ & _ & _ & _ & Ho).
  unfold grown. rewrite !Ho by done. repeat split.
  intros _. rewrite merge_doc_lookup, increments_coins. done.
Qed.

(** What a call of revision 2 for one user does to the record and the
    ledger entry of another. *)
Lemma v2_call_other e userRef userId referralId s r s' (ref : docref) (d : doc) :
  v2_call e userRef userId referralId s r s' ->
  ref ≠ userRef -> users s !! ref = Some d ->
  ref_rewards s' !! ref = ref_rewards s !! ref /\
  exists d', users s' !! ref = Some d' /\ grown d d'.
Proof.
  intros Hcall Hne Hd.
  destruct Hcall as [Hf|Hf Hn|ud ex Hf Hu Hrg Hdo|ud o Hf Hu fin Ho
                    |ud rref refData Hf Hu fin Hfin Hrg Hdo Hr];
    try (split; [done|]; exists d; split; [done|apply grown_refl]).
  - split; [done|]. exists d. cbn [users]. rewrite lookup_insert_ne by done.
    split; [done|apply grown_refl].
  - unfold v2_rewarded_store. cbn [users ref_rewards].
    rewrite !(lookup_insert_ne _ userRef ref) by done. split; [done|].
    destruct (decide (rref = ref)) as [->|Hne'].
    + rewrite lookup_insert_eq. assert (refData = d) as -> by congruence.
      eexists. split; [done|apply grown_credit].
    + rewrite lookup_insert_ne by done. exists d. split; [done|apply grown_refl].
Qed.

(** The same for [processReferralReward] of revision 3. *)
Lemma v3_call_other e userRef userId referralId s r s' (ref : docref) (d : doc) :
  v3_call e userRef userId referralId s r s' ->
  ref ≠ userRef -> users s !! ref = Some d ->
  ref_rewards s' !! ref = ref_rewards s !! ref /\
  exists d', users s' !! ref = Some d' /\ grown d d'.
Proof.
  intros Hcall Hne Hd.
  destruct Hcall as [| | | | | |rref ud Ht Hne' Hdo Hf Hu Hrg];
    try (split; [done|]; exists d; split; [done|apply grown_refl]).
  unfold v3_rewarded_store. cbn [users ref_rewards].
  rewrite !(lookup_insert_ne _ userRef ref) by done. split; [done|].
  destruct (decide (rref = ref)) as [->|Hne''].
  - rewrite lookup_insert_eq, decide_False by done.
    rewrite Hd. cbn [default].
    eexists. split; [done|apply grown_increments].
  - rewrite !lookup_insert_ne by done. exists d. split; [done|apply grown_refl].
Qed.

(** The store after the handler of revision 2 has dealt with a "/start":
    as before, or after the merge of the identity fields and one call of
    the reward step. *)
Lemma v2_handler_store (e : env) (req : request) (w : world)
    (msg : tg_message) (user : tg_user) :
  is_start req = true ->
  body req = Some (Some msg) -> from msg = Some user ->
  let userId := toString (id user) in
  let s1 := set_merge [userId]
              (plain (identity_fields userId (str_or_else (first_name user) "User")
                        (photo e))) (db w) in
  db (after (V2.handler e req) w) = db w \/
  exists r,
    v2_call e [userId] userId (extractReferralId (str_or_else (text msg) "")) s1 r
      (db (after (V2.handler e req) w)).
Proof.
  intros (msg' & user' & Hm & Hb & Hf & Hbot & Hs)%is_start_message Hb' Hf'.
  assert (msg' = msg) as -> by congruence.
  assert (user' = user) as -> by congruence.
  intros userId s1. unfold after.
  rewrite (v2_handler_start e req msg user) by done. fold userId.
  pose proof (user_reference (id user)) as Hp. fold userId in Hp.
  unfold try_catch, mbind, io_mbind, io_bind.
  unfold setDoc_merge. destruct (setDoc_fails e); [by left|]. fold s1.
  destruct (v2_after e userId (extractReferralId (str_or_else (text msg) "")) [userId]
              (World s1 (sent w)) Hp) as (r & s' & Hrun & _ & Hcall).
  rewrite Hrun. cbn [db] in Hcall. right. exists r.
  destruct r as [o|ex]; [|done].
  destruct (chat msg) as [c|]; [|done]. unfold property, io_ret, sendPhoto.
  by destruct (sendPhoto_fails e).
Qed.

(** One request to revision 2 on a store where [ref] is settled. *)
Lemma v2_handler_settled (e : env) (req : request) (w : world) (ref : docref) :
  settled ref (db w) ->
  settled ref (db (after (V2.handler e req) w)) /\ kept ref w (after (V2.handler e req) w).
Proof.
  intros Hs. pose proof Hs as (d & Hd & Hrg & Hc & Hby).
  assert (Hsame : forall w', db w' = db w -> settled ref (db w') /\ kept ref w w').
  { intros w' Heq. rewrite Heq. split; [done|]. split; [by rewrite Heq|].
    exists d, d. rewrite Heq. by split; [|split; [|apply grown_refl]]. }
  assert (Hgrown : forall w' d',
            ref_rewards (db w') !! ref = ref_rewards (db w) !! ref ->
            users (db w') !! ref = Some d' -> grown d d' ->
            settled ref (db w') /\ kept ref w w').
  { intros w' d' Hl Hd' Hg. split.
    - destruct Hg as (H1 & H2 & H3). exists d'. rewrite H1, H2. auto.
    - split; [done|]. by exists d, d'. }
  destruct (is_start req) eqn:Hst.
  2:{ apply Hsame. by rewrite (proj2 (not_start_unchanged e req w Hst)). }
  destruct (is_start_message req Hst) as (msg & user & _ & Hb & Hf & _).
  destruct (v2_handler_store e req w msg user Hst Hb Hf) as [Heq|[r Hcall]];
    [by apply Hsame|].
  set (userId := toString (id user)) in *.
  set (fields := identity_fields userId (str_or_else (first_name user) "User") (photo e))
    in *.
  destruct (decide (ref = [userId])) as [->|Hne].
  - assert (Hs1 : settled [userId] (set_merge [userId] (plain fields) (db w))).
    { unfold set_merge. rewrite Hd, merge_doc_plain. cbn [default].
      pose proof (grown_identity fields d (identity_fields_keys _ _ _)) as (H1 & H2 & H3).
      exists (fields ∪ d). cbn [users]. rewrite lookup_insert_eq, H1, H2. auto. }
    destruct (v2_call_settled _ _ _ _ _ _ _ Hs1 Hcall) as [Heq _].
    apply (Hgrown _ (fields ∪ d)).
    + by rewrite Heq.
    + rewrite Heq. unfold set_merge. cbn [users].
      by rewrite lookup_insert_eq, Hd, merge_doc_plain.
    + apply grown_identity, identity_fields_keys.
  - assert (Hd1 : users (set_merge [userId] (plain fields) (db w)) !! ref = Some d).
    { unfold set_merge. cbn [users]. by rewrite lookup_insert_ne. }
    destruct (v2_call_other _ _ _ _ _ _ _ ref d Hcall Hne Hd1) as (Hl & d' & Hd' & Hg).
    by apply (Hgrown _ d').
Qed.

(** X16.  A reward of revision 2 is final.  Once a user's record is
    settled (rewarded, attributed, with [coins]: the state a reward
    leaves), no sequence of requests handled one after another, from
    this user or from any other, with any tokens and any failures,
    changes [rewardGiven] or [refferBy] of the record, removes its
    [coins], or touches the ledger entry under the user's key; the
    record stays settled.  (Invocations that overlap in time are not
    covered.) *)
Theorem v2_reward_is_final (cs : list (env * request)) (w : world) (ref : docref) :
  settled ref (db w) ->
  let w' := calls (fun c => V2.handler c.1 c.2) cs w in
  settled ref (db w') /\ kept ref w w'.
Proof.
  intros Hs w'. subst w'.
  apply (calls_invariant _ (fun w0 => settled ref (db w0) /\ kept ref w w0)).
  - intros [e req] w0 [Hs0 Hk0]. cbn [fst snd].
    destruct (v2_handler_settled e req w0 ref Hs0) as [Hs1 Hk1].
    split; [done|]. by eapply kept_trans.
  - split; [done|]. destruct Hs as (d & Hd & _). by eapply kept_refl.
Qed.

(** User 1 has been rewarded for R1; then user 1 comes back with the
    token of R2, and user 2 arrives with the token of user 1. *)
Lemma v2_reward_is_final_witness :
  let w := World v2_rewarded_user1 [7] in
  let w' := calls (fun c => V2.handler c.1 c.2)
              [(healthy_later, start_request 1 "/start refR2");
               (healthy_later, start_request 2 "/start ref1")] w in
  settled ["1"] (db w') /\ kept ["1"] w w'.
Proof.
  apply (v2_reward_is_final
           [(healthy_later, start_request 1 "/start refR2");
            (healthy_later, start_request 2 "/start ref1")]
           (World v2_rewarded_user1 [7]) ["1"]).
  exists (<["rewardGiven" := JBool true]>
            (<["refferBy" := JStr "R1"]> (defaults ∪ identity_fields "1" "Ann" None))).
  split; [vm_compute; reflexivity|].
  split; [vm_compute; reflexivity|]. split; [|vm_compute; reflexivity].
  vm_compute. discriminate.
Defined.

(** The store after the handler of revision 3 has dealt with a message:
    as before, or after the step that ensures the user and one call of
    [processReferralReward]. *)
Lemma v3_handler_store (e : env) (req : request) (w : world) :
  after (V3.handler e req) w = w \/
  exists msg user,
    body req = Some (Some msg) /\ from msg = Some user /\
    let userId := id user in
    let firstName := str_or_else (first_name user) "User" in
    let referralId := V3.referral_parameter (str_or_else (text msg) "") in
    db (after (V3.handler e req) w) = db w \/
    exists r,
      v3_call e [toString userId] userId referralId
        (match users (db w) !! [toString userId] with
         | None => set_doc [toString userId]
                     (V3.new_user userId firstName (photo e) referralId) (db w)
         | Some _ => set_merge [toString userId]
                       (plain (V3.baseData userId firstName (photo e))) (db w)
         end) r
        (db (after (V3.handler e req) w)).
Proof.
  unfold V3.handler, after.
  destruct (body req) as [[msg|]|] eqn:Hb; [|by left..].
  destruct (chat msg) as [c|]; [|by left].
  destruct (from msg) as [user|] eqn:Hf; [|by left].
  right. exists msg, user. split; [done|]. split; [done|].
  cbv zeta.
  set (userId := id user). set (firstName := str_or_else (first_name user) "User").
  set (referralId := V3.referral_parameter (str_or_else (text msg) "")).
  pose proof (user_reference userId) as Hp.
  change (property (Some c)) with (@io_ret Z c).
  change (property (Some user)) with (@io_ret tg_user user).
  rewrite !io_ret_bind. cbv zeta. fold userId firstName referralId. rewrite Hp.
  unfold try_catch, mbind, io_mbind, io_bind, io_lift.
  unfold V3.ensureUser, getDoc, mbind, io_mbind, io_bind.
  destruct (getDoc_fails e); [by left|].
  set (s1 := match users (db w) !! [toString userId] with
             | None => set_doc [toString userId]
                         (V3.new_user userId firstName (photo e) referralId) (db w)
             | Some _ => set_merge [toString userId]
                           (plain (V3.baseData userId firstName (photo e))) (db w)
             end).
  assert (He : (match users (db w) !! [toString userId] with
                | Some _ => setDoc_merge e [toString userId]
                              (V3.baseData userId firstName (photo e))
                | None => setDoc e [toString userId]
                            (V3.new_user userId firstName (photo e) referralId)
                end) w
               = if setDoc_fails e then (Throw Unavailable, w)
                 else (Ok tt, World s1 (sent w))).
  { unfold s1, setDoc_merge, setDoc.
    by destruct (users (db w) !! [toString userId]), (setDoc_fails e). }
  rewrite He. destruct (setDoc_fails e); [by left|].
  destruct (v3_after e userId referralId [toString userId] (World s1 (sent w)) Hp)
    as (r & s' & Hrun & _ & Hcall).
  rewrite Hrun. cbn [db] in Hcall. right. exists r.
  destruct r as [o|ex]; [|done].
  unfold sendPhoto. by destruct (sendPhoto_fails e).
Qed.

(** One request to revision 3 on a store where [ref] is flagged. *)
Lemma v3_handler_flagged (e : env) (req : request) (w : world) (ref : docref) :
  flagged ref (db w) ->
  flagged ref (db (after (V3.handler e req) w)) /\ kept ref w (after (V3.handler e req) w).
Proof.
  intros Hs. pose proof Hs as (d & Hd & Hrg).
  assert (Hsame : forall w', db w' = db w -> flagged ref (db w') /\ kept ref w w').
  { intros w' Heq. rewrite Heq. split; [done|]. split; [by rewrite Heq|].
    exists d, d. rewrite Heq. by split; [|split; [|apply grown_refl]]. }
  assert (Hgrown : forall w' d',
            ref_rewards (db w') !! ref = ref_rewards (db w) !! ref ->
            users (db w') !! ref = Some d' -> grown d d' ->
            flagged ref (db w') /\ kept ref w w').
  { intros w' d' Hl Hd' Hg. split.
    - destruct Hg as (H1 & _). exists d'. by rewrite H1.
    - split; [done|]. by exists d, d'. }
  destruct (v3_handler_store e req w) as [Heq|(msg & user & Hb & Hf & H)];
    [apply Hsame; by rewrite Heq|].
  cbv zeta in H. destruct H as [Heq|[r Hcall]]; [by apply Hsame|].
  set (userId := id user) in *.
  set (fields := V3.baseData userId (str_or_else (first_name user) "User") (photo e)) in *.
  destruct (decide (ref = [toString userId])) as [->|Hne].
  - rewrite Hd in Hcall.
    assert (Hs1 : flagged [toString userId]
                    (set_merge [toString userId] (plain fields) (db w))).
    { unfold set_merge. rewrite Hd, merge_doc_plain. cbn [default].
      pose proof (grown_identity fields d (baseData_keys _ _ _)) as (H1 & _).
      exists (fields ∪ d). cbn [users]. by rewrite lookup_insert_eq, H1. }
    destruct (v3_call_flagged _ _ _ _ _ _ _ Hs1 Hcall) as [Heq _].
    apply (Hgrown _ (fields ∪ d)).
    + by rewrite Heq.
    + rewrite Heq. unfold set_merge. cbn [users].
      by rewrite lookup_insert_eq, Hd, merge_doc_plain.
    + apply grown_identity, baseData_keys.
  - match type of Hcall with
    | v3_call _ _ _ _ ?s1 _ _ =>
        assert (Hd1 : users s1 !! ref = Some d /\ ref_rewards s1 = ref_rewards (db w))
    end.
    { destruct (users (db w) !! [toString userId]); unfold set_merge, set_doc;
        cbn [users ref_rewards]; by rewrite lookup_insert_ne. }
    destruct Hd1 as [Hd1 Hl1].
    destruct (v3_call_other _ _ _ _ _ _ _ ref d Hcall Hne Hd1) as (Hl & d' & Hd' & Hg).
    apply (Hgrown _ d'); [by rewrite Hl, Hl1|done..].
Qed.

(** X17.  The same for revision 3.  Once a user's record carries
    [rewardGiven: true], no sequence of requests handled one after
    another changes the flag or the stored referrer, removes [coins], or
    touches the ledger entry under the user's key.  (Invocations that
    overlap in time are not covered: the handler reads the record and
    writes it outside the transaction.) *)
Theorem v3_reward_is_final (cs : list (env * request)) (w : world) (ref : docref) :
  flagged ref (db w) ->
  let w' := calls (fun c => V3.handler c.1 c.2) cs w in
  flagged ref (db w') /\ kept ref w w'.
Proof.
  intros Hs w'. subst w'.
  apply (calls_invariant _ (fun w0 => flagged ref (db w0) /\ kept ref w w0)).
  - intros [e req] w0 [Hs0 Hk0]. cbn [fst snd].
    destruct (v3_handler_flagged e req w0 ref Hs0) as [Hs1 Hk1].
    split; [done|]. by eapply kept_trans.
  - split; [done|]. destruct Hs as (d & Hd & _). by eapply kept_refl.
Qed.

(** User 1 has been rewarded for R1; then user 1 comes back with the
    token of R2, and user 2 arrives with the token of user 1. *)
Lemma v3_reward_is_final_witness :
  let w := World v3_rewarded_user1 [7] in
  let w' := calls (fun c => V3.handler c.1 c.2)
              [(healthy_later, start_request 1 "/start R2");
               (healthy_later, start_request 2 "/start 1")] w in
  flagged ["1"] (db w') /\ kept ["1"] w w'.
Proof.
  apply (v3_reward_is_final
           [(healthy_later, start_request 1 "/start R2");
            (healthy_later, start_request 2 "/start 1")]
           (World v3_rewarded_user1 [7]) ["1"]).
  exists (<["rewardGiven" := JBool true]> (V3.new_user 1 "Ann" None (Some "R1"))).
  split; vm_compute; reflexivity.
Defined.

(** ** A first visit with a token *)

Lemma quiet_ensured (userRef : docref) (data : gmap string fieldval) (s : firestore) :
  quiet userRef s (set_merge userRef data s).
Proof. split; [done|]. intros ref Hne. cbn [set_merge users]. by rewrite lookup_insert_ne. Qed.


(** X18.  Revision 2, end to end: a user who has no record yet and
    writes "/start" with the token of an existing user, while the store
    and the bot work, is answered "OK" and welcomed, and the store holds
    exactly one reward for this visit: the ledger entry under the user's
    key names the token's user, that user's record is credited once, the
    new record carries [rewardGiven: true] and the token as [refferBy],
    and no other record has changed. *)
Theorem v2_first_visit_rewarded (e : env) (req : request) (w : world)
    (msg : tg_message) (user : tg_user) (c : Z) (token : string)
    (rref : docref) (refData : doc) :
  is_start req = true ->
  body req = Some (Some msg) -> from msg = Some user -> chat msg = Some c ->
  setDoc_fails e = false -> transaction_fails e = false -> sendPhoto_fails e = false ->
  users (db w) !! [toString (id user)] = None ->
  extractReferralId (str_or_else (text msg) "") = Some token ->
  token ≠ "" -> doc_path token = Ok rref -> users (db w) !! rref = Some refData ->
  exists s',
    V2.handler e req w = (Ok (200, Send "OK"), World s' (sent w ++ [c])) /\
    rewarded_for [now e] [toString (id user)] rref (JStr (toString (id user)))
      (JStr token) (db w) s' /\
    flagged [toString (id user)] s' /\
    attributed [toString (id user)] (JStr token) s'.
Proof.
  intros (msg' & user' & Hm & Hb & Hf & Hbot & Hs)%is_start_message Hb' Hf' Hc
    Hset Htx Hsend Hnew Htok Hne Hd Hr.
  assert (msg' = msg) as -> by congruence.
  assert (user' = user) as -> by congruence.
  rewrite (v2_handler_start e req msg user) by done.
  set (userId := toString (id user)) in *.
  set (fields := identity_fields userId (str_or_else (first_name user) "User") (photo e)).
  pose proof (user_reference (id user)) as Hp. fold userId in Hp.
  assert (Hself : token ≠ userId) by (intros ->; congruence).
  assert (Hrref : rref ≠ [userId]) by (intros ->; congruence).
  set (w1 := World (set_merge [userId] (plain fields) (db w)) (sent w)).
  assert (Hdue : v2_due [userId] rref userId (Some token) (JStr token) (db w1)).
  { exists (fields ∪ ∅). unfold w1, set_merge. cbn [db users].
    rewrite Hnew, merge_doc_plain, lookup_insert_eq, lookup_insert_ne by done.
    cbn [default]. split; [done|].
    assert (Hk : forall k, k ∉ identity_keys -> (fields ∪ ∅) !! k = None).
    { intros k Hk. rewrite lookup_union_r, lookup_empty; [done|].
      by apply identity_fields_keys. }
    rewrite Hk by (by apply identity_key_other). split; [done|].
    assert (Htr : truthy (Some (JStr token)) = true).
    { cbn. by apply negb_true_iff, String.eqb_neq. }
    split.
    { unfold V2.finalReferrerId. rewrite Hk by (by apply identity_key_other).
      cbn [of_string fmap option_fmap option_map]. rewrite Htr.
      rewrite bool_decide_eq_false_2 by congruence. done. }
    split; [done|]. split; [done|]. by rewrite Hr. }
  destruct (v2_after e userId (Some token) [userId] w1 Hp) as (r & s' & Hrun & _ & Hcall).
  destruct (v2_call_due _ _ _ _ _ _ _ _ _ Hdue Htx Hcall)
    as (-> & Hfor & _ & Hfl & Hat).
  exists s'. unfold try_catch, mbind, io_mbind, io_bind.
  unfold setDoc_merge. rewrite Hset. fold fields w1. rewrite Htok, Hrun, Hc.
  unfold property, io_ret, sendPhoto. rewrite Hsend. cbn [db sent].
  split; [done|]. split; [|done].
  eapply quiet_rewarded_for; [|exact Hfor]. apply quiet_ensured.
Qed.

(** User 1 arrives at a store that holds R1, with the token of R1. *)
Lemma v2_first_visit_rewarded_witness :
  exists s',
    V2.handler healthy (start_request 1 "/start refR1") (World only_R1 [])
    = (Ok (200, Send "OK"), World s' [7]) /\
    rewarded_for [1000] ["1"] ["R1"] (JStr "1") (JStr "R1") only_R1 s' /\
    flagged ["1"] s' /\ attributed ["1"] (JStr "R1") s'.
Proof.
  apply (v2_first_visit_rewarded healthy (start_request 1 "/start refR1")
           (World only_R1 [])
           (TgMessage (Some (TgUser 1 false (Some "Ann"))) (Some 7) (Some "/start refR1"))
           (TgUser 1 false (Some "Ann")) 7 "R1" ["R1"]
           {[ "coins" := JNum 0; "reffer" := JNum 0 ]});
    try reflexivity; try (vm_compute; reflexivity). discriminate.
Defined.

(** ** The handler of revision 3, step by step *)

(** The store after the step that ensures the user (lines 577-600). *)
Lemma v3_ensure_run (e : env) (userRef : docref) (userId : Z) (firstName : string)
    (photoURL referralId : option string) (w : world) :
  V3.ensureUser e userRef userId firstName photoURL referralId w =
  if getDoc_fails e || setDoc_fails e then (Throw Unavailable, w)
  else (Ok tt,
        World (match users (db w) !! userRef with
               | None => set_doc userRef
                           (V3.new_user userId firstName photoURL referralId) (db w)
               | Some _ => set_merge userRef
                             (plain (V3.baseData userId firstName photoURL)) (db w)
               end) (sent w)).
Proof.
  unfold V3.ensureUser, getDoc, setDoc, setDoc_merge, mbind, io_mbind, io_bind.
  destruct (getDoc_fails e); [done|].
  by destruct (users (db w) !! userRef), (setDoc_fails e).
Qed.

(** One message with chat and sender: the answer is "OK"; the world is
    left as it was when the user cannot be ensured, and is otherwise the
    one after [processReferralReward], with the welcome message when that
    call returned and the bot could send. *)
Lemma v3_handler_run (e : env) (req : request) (w : world)
    (msg : tg_message) (c : Z) (user : tg_user) :
  body req = Some (Some msg) -> chat msg = Some c -> from msg = Some user ->
  let userId := id user in
  let referralId := V3.referral_parameter (str_or_else (text msg) "") in
  let s1 := match users (db w) !! [toString userId] with
            | None => set_doc [toString userId]
                        (V3.new_user userId (str_or_else (first_name user) "User")
                           (photo e) referralId) (db w)
            | Some _ => set_merge [toString userId]
                          (plain (V3.baseData userId (str_or_else (first_name user) "User")
                                    (photo e))) (db w)
            end in
  exists w',
    V3.handler e req w = (Ok (200, Send "OK"), w') /\
    (getDoc_fails e || setDoc_fails e = true /\ w' = w \/
     getDoc_fails e || setDoc_fails e = false /\
     exists r s',
       v3_call e [toString userId] userId referralId s1 r s' /\
       w' = World s' (match r with
                      | Ok _ => if sendPhoto_fails e then sent w else sent w ++ [c]
                      | Throw _ => sent w
                      end)).
Proof.
  intros Hb Hc Hf. cbv zeta.
  set (userId := id user). set (firstName := str_or_else (first_name user) "User").
  set (referralId := V3.referral_parameter (str_or_else (text msg) "")).
  pose proof (user_reference userId) as Hp.
  unfold V3.handler. rewrite Hb, Hc, Hf.
  change (property (Some c)) with (@io_ret Z c).
  change (property (Some user)) with (@io_ret tg_user user).
  rewrite !io_ret_bind. cbv zeta. fold userId firstName referralId. rewrite Hp.
  unfold try_catch, mbind, io_mbind, io_bind, io_lift.
  rewrite v3_ensure_run.
  destruct (getDoc_fails e || setDoc_fails e) eqn:He.
  { exists w. split; [done|]. by left. }
  match goal with
  | |- context [World ?s (sent w)] => set (s1 := s)
  end.
  destruct (v3_after e userId referralId [toString userId] (World s1 (sent w)) Hp)
    as (r & s' & Hrun & _ & Hcall).
  rewrite Hrun. cbn [db sent] in *.
  destruct r as [o|ex].
  - unfold sendPhoto. cbn [sent db]. destruct (sendPhoto_fails e) eqn:Hs.
    + eexists. split; [reflexivity|]. right. split; [done|].
      by exists (Ok o), s'.
    + eexists. split; [reflexivity|]. right. split; [done|].
      by exists (Ok o), s'.
  - eexists. split; [reflexivity|]. right. split; [done|]. by exists (Throw ex), s'.
Qed.




Lemma sent_grows (l : list Z) (c : Z) : l ++ [c] ≠ l.
Proof.
  intros H. apply (f_equal length) in H. rewrite length_app in H. cbn in H. lia.
Qed.

(** X20.  When revision 3 sends the welcome message.  For a message with
    chat and sender the message goes out exactly when the record can be
    read and written, the bot can send, and the token, if there is one
    and it is not the user's own id, names a document.  The transaction
    has no part in it: its failure is caught inside
    [processReferralReward].  The reference of the referrer is built
    before that [try], so a token such as "a/b", which names no
    document, costs the user the welcome message. *)
Theorem v3_welcome_exactly_when (e : env) (req : request) (w : world)
    (msg : tg_message) (c : Z) (user : tg_user) :
  body req = Some (Some msg) -> chat msg = Some c -> from msg = Some user ->
  let referralId := V3.referral_parameter (str_or_else (text msg) "") in
  sent (after (V3.handler e req) w) = sent w ++ [c] <->
  getDoc_fails e = false /\ setDoc_fails e = false /\ sendPhoto_fails e = false /\
  (truthy (of_string referralId) = true ->
   referralId ≠ Some (toString (id user)) ->
   exists rref, doc_of (of_string referralId) = Ok rref).
Proof.
  intros Hb Hc Hf referralId.
  destruct (v3_handler_run e req w msg c user Hb Hc Hf) as (w' & Heq & H).
  cbv zeta in H. fold referralId in H. unfold after. rewrite Heq. cbn [snd].
  destruct H as [[He ->]|(He & r & s' & Hcall & ->)].
  { split.
    - intros H. symmetry in H. by apply sent_grows in H.
    - intros (Hg & Hs & _). by rewrite Hg, Hs in He. }
  apply orb_false_iff in He as [Hg Hs]. cbn [sent].
  destruct r as [o|ex].
  - assert (Href : truthy (of_string referralId) = true ->
                   referralId ≠ Some (toString (id user)) ->
                   exists rref, doc_of (of_string referralId) = Ok rref).
    { intros Ht Hne. inversion Hcall; subst; try congruence; by eexists. }
    destruct (sendPhoto_fails e); split.
    + intros H. symmetry in H. by apply sent_grows in H.
    + by intros (_ & _ & ? & _).
    + done.
    + done.
  - split.
    + intros H. symmetry in H. by apply sent_grows in H.
    + intros (_ & _ & _ & H). inversion Hcall as [| |ex' Ht Hne Hd| | | |]; subst.
      destruct (H Ht Hne) as [rref Hr]. congruence.
Qed.

(** A token with a slash in it: no welcome message. *)
Lemma v3_welcome_exactly_when_witness :
  sent (after (V3.handler healthy (start_request 1 "/start a/b")) (World empty_store []))
  ≠ [7].
Proof.
  intros H.
  apply (v3_welcome_exactly_when healthy (start_request 1 "/start a/b")
           (World empty_store [])
           (TgMessage (Some (TgUser 1 false (Some "Ann"))) (Some 7) (Some "/start a/b"))
           7 (TgUser 1 false (Some "Ann")) eq_refl eq_refl eq_refl) in H.
  destruct H as (_ & _ & _ & H).
  destruct H as [rref Hr]; [reflexivity|discriminate|].
  vm_compute in Hr. discriminate.
Defined.

(** ** A token that names the user's own record *)

Lemma toString_plain (n : Z) :
  free_of "/" (toString n) = true /\ toString n ≠ "".
Proof.
  unfold toString, pretty, pretty_Z.
  destruct n as [|p|p]; [done| |].
  - unfold pretty, pretty_positive, pretty, pretty_N.
    rewrite decide_False by done.
    apply pretty_N_go_plain; [done|right; lia].
  - unfold pretty, pretty_positive, pretty, pretty_N.
    rewrite decide_False by done.
    destruct (pretty_N_go_plain (N.pos p) "") as [H1 H2]; [done|right; lia|].
    change ("-" +:+ pretty_N_go (N.pos p) "")
      with (String "-" (pretty_N_go (N.pos p) "")).
    cbn [free_of]. by rewrite H1.
Qed.

(** A leading slash is dropped by [doc]. *)
Lemma doc_path_leading_slash (s : string) :
  free_of "/" s = true -> s ≠ "" -> doc_path (String "/" s) = Ok [s].
Proof.
  intros H Hne. unfold doc_path.
  assert (Hi : includes (String "/" s) "//" = false).
  { pose proof (includes_free s H) as Hs. unfold includes in *.
    cbn [String.index]. rewrite prefix_cons.
    destruct s as [|a r]; [done|].
    cbn [free_of] in H. apply andb_true_iff in H as [Ha _].
    apply negb_true_iff, Ascii.eqb_neq in Ha.
    replace (String.prefix "/" (String a r)) with false.
    2:{ cbn [String.prefix]. destruct (ascii_dec "/" a); [congruence|done]. }
    by destruct (String.index 0 "//" (String a r)). }
  rewrite Hi. cbn [split]. rewrite Ascii.eqb_refl, split_free by done.
  cbn [List.filter String.eqb negb]. apply String.eqb_neq in Hne. by rewrite Hne.
Qed.

Lemma own_path_token (n : Z) :
  doc_path ("/" +:+ toString n) = Ok [toString n] /\
  "/" +:+ toString n ≠ toString n /\
  truthy (of_string (Some ("/" +:+ toString n))) = true.
Proof.
  destruct (toString_plain n) as [H1 H2].
  change ("/" +:+ toString n) with (String "/" (toString n)).
  split; [by apply doc_path_leading_slash|]. split; [|done].
  intros H. rewrite <- H in H1. cbn [free_of] in H1. done.
Qed.

(** X21.  The test against self-referral compares strings, the store
    resolves paths.  [doc] drops a leading slash, so the token "/"
    followed by the user's own id passes the test
    [referralId !== userId] and names the user's own record.  A user
    whose record holds [coins] (an integer in the exact range) and who
    is not yet rewarded (in revision 2: and not yet attributed) is then
    rewarded as their own referrer: the call takes the reward branch and
    the user's own [coins] go up by 500. *)
Theorem self_referral_through_path (e : env) (userId : Z) (w : world)
    (userData : doc) (n : Z) :
  transaction_fails e = false ->
  users (db w) !! [toString userId] = Some userData ->
  userData !! "coins" = Some (JNum n) -> exact n 500 ->
  let token := "/" +:+ toString userId in
  (truthy (userData !! "rewardGiven") = false ->
   truthy (userData !! "refferBy") = false ->
   exists s' d',
     V2.process e (toString userId) (Some token) w = (Ok Rewarded, World s' (sent w)) /\
     users s' !! [toString userId] = Some d' /\
     d' !! "coins" = Some (JNum (n + 500)) /\
     ref_rewards s' !! [toString userId]
     = Some (Reward (JStr (toString userId)) (JStr token) 500 (now e))) /\
  (userData !! "rewardGiven" ≠ Some (JBool true) ->
   exists s' d',
     V3.processReferralReward e userId (Some token) w = (Ok Rewarded, World s' (sent w)) /\
     users s' !! [toString userId] = Some d' /\
     d' !! "coins" = Some (JNum (n + 500))).
Proof.
  intros Hf Hu Hc Hex token.
  destruct (own_path_token userId) as (Hd & Hne & Ht). fold token in Hd, Hne, Ht.
  pose proof (user_reference userId) as Hp. clearbody token.
  assert (Htr : truthy (Some (JStr token)) = true) by exact Ht.
  split.
  - intros Hrg Hby.
    assert (Hfin : V2.finalReferrerId userData (toString userId) (Some token)
                   = Some (JStr token)).
    { unfold V2.finalReferrerId. rewrite Hby, Ht.
      rewrite bool_decide_eq_false_2 by congruence. done. }
    destruct (v2_after e (toString userId) (Some token) [toString userId] w Hp)
      as (r & s' & Hrun & _ & Hcall).
    inversion Hcall as [Hf'|Hf' Hn|ud ex Hf' Hu' Hrg' Hd'|ud o Hf' Hu' fin Ho
                       |ud rref refData Hf' Hu' fin Hfin' Hrg' Hd' Hr]; subst;
      try congruence.
    + assert (ud = userData) as -> by congruence. rewrite Hfin in Hd'.
      cbn [doc_of] in Hd'. congruence.
    + assert (ud = userData) as -> by congruence. subst fin. rewrite Hfin in Ho.
      destruct Ho as [[? _]|[(_ & ? & _)|(rref & _ & _ & Hd' & Hr & _)]];
        [congruence|congruence|].
      cbn [doc_of] in Hd'. congruence.
    + assert (ud = userData) as -> by congruence.
      assert (rref = [toString userId]) as ->.
      { subst fin. rewrite Hfin in Hd'. cbn [doc_of] in Hd'. congruence. }
      assert (refData = userData) as -> by congruence.
      eexists _, _. split; [exact Hrun|].
      unfold v2_rewarded_store. cbn [users ref_rewards].
      split; [apply lookup_insert_eq|]. split.
      * rewrite decide_True by done.
        rewrite lookup_union, lookup_insert_ne, v2_updates_lookup by done.
        rewrite (bool_decide_eq_false_2 ("coins" = "refferBy")) by done.
        rewrite (bool_decide_eq_false_2 (userData !! "coins" = None)) by congruence.
        rewrite (left_id_L None (∪)).
        erewrite lookup_union_Some_l; [reflexivity|].
        by rewrite v2_credit_coins, Hc, plus_or_else_num.
      * rewrite lookup_insert_eq. subst fin. by rewrite Hfin.
  - intros Hrg.
    destruct (v3_after e userId (Some token) [toString userId] w Hp)
      as (r & s' & Hrun & _ & Hcall).
    inversion Hcall as [Ht'|Ht' Heq|ex Ht' Hne' Hd'|rref Ht' Hne' Hd' Hf'
                       |rref Ht' Hne' Hd' Hf' Hn|rref ud Ht' Hne' Hd' Hf' Hu' Hrg'
                       |rref ud Ht' Hne' Hd' Hf' Hu' Hrg']; subst;
      try congruence.
    + cbn [of_string fmap option_fmap option_map doc_of] in Hd'. congruence.
    + assert (ud = userData) as -> by congruence.
      assert (rref = [toString userId]) as ->.
      { cbn [of_string fmap option_fmap option_map doc_of] in Hd'. congruence. }
      eexists _, _. split; [exact Hrun|].
      unfold v3_rewarded_store. cbn [users].
      split; [apply lookup_insert_eq|].
      rewrite decide_True by done.
      rewrite lookup_insert_ne, merge_doc_lookup, increments_coins by done.
      destruct (negb _ && _); [rewrite lookup_insert_ne by done|];
        by rewrite Hc, increment_exact.
Qed.

(** User 1, who came without a token before, sends "/start /1". *)
Lemma self_referral_through_path_witness :
  (exists s' d',
     V2.process healthy "1" (Some "/1") (World R1_and_user1 [])
     = (Ok Rewarded, World s' []) /\
     users s' !! ["1"] = Some d' /\
     d' !! "coins" = Some (JNum 500) /\
     ref_rewards s' !! ["1"] = Some (Reward (JStr "1") (JStr "/1") 500 1000)) /\
  (exists s' d',
     V3.processReferralReward healthy 1 (Some "/1") (World R1_and_new_user1 [])
     = (Ok Rewarded, World s' []) /\
     users s' !! ["1"] = Some d' /\
     d' !! "coins" = Some (JNum 500)).
Proof.
  split.
  - apply (proj1 (self_referral_through_path healthy 1 (World R1_and_user1 [])
                    (defaults ∪ identity_fields "1" "Ann" None) 0
                    eq_refl eq_refl eq_refl (conj (conj eq_refl eq_refl)
                                                 (conj eq_refl eq_refl))));
      reflexivity.
  - apply (proj2 (self_referral_through_path healthy 1 (World R1_and_new_user1 [])
                    (V3.new_user 1 "Ann" None None) 0
                    eq_refl eq_refl eq_refl (conj (conj eq_refl eq_refl)
                                                 (conj eq_refl eq_refl)))).
    discriminate.
Defined.
